(** * focus-backend: OTP verification engine and temporal stat engine

    A shallow embedding of
      - [src/models/VerificationToken.js] (createOTP, verifyOTP, canResend),
      - the password-reset handlers of [src/routes/auth.routes.js],
      - the user model methods checkBreedUnlocks, updateStreak and
        decayBuddyStats (models/User.js),
      - the buddy routes (routes/buddy.routes.js),
    followed by the properties of the specification that concern them.

    Conventions.  A JavaScript [Date] is its [getTime()] value, a number of
    milliseconds, in [Z].  Counters the schema declares as [Number] and that
    only ever hold integers are in [Z].  Quotients that are fractional in the
    source ([hoursSince], the wait time before rounding) are exact rationals
    in [Q]; the source rounds them with [Math.floor] / [Math.ceil], and every
    divisor is a whole number of milliseconds, so rounding the exact quotient
    gives the integer the source computes.  A clock reading ([Date.now()],
    [new Date()]) is an argument; each call of a method or handler reads the
    clock once.  A random draw is an argument as well. *)

From Stdlib Require Import ZArith QArith Qround List Bool Ascii String Lia.
From Stdlib Require Import Sorted.
Import ListNotations.

Local Open Scope string_scope.
Local Open Scope Z_scope.

(** ** JavaScript helpers *)
Module JS.

(** Truthiness of a string value: only the empty string is falsy. *)
Definition truthy (s : string) : bool :=
  match s with
  | EmptyString => false
  | String _ _ => true
  end.

(** Truthiness of a value that is [null]/[undefined] or a string. *)
Definition truthy_opt (o : option string) : bool :=
  match o with
  | None => false
  | Some s => truthy s
  end.

(** [a || b] on such values. *)
Definition or_else (o : option string) (dflt : string) : string :=
  match o with
  | Some s => if truthy s then s else dflt
  | None => dflt
  end.

(** [Array.prototype.includes] on an array of strings. *)
Fixpoint includes (xs : list string) (x : string) : bool :=
  match xs with
  | [] => false
  | y :: ys => if String.eqb y x then true else includes ys x
  end.

Definition minute_ms : Z := 60 * 1000.
Definition hour_ms : Z := 1000 * 60 * 60.
Definition day_ms : Z := 1000 * 60 * 60 * 24.

End JS.

(** ** Parsing of date-only ISO strings

    [new Date("YYYY-MM-DD")] is midnight UTC of that calendar day.  The
    parser below covers exactly the valid calendar dates written in that form
    (the form the schema documents for [lastSessionDate]); any other string is
    [None], which stands for an invalid date, whose [getTime()] is [NaN]. *)
Module ISODate.

Definition digit (c : ascii) : option Z :=
  let n := Z.of_nat (nat_of_ascii c) in
  if (48 <=? n) && (n <=? 57) then Some (n - 48) else None.

Fixpoint digits (cs : list ascii) (acc : Z) : option Z :=
  match cs with
  | [] => Some acc
  | c :: cs' =>
      match digit c with
      | Some d => digits cs' (10 * acc + d)
      | None => None
      end
  end.

Definition isLeap (y : Z) : bool :=
  ((y mod 4 =? 0) && negb (y mod 100 =? 0)) || (y mod 400 =? 0).

Definition daysInMonth (y m : Z) : Z :=
  if m =? 2 then (if isLeap y then 29 else 28)
  else if (m =? 4) || (m =? 6) || (m =? 9) || (m =? 11) then 30
  else 31.

(** Days between 1970-01-01 and the given civil date. *)
Definition daysFromCivil (y m d : Z) : Z :=
  let y' := if m <=? 2 then y - 1 else y in
  let era := y' / 400 in
  let yoe := y' - era * 400 in
  let mp := if 2 <? m then m - 3 else m + 9 in
  let doy := (153 * mp + 2) / 5 + d - 1 in
  let doe := yoe * 365 + yoe / 4 - yoe / 100 + doy in
  era * 146097 + doe - 719468.

Definition dash : ascii := "-"%char.

Definition parse (s : string) : option Z :=
  match list_ascii_of_string s with
  | [y1; y2; y3; y4; s1; m1; m2; s2; d1; d2] =>
      if Ascii.eqb s1 dash && Ascii.eqb s2 dash then
        match digits [y1; y2; y3; y4] 0, digits [m1; m2] 0, digits [d1; d2] 0 with
        | Some y, Some m, Some d =>
            if (1 <=? m) && (m <=? 12) && (1 <=? d) && (d <=? daysInMonth y m)
            then Some (daysFromCivil y m d * JS.day_ms)
            else None
        | _, _, _ => None
        end
      else None
  | _ => None
  end.

End ISODate.

(** ** The user model (models/User.js) *)
Module User.

(** Breed unlock requirements (kibble needed), in the order in which the
    object literal lists its keys; [Object.entries] enumerates string keys
    that are not array indices in insertion order. *)
Definition BREED_UNLOCK_REQUIREMENTS : list (string * Z) :=
  [ ("golden_retriever", 0);
    ("husky", 100);
    ("shiba_inu", 250);
    ("cavapoo", 500);
    ("french_bulldog", 750);
    ("labrador", 1000);
    ("dachshund", 1500);
    ("australian_shepherd", 2000);
    ("maltese", 3000) ].

(** The fields of the user document that the methods below and the
    password-reset handler read or write. *)
Record t : Type := mk {
  _id : string;
  password : string;
  totalKibble : Z;
  currentStreak : Z;
  longestStreak : Z;
  lastSessionDate : option string;
  unlockedBreeds : list string;
  activeBreed : string;
  buddyHappiness : Z;
  buddyFullness : Z;
  lastBuddyInteraction : Z
}.

Definition set_password (p : string) (u : t) : t :=
  mk (_id u) p (totalKibble u) (currentStreak u) (longestStreak u)
     (lastSessionDate u) (unlockedBreeds u) (activeBreed u)
     (buddyHappiness u) (buddyFullness u) (lastBuddyInteraction u).

Definition set_totalKibble (k : Z) (u : t) : t :=
  mk (_id u) (password u) k (currentStreak u) (longestStreak u)
     (lastSessionDate u) (unlockedBreeds u) (activeBreed u)
     (buddyHappiness u) (buddyFullness u) (lastBuddyInteraction u).

Definition set_currentStreak (c : Z) (u : t) : t :=
  mk (_id u) (password u) (totalKibble u) c (longestStreak u)
     (lastSessionDate u) (unlockedBreeds u) (activeBreed u)
     (buddyHappiness u) (buddyFullness u) (lastBuddyInteraction u).

Definition set_longestStreak (l : Z) (u : t) : t :=
  mk (_id u) (password u) (totalKibble u) (currentStreak u) l
     (lastSessionDate u) (unlockedBreeds u) (activeBreed u)
     (buddyHappiness u) (buddyFullness u) (lastBuddyInteraction u).

Definition set_lastSessionDate (d : option string) (u : t) : t :=
  mk (_id u) (password u) (totalKibble u) (currentStreak u) (longestStreak u)
     d (unlockedBreeds u) (activeBreed u)
     (buddyHappiness u) (buddyFullness u) (lastBuddyInteraction u).

Definition set_unlockedBreeds (bs : list string) (u : t) : t :=
  mk (_id u) (password u) (totalKibble u) (currentStreak u) (longestStreak u)
     (lastSessionDate u) bs (activeBreed u)
     (buddyHappiness u) (buddyFullness u) (lastBuddyInteraction u).

Definition set_buddyHappiness (h : Z) (u : t) : t :=
  mk (_id u) (password u) (totalKibble u) (currentStreak u) (longestStreak u)
     (lastSessionDate u) (unlockedBreeds u) (activeBreed u)
     h (buddyFullness u) (lastBuddyInteraction u).

Definition set_buddyFullness (f : Z) (u : t) : t :=
  mk (_id u) (password u) (totalKibble u) (currentStreak u) (longestStreak u)
     (lastSessionDate u) (unlockedBreeds u) (activeBreed u)
     (buddyHappiness u) f (lastBuddyInteraction u).

Definition set_lastBuddyInteraction (ts : Z) (u : t) : t :=
  mk (_id u) (password u) (totalKibble u) (currentStreak u) (longestStreak u)
     (lastSessionDate u) (unlockedBreeds u) (activeBreed u)
     (buddyHappiness u) (buddyFullness u) ts.

(** *** checkBreedUnlocks

    The loop over the entries of a requirement table: the accumulator is
    the pair of [this.unlockedBreeds] and [newlyUnlocked], both extended by
    [push]. *)
Fixpoint unlockLoop (kibble : Z) (entries : list (string * Z))
         (unlocked newly : list string) : list string * list string :=
  match entries with
  | [] => (unlocked, newly)
  | (breedId, requirement) :: rest =>
      if (requirement <=? kibble) && negb (JS.includes unlocked breedId)
      then unlockLoop kibble rest (unlocked ++ [breedId])%list (newly ++ [breedId])%list
      else unlockLoop kibble rest unlocked newly
  end.

(** The method over an arbitrary table; it returns [newlyUnlocked] and the
    mutated document. *)
Definition checkBreedUnlocksWith (table : list (string * Z)) (u : t)
  : list string * t :=
  let r := unlockLoop (totalKibble u) table (unlockedBreeds u) [] in
  (snd r, set_unlockedBreeds (fst r) u).

Definition checkBreedUnlocks (u : t) : list string * t :=
  checkBreedUnlocksWith BREED_UNLOCK_REQUIREMENTS u.

(** *** updateStreak *)
Section Streak.

(** [new Date(s).getTime()]: [None] is [NaN]. *)
Variable getTime : string -> option Z.

(** [Math.floor((todayDate.getTime() - lastDate.getTime()) / day)];
    [None] is [NaN]. *)
Definition diffDays (last today : string) : option Z :=
  match getTime today, getTime last with
  | Some t, Some l => Some ((t - l) / JS.day_ms)
  | _, _ => None
  end.

(** The value of [this.currentStreak] after the first [if]. *)
Definition nextStreak (u : t) (today : string) : Z :=
  if negb (JS.truthy_opt (lastSessionDate u)) then 1
  else
    match lastSessionDate u with
    | None => 1
    | Some last =>
        match diffDays last today with
        | Some 0 => currentStreak u
        | Some 1 => currentStreak u + 1
        | _ => 1
        end
    end.

(** [clockDate] is [new Date().toISOString().split('T')[0]], used when
    [sessionDate] is missing or falsy. *)
Definition updateStreak (clockDate : string) (sessionDate : option string)
           (u : t) : t :=
  let today := JS.or_else sessionDate clockDate in
  let u1 := set_currentStreak (nextStreak u today) u in
  let u2 := if longestStreak u1 <? currentStreak u1
            then set_longestStreak (currentStreak u1) u1
            else u1 in
  set_lastSessionDate (Some today) u2.

(** The documents after each call of a sequence of calls. *)
Fixpoint streakTrace (clockDate : string) (dates : list (option string))
         (u : t) : list t :=
  match dates with
  | [] => []
  | d :: rest =>
      let u' := updateStreak clockDate d u in
      u' :: streakTrace clockDate rest u'
  end.

End Streak.

(** *** decayBuddyStats *)
Record decayResult : Type := mkDecay {
  happiness : Z;
  fullness : Z;
  hoursSinceInteraction : Q
}.

Definition hoursSince (now : Z) (u : t) : Q :=
  (inject_Z (now - lastBuddyInteraction u) / inject_Z JS.hour_ms)%Q.

Definition decayOf (now : Z) (u : t) : Z :=
  Qfloor (hoursSince now u * 2)%Q.

Definition decayBuddyStats (now : Z) (u : t) : decayResult * t :=
  let decay := decayOf now u in
  let u' :=
    if 0 <? decay then
      let u1 := set_buddyHappiness (Z.max 20 (buddyHappiness u - decay)) u in
      set_buddyFullness (Z.max 10 (buddyFullness u1 - decay)) u1
    else u in
  (mkDecay (buddyHappiness u') (buddyFullness u') (hoursSince now u), u').

End User.

(** ** The buddy routes (routes/buddy.routes.js)

    [req.user] is the stored user document; a handler returns its response
    and the document as stored afterwards ([user.save()] on the paths that
    reach it, the document as it was on the paths that return before).  The
    display texts ([message], [status.text], [status.emoji]) are left out. *)
Module BuddyRoutes.

(** [getBuddyStatus(happiness, fullness).state] *)
Definition getBuddyStatus (happiness fullness : Z) : string :=
  if fullness <? 30 then "sleeping"
  else if 90 <=? happiness then "happy"
  else if fullness <? 50 then "hungry"
  else if happiness <? 50 then "lonely"
  else "idle".

Record buddyStats : Type := mkStats {
  st_happiness : Z;
  st_fullness : Z;
  st_lastInteraction : Z;
  st_activeBreed : string;
  st_hoursSinceInteraction : Q;
  st_state : string
}.

(** GET /buddy *)
Definition getBuddy (now : Z) (user : User.t) : buddyStats * User.t :=
  let '(stats, user') := User.decayBuddyStats now user in
  (mkStats (User.buddyHappiness user') (User.buddyFullness user')
           (User.lastBuddyInteraction user') (User.activeBreed user')
           (User.hoursSinceInteraction stats)
           (getBuddyStatus (User.buddyHappiness user') (User.buddyFullness user')),
   user').

Inductive response : Type :=
| Success (action : string) (kibbleSpent happiness fullness kibbleBalance : Z)
          (state : string)
| NotEnoughKibble (kibbleBalance : Z)
| InvalidAction.

Definition status (r : response) : Z :=
  match r with
  | Success _ _ _ _ _ _ => 200
  | NotEnoughKibble _ => 400
  | InvalidAction => 400
  end.

(** The tail of the handler, after the [switch]. *)
Definition finish (action : string) (kibbleSpent now : Z) (user : User.t)
  : response * User.t :=
  let user' := User.set_lastBuddyInteraction now user in
  (Success action kibbleSpent (User.buddyHappiness user')
           (User.buddyFullness user') (User.totalKibble user')
           (getBuddyStatus (User.buddyHappiness user') (User.buddyFullness user')),
   user').

(** POST /buddy/interact *)
Definition interact (action : string) (now : Z) (user : User.t)
  : response * User.t :=
  if String.eqb action "pet" then
    finish action 0 now
      (User.set_buddyHappiness (Z.min 100 (User.buddyHappiness user + 5)) user)
  else if String.eqb action "play" then
    let u1 := User.set_buddyHappiness (Z.min 100 (User.buddyHappiness user + 10)) user in
    finish action 0 now
      (User.set_buddyFullness (Z.max 0 (User.buddyFullness u1 - 5)) u1)
  else if String.eqb action "treat" then
    if User.totalKibble user <? 10 then
      (NotEnoughKibble (User.totalKibble user), user)
    else
      let u1 := User.set_totalKibble (User.totalKibble user - 10) user in
      let u2 := User.set_buddyFullness (Z.min 100 (User.buddyFullness u1 + 20)) u1 in
      finish action 10 now
        (User.set_buddyHappiness (Z.min 100 (User.buddyHappiness u2 + 5)) u2)
  else (InvalidAction, user).

End BuddyRoutes.

(** ** The verification token model (models/VerificationToken.js)

    The collection is the list of its documents in natural order.
    [findOne] returns the first document that matches, [deleteOne] removes
    the first document that matches, [deleteMany] all of them, [save] writes a
    document back over the one with its [_id], and [create] appends a
    document under an [_id] no stored document has. *)
Module VerificationToken.

(** The enum of the [type] field: ['email'] or ['password']. *)
Inductive kind : Type := KEmail | KPassword.

Definition kind_eqb (a b : kind) : bool :=
  match a, b with
  | KEmail, KEmail => true
  | KPassword, KPassword => true
  | _, _ => false
  end.

Record t : Type := mk {
  _id : nat;
  userId : string;
  email : string;
  otp : string;
  type : kind;
  attempts : Z;
  maxAttempts : Z;
  resendCount : Z;
  lastResendAt : Z;
  expiresAt : Z;
  resetToken : option string;
  resetTokenExpiresAt : option Z
}.

Definition collection : Type := list t.

Definition set_attempts (a : Z) (d : t) : t :=
  mk (_id d) (userId d) (email d) (otp d) (type d) a (maxAttempts d)
     (resendCount d) (lastResendAt d) (expiresAt d)
     (resetToken d) (resetTokenExpiresAt d).

Definition set_resetToken (tok : string) (exp : Z) (d : t) : t :=
  mk (_id d) (userId d) (email d) (otp d) (type d) (attempts d) (maxAttempts d)
     (resendCount d) (lastResendAt d) (expiresAt d)
     (Some tok) (Some exp).

(** *** Collection primitives *)
Definition findOne (q : t -> bool) (c : collection) : option t := find q c.

Definition deleteMany (q : t -> bool) (c : collection) : collection :=
  filter (fun d => negb (q d)) c.

Fixpoint deleteOne (q : t -> bool) (c : collection) : collection :=
  match c with
  | [] => []
  | d :: rest => if q d then rest else d :: deleteOne q rest
  end.

Definition save (d : t) (c : collection) : collection :=
  map (fun x => if Nat.eqb (_id x) (_id d) then d else x) c.

Definition freshId (c : collection) : nat := S (list_max (map _id c)).

(** *** Queries *)

(** [{ userId, type }] *)
Definition byUserType (uid : string) (ty : kind) (d : t) : bool :=
  String.eqb (userId d) uid && kind_eqb (type d) ty.

(** [{ userId, type, lastResendAt: { $gte: tenMinutesAgo } }] *)
Definition recentFor (tenMinutesAgo : Z) (uid : string) (ty : kind) (d : t) : bool :=
  byUserType uid ty d && (tenMinutesAgo <=? lastResendAt d).

(** [{ _id }] *)
Definition byId (i : nat) (d : t) : bool := Nat.eqb (_id d) i.

Definition window_ms : Z := 10 * 60 * 1000.

(** *** createOTP *)

(** The error thrown: its message embeds [waitTime]. *)
Inductive error : Type := TooManyRequests (waitTime : Z).

(** [Math.ceil((lastResendAt.getTime() + 10*60*1000 - Date.now()) / 1000 / 60)] *)
Definition waitTime (now : Z) (d : t) : Z :=
  Qceiling (inject_Z (lastResendAt d + window_ms - now) / 1000 / 60)%Q.

(** The second half of createOTP: delete the user's documents of this
    type, then create the new one.  [count] is the value of
    [existingToken ? existingToken.resendCount + 1 : 0]. *)
Definition issue (now : Z) (code : string) (uid mail : string) (ty : kind)
           (count : Z) (c : collection) : string * collection :=
  let c1 := deleteMany (byUserType uid ty) c in
  let doc := mk (freshId c) uid mail code ty 0 5 count
                now (now + window_ms) None None in
  (otp doc, (c1 ++ [doc])%list).

(** [code] is the value of [this.generateOTP()]. *)
Definition createOTP (now : Z) (code : string) (uid mail : string) (ty : kind)
           (c : collection) : (error + string) * collection :=
  let tenMinutesAgo := now - window_ms in
  let existingToken := findOne (recentFor tenMinutesAgo uid ty) c in
  match existingToken with
  | Some d =>
      if 3 <=? resendCount d
      then (inl (TooManyRequests (waitTime now d)), c)
      else
        let '(o, c') := issue now code uid mail ty (resendCount d + 1) c in
        (inr o, c')
  | None =>
      let '(o, c') := issue now code uid mail ty 0 c in
      (inr o, c')
  end.

(** *** verifyOTP *)
Inductive verifyResult : Type :=
| Valid (uid : string)
| NoCodeFound
| CodeExpired
| TooManyAttempts
| InvalidCode (remainingAttempts : Z).

Definition verifyOTP (now : Z) (uid code : string) (ty : kind) (c : collection)
  : verifyResult * collection :=
  match findOne (byUserType uid ty) c with
  | None => (NoCodeFound, c)
  | Some d =>
      if expiresAt d <? now then
        (CodeExpired, deleteOne (byId (_id d)) c)
      else if maxAttempts d <=? attempts d then
        (TooManyAttempts, deleteOne (byId (_id d)) c)
      else if negb (String.eqb (otp d) code) then
        let d' := set_attempts (attempts d + 1) d in
        (InvalidCode (maxAttempts d' - attempts d'), save d' c)
      else
        (Valid (userId d), deleteOne (byId (_id d)) c)
  end.

(** A run of verifyOTP calls, each with its clock reading and code. *)
Fixpoint verifyAll (uid : string) (ty : kind) (calls : list (Z * string))
         (c : collection) : list verifyResult * collection :=
  match calls with
  | [] => ([], c)
  | (now, code) :: rest =>
      let '(r, c1) := verifyOTP now uid code ty c in
      let '(rs, c2) := verifyAll uid ty rest c1 in
      (r :: rs, c2)
  end.

(** *** canResend *)
Inductive resendResult : Type :=
| CanResend (count : Z)
| MustWait (waitSeconds count : Z).

Definition canResend (now : Z) (uid : string) (ty : kind) (c : collection)
  : resendResult :=
  let tenMinutesAgo := now - window_ms in
  match findOne (recentFor tenMinutesAgo uid ty) c with
  | None => CanResend 0
  | Some d =>
      if 3 <=? resendCount d then
        MustWait (Qceiling (inject_Z (lastResendAt d + window_ms - now) / 1000)%Q)
                 (resendCount d)
      else CanResend (resendCount d)
  end.

End VerificationToken.

(** ** The password-reset handlers (routes/auth.routes.js)

    The database is the pair of the user collection and the token
    collection.  A body field is a string; a missing field is the empty
    string, which [!field] treats alike.  The stored password is the value
    assigned to [user.password] (hashing is the pre-save hook's work). *)
Module AuthRoutes.

Module VT := VerificationToken.

Record db : Type := mkDb {
  users : list User.t;
  tokens : VT.collection
}.

(** [User.findById(userId)] *)
Definition findById (uid : string) (us : list User.t) : option User.t :=
  find (fun u => String.eqb (User._id u) uid) us.

(** [user.save()] *)
Definition saveUser (u : User.t) (us : list User.t) : list User.t :=
  map (fun x => if String.eqb (User._id x) (User._id u) then u else x) us.

Definition isDigit (c : ascii) : bool :=
  let n := nat_of_ascii c in (Nat.leb 48 n && Nat.leb n 57)%bool.

(** [/^\d{6}$/.test(otp)] *)
Definition otpFormat (otp : string) : bool :=
  let cs := list_ascii_of_string otp in
  Nat.eqb (List.length cs) 6 && forallb isDigit cs.

(** *** POST /auth/verify-reset-otp *)
Inductive verifyResponse : Type :=
| FieldsRequired
| BadFormat
| VerifyUserNotFound
| NoCodeFound
| CodeExpired
| TooManyAttempts
| InvalidCode (remainingAttempts : Z)
| Verified (resetToken uid : string).

Definition verifyStatus (r : verifyResponse) : Z :=
  match r with
  | VerifyUserNotFound => 404
  | Verified _ _ => 200
  | _ => 400
  end.

(** [token] is the value of
    [Math.random().toString(36).slice(-16) + Date.now().toString(36)]. *)
Definition verifyResetOtp (now : Z) (token : string) (uid otp : string) (s : db)
  : verifyResponse * db :=
  if negb (JS.truthy uid) || negb (JS.truthy otp) then (FieldsRequired, s)
  else if negb (otpFormat otp) then (BadFormat, s)
  else
    match findById uid (users s) with
    | None => (VerifyUserNotFound, s)
    | Some user =>
        match VT.findOne (VT.byUserType uid VT.KPassword) (tokens s) with
        | None => (NoCodeFound, s)
        | Some d =>
            if VT.expiresAt d <? now then
              (CodeExpired,
               mkDb (users s) (VT.deleteOne (VT.byId (VT._id d)) (tokens s)))
            else if VT.maxAttempts d <=? VT.attempts d then
              (TooManyAttempts,
               mkDb (users s) (VT.deleteOne (VT.byId (VT._id d)) (tokens s)))
            else if negb (String.eqb (VT.otp d) otp) then
              let d' := VT.set_attempts (VT.attempts d + 1) d in
              (InvalidCode (VT.maxAttempts d' - VT.attempts d'),
               mkDb (users s) (VT.save d' (tokens s)))
            else
              let d' := VT.set_resetToken token (now + 5 * 60 * 1000) d in
              (Verified token (User._id user),
               mkDb (users s) (VT.save d' (tokens s)))
        end
    end.

(** *** POST /auth/reset-password *)
Inductive resetResponse : Type :=
| AllFieldsRequired
| PasswordTooShort
| InvalidOrExpiredResetToken
| ResetTokenExpired
| ResetUserNotFound
| PasswordReset.

Definition resetStatus (r : resetResponse) : Z :=
  match r with
  | ResetUserNotFound => 404
  | PasswordReset => 200
  | _ => 400
  end.

(** [{ userId, type: 'password', resetToken }] *)
Definition byResetToken (uid tok : string) (d : VT.t) : bool :=
  VT.byUserType uid VT.KPassword d &&
  match VT.resetToken d with
  | Some t' => String.eqb t' tok
  | None => false
  end.

(** [verificationToken.resetTokenExpiresAt < new Date()]; the comparison
    is false when the field is missing. *)
Definition resetTokenStale (now : Z) (d : VT.t) : bool :=
  match VT.resetTokenExpiresAt d with
  | Some e => e <? now
  | None => false
  end.

Definition resetPassword (now : Z) (uid resetToken password : string) (s : db)
  : resetResponse * db :=
  if negb (JS.truthy uid) || negb (JS.truthy resetToken) || negb (JS.truthy password)
  then (AllFieldsRequired, s)
  else if Nat.ltb (String.length password) 6 then (PasswordTooShort, s)
  else
    match VT.findOne (byResetToken uid resetToken) (tokens s) with
    | None => (InvalidOrExpiredResetToken, s)
    | Some d =>
        if resetTokenStale now d then
          (ResetTokenExpired,
           mkDb (users s) (VT.deleteOne (VT.byId (VT._id d)) (tokens s)))
        else
          match findById uid (users s) with
          | None => (ResetUserNotFound, s)
          | Some user =>
              let user' := User.set_password password user in
              (PasswordReset,
               mkDb (saveUser user' (users s))
                    (VT.deleteOne (VT.byId (VT._id d)) (tokens s)))
          end
    end.

End AuthRoutes.

(** ** Definitions used to state the properties *)

(** An entry of a requirement table that the loop of checkBreedUnlocks
    unlocks for a user with the given kibble and unlocked breeds. *)
Definition eligible (kibble : Z) (unlocked : list string) (e : string * Z) : bool :=
  (snd e <=? kibble) && negb (JS.includes unlocked (fst e)).

(** Entries in ascending order of requirement. *)
Definition byRequirement (a b : string * Z) : Prop := snd a <= snd b.

Definition abcTable : list (string * Z) := [("a", 0); ("b", 100); ("c", 250)].

(** At most one document per (userId, type): the invariant of the data
    model. *)
Definition atMostOnePer (c : VerificationToken.collection) : Prop :=
  forall d1 d2 : VerificationToken.t,
    In d1 c -> In d2 c ->
    VerificationToken.userId d1 = VerificationToken.userId d2 ->
    VerificationToken.type d1 = VerificationToken.type d2 ->
    d1 = d2.

(** The documents of a collection have distinct [_id]s. *)
Definition uniqueIds (c : VerificationToken.collection) : Prop :=
  NoDup (map VerificationToken._id c).

(** [d] is the last document of [c], the only one of its user and type, and
    no other document has its [_id]: the state createOTP leaves. *)
Definition soleRecord (uid : string) (ty : VerificationToken.kind)
           (d : VerificationToken.t) (c : VerificationToken.collection) : Prop :=
  exists others : VerificationToken.collection,
    c = (others ++ [d])%list /\
    VerificationToken.byUserType uid ty d = true /\
    forall x : VerificationToken.t,
      In x others ->
      VerificationToken.byUserType uid ty x = false /\
      VerificationToken._id x <> VerificationToken._id d.

(** The wait time in the words of the specification: the remaining time
    divided by 60 seconds, then by 60, rounded up. *)
Definition claimedWaitTime (now : Z) (d : VerificationToken.t) : Z :=
  Qceiling (inject_Z (VerificationToken.lastResendAt d
                      + VerificationToken.window_ms - now)
            / inject_Z (60 * 1000) / 60)%Q.

(** The resendCount of the document a collection holds for a user and type. *)
Definition resendCountOf (uid : string) (ty : VerificationToken.kind)
           (c : VerificationToken.collection) : option Z :=
  option_map VerificationToken.resendCount
             (VerificationToken.findOne (VerificationToken.byUserType uid ty) c).

(** The fields of a document as createOTP writes them. *)
Definition issuedAt (now : Z) (code : string) (count : Z)
           (d : VerificationToken.t) : Prop :=
  VerificationToken.otp d = code /\
  VerificationToken.attempts d = 0 /\
  VerificationToken.maxAttempts d = 5 /\
  VerificationToken.resendCount d = count /\
  VerificationToken.lastResendAt d = now /\
  VerificationToken.expiresAt d = now + VerificationToken.window_ms /\
  VerificationToken.resetToken d = None.

(** A verifyOTP call made no later than [deadline] with a code other than
    [code]. *)
Definition wrongCall (deadline : Z) (code : string) (call : Z * string) : Prop :=
  fst call <= deadline /\ snd call <> code.

(** The results of [n] mismatches in a row with [from] attempts left:
    [from - 1], [from - 2], ... remaining attempts. *)
Fixpoint countdown (from : Z) (n : nat) : list VerificationToken.verifyResult :=
  match n with
  | O => []
  | S n' => VerificationToken.InvalidCode (from - 1) :: countdown (from - 1) n'
  end.

(** The responses of reset-password that reject the reset token: no
    document matches it, or its time has passed.  Both have status 400. *)
Definition invalidResetToken (r : AuthRoutes.resetResponse) : Prop :=
  r = AuthRoutes.InvalidOrExpiredResetToken \/ r = AuthRoutes.ResetTokenExpired.

(** A document matches the three fields of the reset-password query. *)
Definition matchesReset (uid tok : string) (d : VerificationToken.t) : Prop :=
  VerificationToken.userId d = uid /\
  VerificationToken.type d = VerificationToken.KPassword /\
  VerificationToken.resetToken d = Some tok.

(** ** The streak check of GET /stats (routes/stats.routes.js)

    The block of the handler that follows the comment "Check if streak is
    still valid": [today] is the clock's date, and the document returned is
    the one stored afterwards. *)
Module StatsRoutes.

Section Check.

Variable getTime : string -> option Z.

Definition checkStreak (today : string) (user : User.t) : User.t :=
  match User.lastSessionDate user with
  | Some last =>
      if JS.truthy last then
        match User.diffDays getTime last today with
        | Some diffDays =>
            if 1 <? diffDays then User.set_currentStreak 0 user else user
        | None => user
        end
      else user
  | None => user
  end.

End Check.

End StatsRoutes.

(** The document after a sequence of updateStreak calls. *)
Fixpoint applySessions (getTime : string -> option Z) (clockDate : string)
         (dates : list (option string)) (u : User.t) : User.t :=
  match dates with
  | [] => u
  | d :: rest =>
      applySessions getTime clockDate rest
                    (User.updateStreak getTime clockDate d u)
  end.

(** Each date of the list is one day after the one before it: both parse
    and the floor of their difference over one day is 1. *)
Fixpoint consecutiveDays (getTime : string -> option Z) (prev : string)
         (dates : list string) : Prop :=
  match dates with
  | [] => True
  | d :: rest =>
      JS.truthy d = true /\
      User.diffDays getTime prev d = Some 1 /\
      consecutiveDays getTime d rest
  end.

(** The stats of a user document lie in the ranges of the schema. *)
Definition statsInRange (u : User.t) : Prop :=
  0 <= User.buddyHappiness u <= 100 /\
  0 <= User.buddyFullness u <= 100 /\
  0 <= User.totalKibble u.

(** ** generateOTP (models/VerificationToken.js)

    [Math.random()] is an argument, an exact rational; [toString] writes a
    non-negative integer in decimal, most significant digit first. *)
Fixpoint decimalDigits (fuel : nat) (n : Z) (acc : string) : string :=
  match fuel with
  | O => acc
  | S fuel' =>
      let acc' := String (ascii_of_nat (48 + Z.to_nat (n mod 10))) acc in
      if n <? 10 then acc' else decimalDigits fuel' (n / 10) acc'
  end.

Definition toString (n : Z) : string :=
  decimalDigits (S (Z.to_nat (Z.log2 n))) n "".

Definition generateOTP (random : Q) : string :=
  toString (Qfloor (100000 + random * 900000)%Q).

(** * Properties *)

Local Open Scope list_scope.

(** ** Buddy decay *)

Definition exampleUser (h f last : Z) : User.t :=
  User.mk "u1" "secret" 0 0 0 None ["golden_retriever"] "golden_retriever" h f last.

(** Two decay points are lost per elapsed hour, that is one per elapsed half
    hour: the rounded rational is an integer quotient of the elapsed
    milliseconds. *)
Lemma decayOf_div (now : Z) (u : User.t) :
  User.decayOf now u = (now - User.lastBuddyInteraction u) / 1800000.
Proof.
  unfold User.decayOf, User.hoursSince.
  rewrite (Zdiv_Qdiv (now - User.lastBuddyInteraction u) 1800000).
  apply Qfloor_comp.
  change (inject_Z JS.hour_ms) with (inject_Z 3600000).
  unfold Qeq, Qdiv, Qmult, Qinv, inject_Z; simpl. ring.
Qed.

Lemma decayBuddyStats_result (now : Z) (u : User.t) :
  let r := fst (User.decayBuddyStats now u) in
  let u' := snd (User.decayBuddyStats now u) in
  User.happiness r = User.buddyHappiness u' /\
  User.fullness r = User.buddyFullness u' /\
  User.hoursSinceInteraction r = User.hoursSince now u.
Proof. unfold User.decayBuddyStats; simpl; auto. Qed.

(** Claim C8.  decayBuddyStats takes the hours since the last interaction
    as the exact quotient of the elapsed milliseconds by one hour, and the
    decay as the floor of twice that, which is the number of whole half hours
    elapsed.  A positive decay lowers happiness to max(20, happiness - decay)
    and fullness to max(10, fullness - decay); otherwise the document is left
    as it is.  No field other than these two is written, lastBuddyInteraction
    in particular, and the result carries the stored values after the decay
    with the hours.  With the last interaction 3.4 hours ago and both stats at
    100 the decay is 6 and the result is 94 and 94. *)
Theorem decayBuddyStats_spec :
  (forall (now : Z) (u : User.t),
     let elapsed := now - User.lastBuddyInteraction u in
     let hours := (inject_Z elapsed / inject_Z (1000 * 60 * 60))%Q in
     let decay := Qfloor (hours * 2)%Q in
     let r := fst (User.decayBuddyStats now u) in
     let u' := snd (User.decayBuddyStats now u) in
     decay = elapsed / 1800000 /\
     (0 < decay ->
        User.buddyHappiness u' = Z.max 20 (User.buddyHappiness u - decay) /\
        User.buddyFullness u' = Z.max 10 (User.buddyFullness u - decay)) /\
     (decay <= 0 -> u' = u) /\
     User.lastBuddyInteraction u' = User.lastBuddyInteraction u /\
     u' = User.set_buddyFullness (User.buddyFullness u')
            (User.set_buddyHappiness (User.buddyHappiness u') u) /\
     r = User.mkDecay (User.buddyHappiness u') (User.buddyFullness u') hours) /\
  (forall (now : Z) (u : User.t),
     now - User.lastBuddyInteraction u = 12240000 ->
     User.buddyHappiness u = 100 ->
     User.buddyFullness u = 100 ->
     User.decayOf now u = 6 /\
     User.happiness (fst (User.decayBuddyStats now u)) = 94 /\
     User.fullness (fst (User.decayBuddyStats now u)) = 94 /\
     User.buddyHappiness (snd (User.decayBuddyStats now u)) = 94 /\
     User.buddyFullness (snd (User.decayBuddyStats now u)) = 94).
Proof.
  split.
  - intros now u elapsed hours decay r u'.
    assert (Hd : decay = User.decayOf now u) by reflexivity.
    assert (Hdiv : decay = elapsed / 1800000)
      by (rewrite Hd; apply decayOf_div).
    subst r u'. unfold User.decayBuddyStats. fold (User.decayOf now u).
    rewrite <- Hd. cbn [fst snd].
    split; [exact Hdiv|].
    destruct (0 <? decay) eqn:Hpos.
    + apply Z.ltb_lt in Hpos.
      split; [intros _; split; reflexivity|].
      split; [intros Hle; lia|].
      split; [reflexivity|].
      split; reflexivity.
    + apply Z.ltb_ge in Hpos.
      split; [intros Hlt; lia|].
      split; [intros _; reflexivity|].
      split; [reflexivity|].
      split; [destruct u; reflexivity|reflexivity].
  - intros now u He Hh Hf.
    assert (Hd : User.decayOf now u = 6)
      by (rewrite decayOf_div, He; reflexivity).
    unfold User.decayBuddyStats. rewrite Hd. cbn.
    rewrite Hh, Hf. repeat split; reflexivity.
Qed.

Lemma decayBuddyStats_spec_witness :
  let u := exampleUser 100 100 1000 in
  12241000 - User.lastBuddyInteraction u = 12240000 /\
  User.buddyHappiness u = 100 /\
  User.buddyFullness u = 100 /\
  User.happiness (fst (User.decayBuddyStats 12241000 u)) = 94 /\
  User.fullness (fst (User.decayBuddyStats 12241000 u)) = 94.
Proof.
  intros u.
  split; [reflexivity|]. split; [reflexivity|]. split; [reflexivity|].
  pose proof (proj2 decayBuddyStats_spec 12241000 u eq_refl eq_refl eq_refl) as H.
  split; [exact (proj1 (proj2 H)) | exact (proj1 (proj2 (proj2 H)))].
Defined.

Lemma decayBuddyStats_pos (now : Z) (u : User.t) :
  0 < User.decayOf now u ->
  snd (User.decayBuddyStats now u) =
  User.set_buddyFullness
    (Z.max 10 (User.buddyFullness u - User.decayOf now u))
    (User.set_buddyHappiness
       (Z.max 20 (User.buddyHappiness u - User.decayOf now u)) u).
Proof.
  intros Hd. apply Z.ltb_lt in Hd.
  unfold User.decayBuddyStats. rewrite Hd. reflexivity.
Qed.

(** The second of two calls at the same clock reading starts from the values
    the first one wrote, and takes the same decay off them again. *)
Lemma decayBuddyStats_again (now : Z) (u : User.t) :
  let d := User.decayOf now u in
  let u1 := snd (User.decayBuddyStats now u) in
  let u2 := snd (User.decayBuddyStats now u1) in
  0 < d ->
  User.buddyHappiness u2 = Z.max 20 (Z.max 20 (User.buddyHappiness u - d) - d) /\
  User.buddyFullness u2 = Z.max 10 (Z.max 10 (User.buddyFullness u - d) - d).
Proof.
  intros d u1 u2 Hd.
  assert (Hu1 : u1 = User.set_buddyFullness
                       (Z.max 10 (User.buddyFullness u - d))
                       (User.set_buddyHappiness
                          (Z.max 20 (User.buddyHappiness u - d)) u))
    by (apply decayBuddyStats_pos; exact Hd).
  assert (Hd1 : User.decayOf now u1 = d).
  { subst d. rewrite Hu1, !decayOf_div. reflexivity. }
  assert (Hu2 : u2 = User.set_buddyFullness
                       (Z.max 10 (User.buddyFullness u1 - d))
                       (User.set_buddyHappiness
                          (Z.max 20 (User.buddyHappiness u1 - d)) u1)).
  { subst u2. rewrite <- Hd1. apply decayBuddyStats_pos. rewrite Hd1. exact Hd. }
  rewrite Hu2, Hu1. split; reflexivity.
Qed.

(** Claim C3, evaluated on the code.  With both stats at 100 and the last
    interaction 3.4 hours before the clock reading, a first decayBuddyStats
    returns 94 and 94 and leaves lastBuddyInteraction as it was; a second
    call at the same clock reading returns 88 and 88: the decay is taken
    twice.  The same holds for two GET /buddy requests, which store the
    document after each call. *)
Theorem decayBuddyStats_twice_differs :
  let u := exampleUser 100 100 0 in
  let now := 12240000 in
  let r1 := fst (User.decayBuddyStats now u) in
  let u1 := snd (User.decayBuddyStats now u) in
  let r2 := fst (User.decayBuddyStats now u1) in
  (User.happiness r1, User.fullness r1) = (94, 94) /\
  User.lastBuddyInteraction u1 = User.lastBuddyInteraction u /\
  (User.happiness r2, User.fullness r2) = (88, 88) /\
  BuddyRoutes.st_happiness (fst (BuddyRoutes.getBuddy now u)) = 94 /\
  BuddyRoutes.st_happiness
    (fst (BuddyRoutes.getBuddy now (snd (BuddyRoutes.getBuddy now u)))) = 88.
Proof.
  cbv zeta.
  assert (Hd : User.decayOf 12240000 (exampleUser 100 100 0) = 6)
    by (rewrite decayOf_div; reflexivity).
  assert (H1 : User.decayBuddyStats 12240000 (exampleUser 100 100 0) =
               (User.mkDecay 94 94 (User.hoursSince 12240000 (exampleUser 100 100 0)),
                exampleUser 94 94 0)).
  { unfold User.decayBuddyStats. rewrite Hd. reflexivity. }
  assert (Hd' : User.decayOf 12240000 (exampleUser 94 94 0) = 6)
    by (rewrite decayOf_div; reflexivity).
  assert (H2 : User.decayBuddyStats 12240000 (exampleUser 94 94 0) =
               (User.mkDecay 88 88 (User.hoursSince 12240000 (exampleUser 94 94 0)),
                exampleUser 88 88 0)).
  { unfold User.decayBuddyStats. rewrite Hd'. reflexivity. }
  unfold BuddyRoutes.getBuddy.
  rewrite H1. cbn [fst snd]. rewrite H2. cbn.
  repeat split; reflexivity.
Qed.

(** ** Streaks *)

Section StreakFacts.

Variable getTime : string -> option Z.
Variable clockDate : string.

Lemma updateStreak_lastSessionDate (sessionDate : option string) (u : User.t) :
  User.lastSessionDate (User.updateStreak getTime clockDate sessionDate u) =
  Some (JS.or_else sessionDate clockDate).
Proof.
  unfold User.updateStreak.
  destruct (User.longestStreak _ <? User.currentStreak _); reflexivity.
Qed.

Lemma updateStreak_currentStreak (sessionDate : option string) (u : User.t) :
  User.currentStreak (User.updateStreak getTime clockDate sessionDate u) =
  User.nextStreak getTime u (JS.or_else sessionDate clockDate).
Proof.
  unfold User.updateStreak.
  destruct (User.longestStreak _ <? User.currentStreak _); reflexivity.
Qed.

Lemma updateStreak_longestStreak (sessionDate : option string) (u : User.t) :
  User.longestStreak (User.updateStreak getTime clockDate sessionDate u) =
  Z.max (User.longestStreak u)
        (User.nextStreak getTime u (JS.or_else sessionDate clockDate)).
Proof.
  unfold User.updateStreak.
  destruct (User.longestStreak _ <? User.currentStreak _) eqn:E; cbn in *.
  - apply Z.ltb_lt in E. lia.
  - apply Z.ltb_ge in E. lia.
Qed.

Lemma updateStreak_invariant (sessionDate : option string) (u : User.t) :
  let u' := User.updateStreak getTime clockDate sessionDate u in
  User.currentStreak u' <= User.longestStreak u'.
Proof.
  cbv zeta.
  rewrite updateStreak_currentStreak, updateStreak_longestStreak. lia.
Qed.

Lemma streakTrace_invariant (dates : list (option string)) :
  forall u : User.t,
    Forall (fun u' => User.currentStreak u' <= User.longestStreak u')
           (User.streakTrace getTime clockDate dates u).
Proof.
  induction dates as [|d rest IH]; intros u; cbn.
  - constructor.
  - constructor.
    + apply updateStreak_invariant.
    + apply IH.
Qed.

Lemma streakTrace_length (dates : list (option string)) :
  forall u : User.t,
    List.length (User.streakTrace getTime clockDate dates u) = List.length dates.
Proof.
  induction dates as [|d rest IH]; intros u; cbn; [reflexivity|].
  now rewrite IH.
Qed.

Lemma nextStreak_absent (u : User.t) (today : string) :
  JS.truthy_opt (User.lastSessionDate u) = false ->
  User.nextStreak getTime u today = 1.
Proof. unfold User.nextStreak. intros ->. reflexivity. Qed.

Lemma nextStreak_present (u : User.t) (last today : string) :
  User.lastSessionDate u = Some last ->
  JS.truthy last = true ->
  User.nextStreak getTime u today =
  match User.diffDays getTime last today with
  | Some 0 => User.currentStreak u
  | Some 1 => User.currentStreak u + 1
  | _ => 1
  end.
Proof.
  unfold User.nextStreak. intros -> Ht. cbn. rewrite Ht. reflexivity.
Qed.

End StreakFacts.

(** Claim C6.  updateStreak, with [today] the session date or, when that
    is missing, the clock's date: an absent lastSessionDate gives a
    currentStreak of 1; otherwise, with diffDays the floor of the difference
    of the two dates over one day, 0 leaves currentStreak as it is, 1 adds
    exactly 1 to it, and any other value (also a difference that is not a
    number) sets it to 1; lastSessionDate is then [today].  From
    lastSessionDate 2024-01-01, a call with 2024-01-02 adds exactly 1 to
    currentStreak and a following call with 2024-01-04 sets it to 1. *)
Theorem updateStreak_spec :
  (forall (getTime : string -> option Z) (clockDate : string)
          (sessionDate : option string) (u : User.t),
     let today := JS.or_else sessionDate clockDate in
     let u' := User.updateStreak getTime clockDate sessionDate u in
     (JS.truthy_opt (User.lastSessionDate u) = false ->
        User.currentStreak u' = 1) /\
     (forall last : string,
        User.lastSessionDate u = Some last -> JS.truthy last = true ->
        (forall t l : Z,
           getTime today = Some t -> getTime last = Some l ->
           let diffDays := (t - l) / (1000 * 60 * 60 * 24) in
           (diffDays = 0 -> User.currentStreak u' = User.currentStreak u) /\
           (diffDays = 1 -> User.currentStreak u' = User.currentStreak u + 1) /\
           (diffDays <> 0 -> diffDays <> 1 -> User.currentStreak u' = 1)) /\
        (getTime today = None \/ getTime last = None ->
           User.currentStreak u' = 1)) /\
     User.lastSessionDate u' = Some today /\
     (forall d : string,
        sessionDate = Some d -> JS.truthy d = true -> today = d)) /\
  (forall (clockDate : string) (u : User.t),
     User.lastSessionDate u = Some "2024-01-01" ->
     let u1 := User.updateStreak ISODate.parse clockDate (Some "2024-01-02") u in
     let u2 := User.updateStreak ISODate.parse clockDate (Some "2024-01-04") u1 in
     User.currentStreak u1 = User.currentStreak u + 1 /\
     User.lastSessionDate u1 = Some "2024-01-02" /\
     User.currentStreak u2 = 1 /\
     User.lastSessionDate u2 = Some "2024-01-04").
Proof.
  split.
  - intros getTime clockDate sessionDate u today u'.
    assert (Hcur : User.currentStreak u' = User.nextStreak getTime u today)
      by apply updateStreak_currentStreak.
    split; [|split; [|split]].
    + intros Habs. rewrite Hcur. now apply nextStreak_absent.
    + intros last Hlast Htruthy.
      rewrite Hcur, (nextStreak_present getTime u last today Hlast Htruthy).
      unfold User.diffDays. split.
      * intros t l -> ->. change JS.day_ms with (1000 * 60 * 60 * 24).
        cbv zeta. split; [|split].
        -- intros ->. reflexivity.
        -- intros ->. reflexivity.
        -- intros H0 H1.
           destruct ((t - l) / (1000 * 60 * 60 * 24)) as [|p|p];
             [congruence| |reflexivity].
           destruct p; try reflexivity. congruence.
      * intros [-> | Hl]; [reflexivity|].
        rewrite Hl. destruct (getTime today); reflexivity.
    + apply updateStreak_lastSessionDate.
    + intros d -> Hd. subst today. cbn. now rewrite Hd.
  - intros clockDate u Hlast u1 u2.
    assert (H1 : User.currentStreak u1 = User.currentStreak u + 1).
    { subst u1. rewrite updateStreak_currentStreak.
      rewrite (nextStreak_present _ u "2024-01-01" _ Hlast eq_refl).
      reflexivity. }
    assert (L1 : User.lastSessionDate u1 = Some "2024-01-02")
      by apply updateStreak_lastSessionDate.
    split; [exact H1|]. split; [exact L1|]. split.
    + subst u2. rewrite updateStreak_currentStreak.
      rewrite (nextStreak_present _ u1 "2024-01-02" _ L1 eq_refl).
      reflexivity.
    + apply updateStreak_lastSessionDate.
Qed.

Lemma updateStreak_spec_witness :
  let u := User.mk "u1" "secret" 0 4 9 (Some "2024-01-01")
                   ["golden_retriever"] "golden_retriever" 100 100 0 in
  let u1 := User.updateStreak ISODate.parse "2024-06-01" (Some "2024-01-02") u in
  let u2 := User.updateStreak ISODate.parse "2024-06-01" (Some "2024-01-04") u1 in
  User.lastSessionDate u = Some "2024-01-01" /\
  User.currentStreak u1 = 4 + 1 /\
  User.currentStreak u2 = 1.
Proof.
  intros u u1 u2.
  pose proof (proj2 updateStreak_spec "2024-06-01" u eq_refl) as H.
  split; [reflexivity|].
  split; [exact (proj1 H) | exact (proj1 (proj2 (proj2 H)))].
Defined.

(** Claim C7.  Whatever the stored document and whatever the sequence of
    session dates, after every call of updateStreak in the sequence
    longestStreak is at least currentStreak; the trace has one document per
    call. *)
Theorem longestStreak_ge_currentStreak :
  forall (getTime : string -> option Z) (clockDate : string)
         (dates : list (option string)) (u : User.t),
    Forall (fun u' => User.longestStreak u' >= User.currentStreak u')
           (User.streakTrace getTime clockDate dates u) /\
    List.length (User.streakTrace getTime clockDate dates u) = List.length dates.
Proof.
  intros getTime clockDate dates u. split.
  - eapply Forall_impl; [|apply streakTrace_invariant].
    cbn. intros a Ha. lia.
  - apply streakTrace_length.
Qed.

(** ** Breed unlocks *)

Lemma includes_In (xs : list string) (x : string) :
  JS.includes xs x = true <-> In x xs.
Proof.
  induction xs as [|y ys IH]; cbn.
  - split; [discriminate|contradiction].
  - destruct (String.eqb_spec y x) as [->|Hne].
    + split; auto.
    + rewrite IH. split; [auto|]. intros [Heq|Hin]; [contradiction|exact Hin].
Qed.

Lemma includes_app_fresh (xs ys : list string) (x : string) :
  ~ In x ys -> JS.includes (xs ++ ys) x = JS.includes xs x.
Proof.
  intros Hfresh.
  destruct (JS.includes xs x) eqn:E.
  - apply includes_In. apply in_or_app. left. now apply includes_In.
  - destruct (JS.includes (xs ++ ys) x) eqn:E'; [|reflexivity].
    apply includes_In in E'. apply in_app_or in E'. destruct E' as [H|H].
    + apply includes_In in H. congruence.
    + contradiction.
Qed.

(** With distinct keys, the loop appends to both arrays the keys of the
    eligible entries, in the order of the table. *)
Lemma unlockLoop_filter (kibble : Z) (unlocked : list string) :
  forall (entries : list (string * Z)) (newly : list string),
    NoDup (map fst entries) ->
    (forall b, In b newly -> ~ In b (map fst entries)) ->
    User.unlockLoop kibble entries (unlocked ++ newly) newly =
    (unlocked ++ newly ++ map fst (filter (eligible kibble unlocked) entries),
     newly ++ map fst (filter (eligible kibble unlocked) entries)).
Proof.
  induction entries as [|[b r] rest IH]; intros newly Hnd Hfresh.
  - cbn. now rewrite !app_nil_r.
  - cbn [User.unlockLoop filter].
    inversion Hnd as [|? ? Hb Hrest]; subst.
    assert (Hinc : JS.includes (unlocked ++ newly) b = JS.includes unlocked b).
    { apply includes_app_fresh. intros Hin.
      apply (Hfresh b Hin). cbn. now left. }
    rewrite Hinc.
    change ((r <=? kibble) && negb (JS.includes unlocked b))
      with (eligible kibble unlocked (b, r)).
    destruct (eligible kibble unlocked (b, r)) eqn:E.
    + rewrite <- app_assoc. rewrite IH.
      * cbn [map fst]. rewrite <- !app_assoc. reflexivity.
      * exact Hrest.
      * intros x Hx. apply in_app_or in Hx. destruct Hx as [Hx|[<-|[]]].
        -- intros Hin. apply (Hfresh x Hx). cbn. now right.
        -- exact Hb.
    + apply IH; [exact Hrest|].
      intros x Hx Hin. apply (Hfresh x Hx). cbn. now right.
Qed.

Lemma StronglySorted_filter {A : Type} (R : A -> A -> Prop) (f : A -> bool) :
  forall l : list A, StronglySorted R l -> StronglySorted R (filter f l).
Proof.
  induction 1 as [|a l Hs IH Hall]; cbn.
  - constructor.
  - destruct (f a); [|exact IH].
    constructor; [exact IH|].
    apply Forall_forall. intros x Hx. apply filter_In in Hx.
    rewrite Forall_forall in Hall. now apply Hall.
Qed.

Lemma BREED_UNLOCK_REQUIREMENTS_keys :
  NoDup (map fst User.BREED_UNLOCK_REQUIREMENTS).
Proof.
  cbn. repeat (constructor; [cbn; intuition discriminate|]). constructor.
Qed.

Lemma BREED_UNLOCK_REQUIREMENTS_sorted :
  StronglySorted byRequirement User.BREED_UNLOCK_REQUIREMENTS.
Proof.
  unfold User.BREED_UNLOCK_REQUIREMENTS.
  repeat (constructor; [|repeat (constructor; [unfold byRequirement; cbn; lia|]);
                          constructor]).
  constructor.
Qed.

(** Claim C9.  Over a requirement table with distinct breed ids, listed in
    ascending order of requirement (the table of the code is one),
    checkBreedUnlocks reports exactly the breeds whose requirement totalKibble
    meets and that are not yet unlocked, in the order of the table, hence in
    ascending order of requirement, appends them to the unlocked breeds and
    writes no other field.  With requirements a:0, b:100, c:250, 150 kibble
    and a unlocked, it reports [b] and the unlocked breeds become [a; b]. *)
Theorem checkBreedUnlocks_spec :
  (forall (table : list (string * Z)) (u : User.t),
     NoDup (map fst table) ->
     StronglySorted byRequirement table ->
     let gained := filter (eligible (User.totalKibble u) (User.unlockedBreeds u)) table in
     let newlyUnlocked := fst (User.checkBreedUnlocksWith table u) in
     let u' := snd (User.checkBreedUnlocksWith table u) in
     newlyUnlocked = map fst gained /\
     StronglySorted byRequirement gained /\
     (forall b : string,
        In b newlyUnlocked <->
        exists r : Z, In (b, r) table /\ User.totalKibble u >= r /\
                      ~ In b (User.unlockedBreeds u)) /\
     User.unlockedBreeds u' = (User.unlockedBreeds u ++ newlyUnlocked)%list /\
     u' = User.set_unlockedBreeds (User.unlockedBreeds u') u) /\
  (NoDup (map fst User.BREED_UNLOCK_REQUIREMENTS) /\
   StronglySorted byRequirement User.BREED_UNLOCK_REQUIREMENTS /\
   forall u : User.t,
     User.checkBreedUnlocks u =
     User.checkBreedUnlocksWith User.BREED_UNLOCK_REQUIREMENTS u) /\
  (forall u : User.t,
     User.totalKibble u = 150 ->
     User.unlockedBreeds u = ["a"] ->
     fst (User.checkBreedUnlocksWith abcTable u) = ["b"] /\
     User.unlockedBreeds (snd (User.checkBreedUnlocksWith abcTable u)) = ["a"; "b"]).
Proof.
  split; [|split].
  - intros table u Hnd Hsorted gained newlyUnlocked u'.
    assert (Hloop :
      User.unlockLoop (User.totalKibble u) table (User.unlockedBreeds u) [] =
      ((User.unlockedBreeds u ++ map fst gained)%list, map fst gained)).
    { pose proof (unlockLoop_filter (User.totalKibble u) (User.unlockedBreeds u)
                    table [] Hnd (fun b (H : In b []) => False_ind _ H)) as H.
      rewrite app_nil_r in H. exact H. }
    assert (Hnew : newlyUnlocked = map fst gained).
    { subst newlyUnlocked. unfold User.checkBreedUnlocksWith.
      rewrite Hloop. reflexivity. }
    split; [exact Hnew|].
    split; [now apply StronglySorted_filter|].
    split; [|split].
    + intros b. rewrite Hnew. subst gained. rewrite in_map_iff. split.
      * intros [[b' r] [Hfst Hin]]. cbn in Hfst. subst b'.
        apply filter_In in Hin. destruct Hin as [Hin Hel].
        unfold eligible in Hel. cbn in Hel.
        apply andb_prop in Hel. destruct Hel as [Hr Hinc].
        exists r. split; [exact Hin|]. split; [apply Z.leb_le in Hr; lia|].
        intros Hu. apply includes_In in Hu. rewrite Hu in Hinc. discriminate.
      * intros [r [Hin [Hr Hu]]]. exists (b, r). split; [reflexivity|].
        apply filter_In. split; [exact Hin|].
        unfold eligible. cbn. apply andb_true_intro. split.
        -- apply Z.leb_le. lia.
        -- destruct (JS.includes (User.unlockedBreeds u) b) eqn:E; [|reflexivity].
           apply includes_In in E. contradiction.
    + rewrite Hnew. subst u'. unfold User.checkBreedUnlocksWith.
      rewrite Hloop. reflexivity.
    + subst u'. unfold User.checkBreedUnlocksWith. reflexivity.
  - split; [exact BREED_UNLOCK_REQUIREMENTS_keys|].
    split; [exact BREED_UNLOCK_REQUIREMENTS_sorted|reflexivity].
  - intros u Hk Hu. unfold User.checkBreedUnlocksWith.
    rewrite Hk, Hu. split; reflexivity.
Qed.

Lemma checkBreedUnlocks_spec_witness :
  let u := User.mk "u1" "secret" 150 0 0 None ["a"] "a" 100 100 0 in
  NoDup (map fst abcTable) /\
  StronglySorted byRequirement abcTable /\
  fst (User.checkBreedUnlocksWith abcTable u) =
  map fst (filter (eligible 150 ["a"]) abcTable).
Proof.
  intros u.
  assert (Hnd : NoDup (map fst abcTable)).
  { cbn. repeat (constructor; [cbn; intuition discriminate|]). constructor. }
  assert (Hs : StronglySorted byRequirement abcTable).
  { unfold abcTable.
    repeat (constructor; [|repeat (constructor; [unfold byRequirement; cbn; lia|]);
                            constructor]).
    constructor. }
  split; [exact Hnd|]. split; [exact Hs|].
  exact (proj1 (proj1 checkBreedUnlocks_spec abcTable u Hnd Hs)).
Defined.

(** ** Buddy interaction *)

(** A response other than success leaves the stored document as it was. *)
Lemma interact_failure_unchanged (action : string) (now : Z) (u : User.t) :
  BuddyRoutes.status (fst (BuddyRoutes.interact action now u)) <> 200 ->
  snd (BuddyRoutes.interact action now u) = u.
Proof.
  unfold BuddyRoutes.interact, BuddyRoutes.finish.
  destruct (String.eqb action "pet"); [cbn; congruence|].
  destruct (String.eqb action "play"); [cbn; congruence|].
  destruct (String.eqb action "treat"); [|reflexivity].
  destruct (User.totalKibble u <? 10); [reflexivity|cbn; congruence].
Qed.

(** Claim C10.  With less than 10 kibble the treat interaction answers
    with the 400 response that carries the kibble balance and stores nothing:
    totalKibble, buddyFullness, buddyHappiness and lastBuddyInteraction are
    what they were.  For every action, a response that is not a success
    leaves the document unchanged, and a success sets lastBuddyInteraction to
    the clock reading. *)
Theorem treat_without_kibble_unchanged :
  forall (now : Z) (u : User.t),
    User.totalKibble u < 10 ->
    BuddyRoutes.interact "treat" now u =
      (BuddyRoutes.NotEnoughKibble (User.totalKibble u), u) /\
    BuddyRoutes.status (fst (BuddyRoutes.interact "treat" now u)) = 400 /\
    (let u' := snd (BuddyRoutes.interact "treat" now u) in
     User.totalKibble u' = User.totalKibble u /\
     User.buddyFullness u' = User.buddyFullness u /\
     User.buddyHappiness u' = User.buddyHappiness u /\
     User.lastBuddyInteraction u' = User.lastBuddyInteraction u) /\
    (forall (action : string) (now0 : Z) (u0 : User.t),
       let r := fst (BuddyRoutes.interact action now0 u0) in
       let u0' := snd (BuddyRoutes.interact action now0 u0) in
       (BuddyRoutes.status r <> 200 -> u0' = u0) /\
       (BuddyRoutes.status r = 200 -> User.lastBuddyInteraction u0' = now0)).
Proof.
  intros now u Hlt.
  assert (Hb : (User.totalKibble u <? 10) = true) by (apply Z.ltb_lt; exact Hlt).
  assert (Heq : BuddyRoutes.interact "treat" now u =
                (BuddyRoutes.NotEnoughKibble (User.totalKibble u), u)).
  { unfold BuddyRoutes.interact. cbn [String.eqb Ascii.eqb Bool.eqb].
    rewrite Hb. reflexivity. }
  split; [exact Heq|]. rewrite Heq. cbn [fst snd].
  split; [reflexivity|]. split; [repeat split; reflexivity|].
  intros action now0 u0. split.
  - apply interact_failure_unchanged.
  - unfold BuddyRoutes.interact, BuddyRoutes.finish.
    destruct (String.eqb action "pet"); [reflexivity|].
    destruct (String.eqb action "play"); [reflexivity|].
    destruct (String.eqb action "treat"); [|cbn; discriminate].
    destruct (User.totalKibble u0 <? 10); [cbn; discriminate|reflexivity].
Qed.

Lemma treat_without_kibble_unchanged_witness :
  let u := User.mk "u1" "secret" 9 0 0 None ["golden_retriever"]
                   "golden_retriever" 40 30 1000 in
  User.totalKibble u < 10 /\
  BuddyRoutes.interact "treat" 5000 u = (BuddyRoutes.NotEnoughKibble 9, u).
Proof.
  intros u.
  assert (H : User.totalKibble u < 10) by (cbn; lia).
  split; [exact H|].
  exact (proj1 (treat_without_kibble_unchanged 5000 u H)).
Defined.

(** ** The token collection *)

Module VT := VerificationToken.

Lemma kind_eqb_eq (a b : VT.kind) : VT.kind_eqb a b = true <-> a = b.
Proof. destruct a, b; cbn; split; congruence. Qed.

Lemma byUserType_true (uid : string) (ty : VT.kind) (d : VT.t) :
  VT.byUserType uid ty d = true <-> VT.userId d = uid /\ VT.type d = ty.
Proof.
  unfold VT.byUserType. rewrite andb_true_iff, String.eqb_eq, kind_eqb_eq.
  reflexivity.
Qed.

Lemma find_app {A : Type} (q : A -> bool) (l1 l2 : list A) :
  find q (l1 ++ l2) =
  match find q l1 with
  | Some x => Some x
  | None => find q l2
  end.
Proof.
  induction l1 as [|a l1 IH]; cbn; [reflexivity|].
  destruct (q a); [reflexivity|exact IH].
Qed.

Lemma find_all_false {A : Type} (q : A -> bool) (l : list A) :
  (forall x, In x l -> q x = false) -> find q l = None.
Proof.
  induction l as [|a l IH]; cbn; intros H; [reflexivity|].
  rewrite (H a (or_introl eq_refl)). apply IH. intros x Hx. apply H. now right.
Qed.

Lemma find_split {A : Type} (q : A -> bool) (l : list A) (d : A) :
  find q l = Some d ->
  exists l1 l2, l = l1 ++ d :: l2 /\ q d = true /\
                forall x, In x l1 -> q x = false.
Proof.
  induction l as [|a l IH]; cbn; [discriminate|].
  destruct (q a) eqn:E.
  - intros [= ->]. exists [], l. repeat split; [exact E|contradiction].
  - intros H. destruct (IH H) as (l1 & l2 & -> & Hd & Hl1).
    exists (a :: l1), l2. repeat split; [exact Hd|].
    intros x [<-|Hx]; [exact E|now apply Hl1].
Qed.

Lemma deleteMany_In (q : VT.t -> bool) (c : VT.collection) (x : VT.t) :
  In x (VT.deleteMany q c) <-> In x c /\ q x = false.
Proof.
  unfold VT.deleteMany. rewrite filter_In, negb_true_iff. reflexivity.
Qed.

Lemma freshId_above (c : VT.collection) (x : VT.t) :
  In x c -> (VT._id x < VT.freshId c)%nat.
Proof.
  intros Hx. unfold VT.freshId.
  assert (H : (VT._id x <= list_max (map VT._id c))%nat).
  { pose proof (proj1 (list_max_le (map VT._id c) (list_max (map VT._id c)))
                  (Nat.le_refl _)) as Hall.
    rewrite Forall_forall in Hall. apply Hall. now apply in_map. }
  lia.
Qed.

Lemma save_split (d d' : VT.t) (l1 l2 : VT.collection) :
  VT._id d' = VT._id d ->
  (forall x, In x (l1 ++ l2) -> VT._id x <> VT._id d) ->
  VT.save d' (l1 ++ d :: l2) = l1 ++ d' :: l2.
Proof.
  intros Hid Hothers. unfold VT.save.
  assert (Hkeep : forall l, (forall x, In x l -> VT._id x <> VT._id d) ->
            map (fun x => if Nat.eqb (VT._id x) (VT._id d') then d' else x) l = l).
  { induction l as [|a l IH]; cbn; intros H; [reflexivity|].
    rewrite IH by (intros x Hx; apply H; now right).
    destruct (Nat.eqb_spec (VT._id a) (VT._id d')) as [E|E]; [|reflexivity].
    exfalso. apply (H a (or_introl eq_refl)). congruence. }
  rewrite map_app. cbn [map].
  rewrite !Hkeep.
  - rewrite Hid, Nat.eqb_refl. reflexivity.
  - intros x Hx. apply Hothers. apply in_or_app. now right.
  - intros x Hx. apply Hothers. apply in_or_app. now left.
Qed.

Lemma deleteOne_split (d : VT.t) (l1 l2 : VT.collection) :
  (forall x, In x l1 -> VT._id x <> VT._id d) ->
  VT.deleteOne (VT.byId (VT._id d)) (l1 ++ d :: l2) = l1 ++ l2.
Proof.
  induction l1 as [|a l1 IH]; cbn; intros H.
  - unfold VT.byId. now rewrite Nat.eqb_refl.
  - unfold VT.byId at 1.
    destruct (Nat.eqb_spec (VT._id a) (VT._id d)) as [E|E].
    + exfalso. exact (H a (or_introl eq_refl) E).
    + f_equal. apply IH. intros x Hx. apply H. now right.
Qed.

Lemma uniqueIds_split (d : VT.t) (l1 l2 : VT.collection) :
  uniqueIds (l1 ++ d :: l2) ->
  forall x, In x (l1 ++ l2) -> VT._id x <> VT._id d.
Proof.
  unfold uniqueIds. rewrite map_app. cbn [map]. intros Hnd x Hx Heq.
  apply NoDup_remove_2 in Hnd. apply Hnd.
  rewrite <- map_app, <- Heq. now apply in_map.
Qed.

(** *** The record a collection holds for a user and type *)

Lemma soleRecord_findOne (uid : string) (ty : VT.kind) (d : VT.t) (c : VT.collection) :
  soleRecord uid ty d c -> VT.findOne (VT.byUserType uid ty) c = Some d.
Proof.
  intros (others & -> & Hd & Hothers). unfold VT.findOne.
  rewrite find_app, find_all_false by (intros x Hx; now apply Hothers).
  cbn. now rewrite Hd.
Qed.

Lemma soleRecord_recent (uid : string) (ty : VT.kind) (d : VT.t) (c : VT.collection)
      (since : Z) :
  soleRecord uid ty d c ->
  VT.findOne (VT.recentFor since uid ty) c =
  if since <=? VT.lastResendAt d then Some d else None.
Proof.
  intros (others & -> & Hd & Hothers). unfold VT.findOne.
  rewrite find_app, find_all_false.
  - cbn. unfold VT.recentFor. rewrite Hd. cbn.
    destruct (since <=? VT.lastResendAt d); reflexivity.
  - intros x Hx. unfold VT.recentFor.
    now rewrite (proj1 (Hothers x Hx)).
Qed.

Lemma soleRecord_save (uid : string) (ty : VT.kind) (d d' : VT.t) (c : VT.collection) :
  soleRecord uid ty d c ->
  VT._id d' = VT._id d ->
  VT.byUserType uid ty d' = true ->
  soleRecord uid ty d' (VT.save d' c).
Proof.
  intros (others & -> & Hd & Hothers) Hid Hd'.
  exists others. split; [|split].
  - apply save_split; [exact Hid|].
    rewrite app_nil_r. intros x Hx. now apply Hothers.
  - exact Hd'.
  - intros x Hx. rewrite Hid. now apply Hothers.
Qed.

Lemma soleRecord_deleteOne (uid : string) (ty : VT.kind) (d : VT.t) (c : VT.collection) :
  soleRecord uid ty d c ->
  VT.findOne (VT.byUserType uid ty) (VT.deleteOne (VT.byId (VT._id d)) c) = None /\
  ~ In d (VT.deleteOne (VT.byId (VT._id d)) c).
Proof.
  intros (others & -> & Hd & Hothers).
  rewrite deleteOne_split by (intros x Hx; now apply Hothers).
  rewrite app_nil_r. split.
  - apply find_all_false. intros x Hx. now apply Hothers.
  - intros Hin. destruct (Hothers d Hin) as [_ Hne]. now apply Hne.
Qed.

(** What [issue] leaves: the new document is the only one of its user and
    type. *)
Lemma issue_soleRecord (now : Z) (code uid mail : string) (ty : VT.kind)
      (count : Z) (c : VT.collection) :
  let doc := VT.mk (VT.freshId c) uid mail code ty 0 5 count
                   now (now + VT.window_ms) None None in
  VT.issue now code uid mail ty count c =
    (code, VT.deleteMany (VT.byUserType uid ty) c ++ [doc]) /\
  soleRecord uid ty doc (snd (VT.issue now code uid mail ty count c)).
Proof.
  intros doc. split; [reflexivity|].
  exists (VT.deleteMany (VT.byUserType uid ty) c).
  split; [reflexivity|]. split.
  - apply byUserType_true. split; reflexivity.
  - intros x Hx. apply deleteMany_In in Hx. destruct Hx as [Hin Hq].
    split; [exact Hq|].
    pose proof (freshId_above c x Hin) as Hlt. cbn. lia.
Qed.

(** ** createOTP *)

Lemma createOTP_first (now : Z) (code uid mail : string) (ty : VT.kind)
      (c : VT.collection) :
  VT.findOne (VT.byUserType uid ty) c = None ->
  VT.createOTP now code uid mail ty c =
    (inr code, snd (VT.issue now code uid mail ty 0 c)).
Proof.
  intros Hnone. unfold VT.createOTP.
  assert (Hrecent : VT.findOne (VT.recentFor (now - VT.window_ms) uid ty) c = None).
  { apply find_all_false. intros x Hx. unfold VT.recentFor.
    now rewrite (find_none _ _ Hnone x Hx). }
  rewrite Hrecent. reflexivity.
Qed.

Lemma createOTP_resend (now : Z) (code uid mail : string) (ty : VT.kind)
      (d : VT.t) (c : VT.collection) :
  soleRecord uid ty d c ->
  now - VT.window_ms <= VT.lastResendAt d ->
  VT.resendCount d < 3 ->
  VT.createOTP now code uid mail ty c =
    (inr code, snd (VT.issue now code uid mail ty (VT.resendCount d + 1) c)).
Proof.
  intros Hsole Hwin Hcount. unfold VT.createOTP.
  rewrite (soleRecord_recent uid ty d c _ Hsole).
  apply Z.leb_le in Hwin. rewrite Hwin.
  apply Z.leb_gt in Hcount. rewrite Hcount. reflexivity.
Qed.

Lemma createOTP_limited (now : Z) (code uid mail : string) (ty : VT.kind)
      (d : VT.t) (c : VT.collection) :
  soleRecord uid ty d c ->
  now - VT.window_ms <= VT.lastResendAt d ->
  3 <= VT.resendCount d ->
  VT.createOTP now code uid mail ty c =
    (inl (VT.TooManyRequests (VT.waitTime now d)), c).
Proof.
  intros Hsole Hwin Hcount. unfold VT.createOTP.
  rewrite (soleRecord_recent uid ty d c _ Hsole).
  apply Z.leb_le in Hwin. rewrite Hwin.
  apply Z.leb_le in Hcount. rewrite Hcount. reflexivity.
Qed.

(** The rounded-up minutes are an integer quotient of the remaining
    milliseconds. *)
Lemma waitTime_div (now : Z) (d : VT.t) :
  VT.waitTime now d = - ((now - (VT.lastResendAt d + VT.window_ms)) / 60000).
Proof.
  unfold VT.waitTime, Qceiling. f_equal.
  rewrite (Zdiv_Qdiv (now - (VT.lastResendAt d + VT.window_ms)) 60000).
  apply Qfloor_comp.
  unfold Qeq, Qdiv, Qmult, Qinv, Qopp, inject_Z; simpl. ring.
Qed.

Lemma issue_issuedAt (now : Z) (code uid mail : string) (ty : VT.kind)
      (count : Z) (c : VT.collection) :
  exists d : VT.t,
    soleRecord uid ty d (snd (VT.issue now code uid mail ty count c)) /\
    issuedAt now code count d.
Proof.
  eexists. split.
  - apply (proj2 (issue_soleRecord now code uid mail ty count c)).
  - repeat split.
Qed.

Lemma createOTP_first_sole (now : Z) (code uid mail : string) (ty : VT.kind)
      (c : VT.collection) :
  VT.findOne (VT.byUserType uid ty) c = None ->
  fst (VT.createOTP now code uid mail ty c) = inr code /\
  exists d : VT.t,
    soleRecord uid ty d (snd (VT.createOTP now code uid mail ty c)) /\
    issuedAt now code 0 d.
Proof.
  intros Hnone. rewrite (createOTP_first _ _ _ _ _ _ Hnone).
  split; [reflexivity|]. apply issue_issuedAt.
Qed.

Lemma createOTP_resend_sole (now : Z) (code uid mail : string) (ty : VT.kind)
      (d : VT.t) (c : VT.collection) :
  soleRecord uid ty d c ->
  now - VT.window_ms <= VT.lastResendAt d ->
  VT.resendCount d < 3 ->
  fst (VT.createOTP now code uid mail ty c) = inr code /\
  exists d' : VT.t,
    soleRecord uid ty d' (snd (VT.createOTP now code uid mail ty c)) /\
    issuedAt now code (VT.resendCount d + 1) d'.
Proof.
  intros Hsole Hwin Hcount.
  rewrite (createOTP_resend _ _ _ _ _ _ _ Hsole Hwin Hcount).
  split; [reflexivity|]. apply issue_issuedAt.
Qed.

Lemma soleRecord_resendCountOf (uid : string) (ty : VT.kind) (d : VT.t)
      (c : VT.collection) :
  soleRecord uid ty d c -> resendCountOf uid ty c = Some (VT.resendCount d).
Proof.
  intros H. unfold resendCountOf. now rewrite (soleRecord_findOne _ _ _ _ H).
Qed.

(** Claim C1, as the code has it.  For a user and type with no document,
    five calls of createOTP within ten minutes: the first four succeed and
    leave a resendCount of 0, 1, 2 and 3; the fifth fails with the
    too-many-requests error, carrying the minutes left of the window of the
    fourth call, and leaves the collection as it was. *)
Theorem createOTP_five_calls :
  forall (c : VT.collection) (uid mail : string) (ty : VT.kind)
         (t1 t2 t3 t4 t5 : Z) (k1 k2 k3 k4 k5 : string),
    VT.findOne (VT.byUserType uid ty) c = None ->
    t1 <= t2 -> t2 <= t3 -> t3 <= t4 -> t4 <= t5 ->
    t5 <= t1 + 10 * 60 * 1000 ->
    let s1 := VT.createOTP t1 k1 uid mail ty c in
    let s2 := VT.createOTP t2 k2 uid mail ty (snd s1) in
    let s3 := VT.createOTP t3 k3 uid mail ty (snd s2) in
    let s4 := VT.createOTP t4 k4 uid mail ty (snd s3) in
    let s5 := VT.createOTP t5 k5 uid mail ty (snd s4) in
    fst s1 = inr k1 /\ resendCountOf uid ty (snd s1) = Some 0 /\
    fst s2 = inr k2 /\ resendCountOf uid ty (snd s2) = Some 1 /\
    fst s3 = inr k3 /\ resendCountOf uid ty (snd s3) = Some 2 /\
    fst s4 = inr k4 /\ resendCountOf uid ty (snd s4) = Some 3 /\
    fst s5 = inl (VT.TooManyRequests (- ((t5 - (t4 + 10 * 60 * 1000)) / 60000))) /\
    snd s5 = snd s4.
Proof.
  intros c uid mail ty t1 t2 t3 t4 t5 k1 k2 k3 k4 k5 Hnone H12 H23 H34 H45 Hwin.
  change (10 * 60 * 1000) with VT.window_ms in *.
  intros s1 s2 s3 s4 s5.
  destruct (createOTP_first_sole t1 k1 uid mail ty c Hnone)
    as (R1 & d1 & S1 & (_ & _ & _ & C1 & L1 & _)).
  fold s1 in R1, S1.
  destruct (createOTP_resend_sole t2 k2 uid mail ty d1 (snd s1) S1)
    as (R2 & d2 & S2 & (_ & _ & _ & C2 & L2 & _)); [lia|lia|].
  fold s2 in R2, S2.
  destruct (createOTP_resend_sole t3 k3 uid mail ty d2 (snd s2) S2)
    as (R3 & d3 & S3 & (_ & _ & _ & C3 & L3 & _)); [lia|lia|].
  fold s3 in R3, S3.
  destruct (createOTP_resend_sole t4 k4 uid mail ty d3 (snd s3) S3)
    as (R4 & d4 & S4 & (_ & _ & _ & C4 & L4 & _)); [lia|lia|].
  fold s4 in R4, S4.
  assert (E5 : s5 = (inl (VT.TooManyRequests (VT.waitTime t5 d4)), snd s4)).
  { subst s5. apply createOTP_limited; [exact S4|lia|lia]. }
  rewrite (soleRecord_resendCountOf _ _ _ _ S1), (soleRecord_resendCountOf _ _ _ _ S2),
          (soleRecord_resendCountOf _ _ _ _ S3), (soleRecord_resendCountOf _ _ _ _ S4).
  rewrite E5. cbn [fst snd]. rewrite waitTime_div, L4.
  repeat split; try assumption; f_equal; lia.
Qed.

Lemma createOTP_five_calls_witness :
  let s1 := VT.createOTP 0 "111111" "u1" "a@b.c" VT.KEmail [] in
  let s2 := VT.createOTP 60000 "222222" "u1" "a@b.c" VT.KEmail (snd s1) in
  let s3 := VT.createOTP 120000 "333333" "u1" "a@b.c" VT.KEmail (snd s2) in
  let s4 := VT.createOTP 180000 "444444" "u1" "a@b.c" VT.KEmail (snd s3) in
  let s5 := VT.createOTP 240000 "555555" "u1" "a@b.c" VT.KEmail (snd s4) in
  VT.findOne (VT.byUserType "u1" VT.KEmail) [] = None /\
  fst s4 = inr "444444" /\
  fst s5 = inl (VT.TooManyRequests (- ((240000 - (180000 + 10 * 60 * 1000)) / 60000))).
Proof.
  intros s1 s2 s3 s4 s5.
  pose proof (createOTP_five_calls [] "u1" "a@b.c" VT.KEmail
                0 60000 120000 180000 240000
                "111111" "222222" "333333" "444444" "555555"
                eq_refl ltac:(lia) ltac:(lia) ltac:(lia) ltac:(lia) ltac:(lia)) as H.
  cbv zeta in H.
  destruct H as (_ & _ & _ & _ & _ & _ & H4 & _ & H5 & _).
  split; [reflexivity|].
  split; [exact H4|exact H5].
Defined.

(** Claim C1 as stated fails: on an empty collection, with calls at 0, 1, 2
    and 3 minutes, the fourth call succeeds, and the resendCount after the
    third issuance is 2. *)
Lemma createOTP_fourth_call_succeeds :
  let s1 := VT.createOTP 0 "111111" "u1" "a@b.c" VT.KEmail [] in
  let s2 := VT.createOTP 60000 "222222" "u1" "a@b.c" VT.KEmail (snd s1) in
  let s3 := VT.createOTP 120000 "333333" "u1" "a@b.c" VT.KEmail (snd s2) in
  let s4 := VT.createOTP 180000 "444444" "u1" "a@b.c" VT.KEmail (snd s3) in
  fst s1 = inr "111111" /\ fst s2 = inr "222222" /\ fst s3 = inr "333333" /\
  resendCountOf "u1" VT.KEmail (snd s3) = Some 2 /\
  fst s4 = inr "444444" /\
  (forall w : Z, fst s4 <> inl (VT.TooManyRequests w)).
Proof.
  cbv zeta. repeat split; try reflexivity.
  intros w. vm_compute. discriminate.
Qed.

Lemma recentFor_true (since : Z) (uid : string) (ty : VT.kind) (d : VT.t) :
  VT.recentFor since uid ty d = true <->
  VT.userId d = uid /\ VT.type d = ty /\ since <= VT.lastResendAt d.
Proof.
  unfold VT.recentFor. rewrite andb_true_iff, byUserType_true, Z.leb_le.
  tauto.
Qed.

(** Claim C5, as the code has it.  In a collection with at most one
    document per user and type, createOTP fails with the too-many-requests
    error exactly when a document of that user and type has lastResendAt no
    earlier than ten minutes before the clock reading and resendCount at
    least 3.  The failure leaves the collection as it was and carries
    ceil((lastResendAt + 10 min - now) / 1000 / 60), the remaining
    milliseconds over 60000, rounded up: a number of minutes. *)
Theorem createOTP_rate_limit_iff :
  forall (now : Z) (code uid mail : string) (ty : VT.kind) (c : VT.collection),
    atMostOnePer c ->
    let limitedBy (d : VT.t) :=
      In d c /\ VT.userId d = uid /\ VT.type d = ty /\
      now - 10 * 60 * 1000 <= VT.lastResendAt d /\ VT.resendCount d >= 3 in
    ((exists w : Z,
        fst (VT.createOTP now code uid mail ty c) = inl (VT.TooManyRequests w))
     <-> (exists d : VT.t, limitedBy d)) /\
    (forall w : Z,
       fst (VT.createOTP now code uid mail ty c) = inl (VT.TooManyRequests w) ->
       snd (VT.createOTP now code uid mail ty c) = c /\
       exists d : VT.t,
         limitedBy d /\
         w = Qceiling (inject_Z (VT.lastResendAt d + 10 * 60 * 1000 - now)
                       / 1000 / 60)%Q /\
         w = - ((now - (VT.lastResendAt d + 10 * 60 * 1000)) / 60000)).
Proof.
  intros now code uid mail ty c Hone limitedBy.
  change (10 * 60 * 1000) with VT.window_ms in *.
  unfold VT.createOTP.
  destruct (VT.findOne (VT.recentFor (now - VT.window_ms) uid ty) c) as [d0|] eqn:Hfind.
  - apply find_some in Hfind. destruct Hfind as [Hin Hrecent].
    apply recentFor_true in Hrecent. destruct Hrecent as (Hu & Ht & Hw).
    destruct (3 <=? VT.resendCount d0) eqn:Hcount.
    + apply Z.leb_le in Hcount.
      assert (Hlim : limitedBy d0) by (repeat split; try assumption; lia).
      cbn [fst snd]. split.
      * split; intros _; [now exists d0|eexists; reflexivity].
      * intros w [= <-]. split; [reflexivity|].
        exists d0. split; [exact Hlim|]. split; [reflexivity|apply waitTime_div].
    + apply Z.leb_gt in Hcount. unfold VT.issue. cbn [fst snd]. split.
      * split; [intros [w Hw']; discriminate|].
        intros (d & Hd & Hdu & Hdt & _ & Hdc). exfalso.
        assert (d = d0) by (apply Hone; try assumption; congruence).
        subst d. lia.
      * intros w Hw'. discriminate.
  - unfold VT.issue. cbn [fst snd]. split.
    + split; [intros [w Hw']; discriminate|].
      intros (d & Hd & Hdu & Hdt & Hdw & _). exfalso.
      pose proof (find_none _ _ Hfind d Hd) as Hfalse.
      assert (Htrue : VT.recentFor (now - VT.window_ms) uid ty d = true)
        by (apply recentFor_true; auto).
      congruence.
    + intros w Hw'. discriminate.
Qed.

Lemma createOTP_rate_limit_iff_witness :
  let d := VT.mk 1 "u1" "a@b.c" "123456" VT.KEmail 0 5 3 0 600000 None None in
  atMostOnePer [d] /\
  snd (VT.createOTP 30000 "654321" "u1" "a@b.c" VT.KEmail [d]) = [d].
Proof.
  intros d.
  assert (Hone : atMostOnePer [d]).
  { intros d1 d2 [<-|[]] [<-|[]] _ _. reflexivity. }
  split; [exact Hone|].
  exact (proj1 (proj2 (createOTP_rate_limit_iff 30000 "654321" "u1" "a@b.c"
                         VT.KEmail [d] Hone) 10 eq_refl)).
Defined.

(** Claim C5 as stated fails on the wait time: with lastResendAt at the
    clock reading and resendCount 3, createOTP fails carrying 10 (minutes),
    where the remaining time divided by 60 seconds and then by 60, rounded
    up, is 1. *)
Lemma createOTP_wait_is_not_claimed :
  let d := VT.mk 1 "u1" "a@b.c" "123456" VT.KEmail 0 5 3 0 600000 None None in
  atMostOnePer [d] /\
  VT.createOTP 0 "654321" "u1" "a@b.c" VT.KEmail [d] =
    (inl (VT.TooManyRequests 10), [d]) /\
  claimedWaitTime 0 d = 1 /\
  VT.createOTP 0 "654321" "u1" "a@b.c" VT.KEmail [d] <>
    (inl (VT.TooManyRequests (claimedWaitTime 0 d)), [d]).
Proof.
  intros d. split; [|split; [|split]].
  - intros d1 d2 [<-|[]] [<-|[]] _ _. reflexivity.
  - reflexivity.
  - reflexivity.
  - vm_compute. discriminate.
Qed.

(** ** verifyOTP *)

Lemma verifyOTP_none (now : Z) (uid code : string) (ty : VT.kind) (c : VT.collection) :
  VT.findOne (VT.byUserType uid ty) c = None ->
  VT.verifyOTP now uid code ty c = (VT.NoCodeFound, c).
Proof. intros H. unfold VT.verifyOTP. now rewrite H. Qed.

Lemma verifyOTP_wrong (now : Z) (uid code : string) (ty : VT.kind)
      (d : VT.t) (c : VT.collection) :
  soleRecord uid ty d c ->
  now <= VT.expiresAt d ->
  VT.attempts d < VT.maxAttempts d ->
  code <> VT.otp d ->
  let d' := VT.set_attempts (VT.attempts d + 1) d in
  VT.verifyOTP now uid code ty c =
    (VT.InvalidCode (VT.maxAttempts d - (VT.attempts d + 1)), VT.save d' c) /\
  soleRecord uid ty d' (VT.save d' c).
Proof.
  intros Hsole Hexp Hatt Hcode d'. split.
  - unfold VT.verifyOTP. rewrite (soleRecord_findOne _ _ _ _ Hsole).
    apply Z.ltb_ge in Hexp. rewrite Hexp.
    apply Z.leb_gt in Hatt. rewrite Hatt.
    destruct (String.eqb_spec (VT.otp d) code) as [E|E]; [congruence|].
    reflexivity.
  - apply (soleRecord_save uid ty d d' c Hsole); [reflexivity|].
    destruct Hsole as (_ & _ & Hd & _). exact Hd.
Qed.

Lemma verifyOTP_exhausted (now : Z) (uid code : string) (ty : VT.kind)
      (d : VT.t) (c : VT.collection) :
  soleRecord uid ty d c ->
  now <= VT.expiresAt d ->
  VT.maxAttempts d <= VT.attempts d ->
  VT.verifyOTP now uid code ty c =
    (VT.TooManyAttempts, VT.deleteOne (VT.byId (VT._id d)) c).
Proof.
  intros Hsole Hexp Hatt.
  unfold VT.verifyOTP. rewrite (soleRecord_findOne _ _ _ _ Hsole).
  apply Z.ltb_ge in Hexp. rewrite Hexp.
  apply Z.leb_le in Hatt. rewrite Hatt. reflexivity.
Qed.

Lemma set_attempts_same (d : VT.t) : VT.set_attempts (VT.attempts d) d = d.
Proof. destruct d; reflexivity. Qed.

(** A run of mismatches that does not use up the attempts: every call
    answers with the attempts left, and the document counts them. *)
Lemma verifyAll_wrong (uid : string) (ty : VT.kind) (calls : list (Z * string)) :
  forall (d : VT.t) (c : VT.collection),
    soleRecord uid ty d c ->
    Forall (wrongCall (VT.expiresAt d) (VT.otp d)) calls ->
    VT.attempts d + Z.of_nat (List.length calls) <= VT.maxAttempts d ->
    fst (VT.verifyAll uid ty calls c) =
      countdown (VT.maxAttempts d - VT.attempts d) (List.length calls) /\
    soleRecord uid ty
      (VT.set_attempts (VT.attempts d + Z.of_nat (List.length calls)) d)
      (snd (VT.verifyAll uid ty calls c)).
Proof.
  induction calls as [|[t k] rest IH]; intros d c Hsole Hwrong Hroom.
  - cbn. rewrite Z.add_0_r, set_attempts_same. split; [reflexivity|exact Hsole].
  - inversion Hwrong as [|? ? [Ht Hk] Hrest]; subst. cbn [fst snd] in Ht, Hk.
    cbn [List.length] in Hroom |- *. rewrite Nat2Z.inj_succ in Hroom |- *.
    assert (Hatt : VT.attempts d < VT.maxAttempts d) by lia.
    destruct (verifyOTP_wrong t uid k ty d c Hsole Ht Hatt Hk) as [Hv Hsole'].
    cbn [VT.verifyAll]. rewrite Hv.
    specialize (IH (VT.set_attempts (VT.attempts d + 1) d)
                   (VT.save (VT.set_attempts (VT.attempts d + 1) d) c)
                   Hsole' Hrest).
    cbn [VT.attempts VT.maxAttempts VT.expiresAt VT.otp VT.set_attempts] in IH.
    assert (Hroom' : VT.attempts d + 1 + Z.of_nat (List.length rest)
                     <= VT.maxAttempts d) by lia.
    specialize (IH Hroom').
    destruct (VT.verifyAll uid ty rest _) as [rs c2]. cbn [fst snd] in *.
    destruct IH as [IHr IHs]. split.
    + cbn [countdown]. rewrite IHr.
      replace (VT.maxAttempts d - VT.attempts d - 1)
        with (VT.maxAttempts d - (VT.attempts d + 1)) by lia.
      reflexivity.
    + replace (VT.attempts d + Z.succ (Z.of_nat (List.length rest)))
        with (VT.attempts d + 1 + Z.of_nat (List.length rest)) by lia.
      exact IHs.
Qed.

Lemma createOTP_success_sole (now : Z) (code uid mail : string) (ty : VT.kind)
      (c : VT.collection) (k : string) :
  fst (VT.createOTP now code uid mail ty c) = inr k ->
  k = code /\
  exists (d : VT.t) (count : Z),
    soleRecord uid ty d (snd (VT.createOTP now code uid mail ty c)) /\
    issuedAt now code count d.
Proof.
  unfold VT.createOTP.
  destruct (VT.findOne _ c) as [d0|].
  - destruct (3 <=? VT.resendCount d0); [discriminate|].
    intros [= <-]. split; [reflexivity|].
    destruct (issue_issuedAt now code uid mail ty (VT.resendCount d0 + 1) c)
      as (d & Hs & Hi).
    exists d, (VT.resendCount d0 + 1). split; assumption.
  - intros [= <-]. split; [reflexivity|].
    destruct (issue_issuedAt now code uid mail ty 0 c) as (d & Hs & Hi).
    exists d, 0. split; assumption.
Qed.

(** Claim C2, as the code has it.  After createOTP has issued a code
    (attempts 0, maxAttempts 5), five calls of verifyOTP with wrong codes
    before the code expires each answer with the invalid-code result, which
    carries 4, 3, 2, 1 and 0 remaining attempts, and the document stays, with
    5 attempts counted.  The next call before expiry, whatever its code,
    answers with the too-many-attempts result and deletes the document, and
    every call after that finds no code. *)
Theorem verifyOTP_wrong_codes :
  forall (c : VT.collection) (uid mail : string) (ty : VT.kind) (t0 : Z)
         (code : string) (calls : list (Z * string)),
    fst (VT.createOTP t0 code uid mail ty c) = inr code ->
    List.length calls = 5%nat ->
    Forall (wrongCall (t0 + 10 * 60 * 1000) code) calls ->
    let c1 := snd (VT.createOTP t0 code uid mail ty c) in
    let run := VT.verifyAll uid ty calls c1 in
    fst run = [VT.InvalidCode 4; VT.InvalidCode 3; VT.InvalidCode 2;
               VT.InvalidCode 1; VT.InvalidCode 0] /\
    (exists d : VT.t,
       VT.findOne (VT.byUserType uid ty) (snd run) = Some d /\
       VT.attempts d = 5 /\ VT.maxAttempts d = 5 /\ VT.otp d = code) /\
    (forall (t : Z) (k : string),
       t <= t0 + 10 * 60 * 1000 ->
       let s6 := VT.verifyOTP t uid k ty (snd run) in
       fst s6 = VT.TooManyAttempts /\
       VT.findOne (VT.byUserType uid ty) (snd s6) = None /\
       forall (t' : Z) (k' : string),
         VT.verifyOTP t' uid k' ty (snd s6) = (VT.NoCodeFound, snd s6)).
Proof.
  intros c uid mail ty t0 code calls Hissued Hlen Hwrong c1 run.
  change (10 * 60 * 1000) with VT.window_ms in *.
  destruct (createOTP_success_sole _ _ _ _ _ _ _ Hissued)
    as (_ & d & count & Hsole & (Hotp & Hatt & Hmax & _ & _ & Hexp & _)).
  fold c1 in Hsole.
  destruct (verifyAll_wrong uid ty calls d c1 Hsole) as [Hres Hsole5].
  { rewrite Hexp, Hotp. exact Hwrong. }
  { rewrite Hlen, Hatt, Hmax. cbn. lia. }
  fold run in Hres, Hsole5.
  rewrite Hlen, Hatt, Hmax in Hres. rewrite Hlen, Hatt in Hsole5.
  cbn in Hres. change (0 + Z.of_nat 5) with 5 in Hsole5.
  set (d5 := VT.set_attempts 5 d) in *.
  split; [exact Hres|]. split.
  - exists d5. split; [now apply soleRecord_findOne|].
    subst d5. cbn. auto.
  - intros t k Ht s6.
    assert (H6 : s6 = (VT.TooManyAttempts,
                       VT.deleteOne (VT.byId (VT._id d5)) (snd run))).
    { subst s6. apply (verifyOTP_exhausted t uid k ty d5 (snd run) Hsole5).
      - subst d5. cbn. lia.
      - subst d5. cbn. lia. }
    rewrite H6. cbn [fst snd].
    destruct (soleRecord_deleteOne uid ty d5 (snd run) Hsole5) as [Hnone _].
    split; [reflexivity|]. split; [exact Hnone|].
    intros t' k'. now apply verifyOTP_none.
Qed.

Lemma verifyOTP_wrong_codes_witness :
  let calls := [(1000, "000000"); (2000, "000001"); (3000, "000002");
                (4000, "000003"); (5000, "000004")] in
  let c1 := snd (VT.createOTP 0 "123456" "u1" "a@b.c" VT.KPassword []) in
  fst (VT.createOTP 0 "123456" "u1" "a@b.c" VT.KPassword []) = inr "123456" /\
  List.length calls = 5%nat /\
  Forall (wrongCall (0 + 10 * 60 * 1000) "123456") calls /\
  fst (VT.verifyAll "u1" VT.KPassword calls c1) =
    [VT.InvalidCode 4; VT.InvalidCode 3; VT.InvalidCode 2;
     VT.InvalidCode 1; VT.InvalidCode 0].
Proof.
  intros calls c1.
  assert (Hw : Forall (wrongCall (0 + 10 * 60 * 1000) "123456") calls).
  { repeat constructor; cbn; try lia; discriminate. }
  split; [reflexivity|]. split; [reflexivity|]. split; [exact Hw|].
  exact (proj1 (verifyOTP_wrong_codes [] "u1" "a@b.c" VT.KPassword 0 "123456"
                  calls eq_refl eq_refl Hw)).
Defined.

(** Claim C2 as stated fails: after a code is issued on an empty collection,
    the fifth wrong code in a row is answered with the invalid-code result
    carrying 0 remaining attempts, not with the too-many-attempts result, and
    the document is still stored; a sixth call, made with the right code,
    gets the too-many-attempts result instead of not-found. *)
Lemma verifyOTP_fifth_wrong_code_not_exhausted :
  let calls := [(1000, "000000"); (2000, "000001"); (3000, "000002");
                (4000, "000003"); (5000, "000004")] in
  let c1 := snd (VT.createOTP 0 "123456" "u1" "a@b.c" VT.KEmail []) in
  let run := VT.verifyAll "u1" VT.KEmail calls c1 in
  nth_error (fst run) 4 = Some (VT.InvalidCode 0) /\
  nth_error (fst run) 4 <> Some VT.TooManyAttempts /\
  VT.findOne (VT.byUserType "u1" VT.KEmail) (snd run) <> None /\
  fst (VT.verifyOTP 6000 "u1" "123456" VT.KEmail (snd run)) = VT.TooManyAttempts /\
  fst (VT.verifyOTP 6000 "u1" "123456" VT.KEmail (snd run)) <> VT.NoCodeFound.
Proof.
  cbv zeta. repeat split; try reflexivity; vm_compute; discriminate.
Qed.

(** ** The password-reset handoff *)

Module AR := AuthRoutes.

Lemma findById_saveUser (uid : string) (u u' : User.t) (us : list User.t) :
  AR.findById uid us = Some u ->
  User._id u' = uid ->
  AR.findById uid (AR.saveUser u' us) = Some u'.
Proof.
  intros Hfind Hid. unfold AR.findById, AR.saveUser in *.
  induction us as [|a us IH]; cbn in *; [discriminate|].
  destruct (String.eqb_spec (User._id a) uid) as [Ea|Ea].
  - rewrite Hid, <- Ea, String.eqb_refl. cbn.
    rewrite Hid, <- Ea, String.eqb_refl. reflexivity.
  - destruct (String.eqb_spec (User._id a) (User._id u')) as [Eb|Eb];
      [congruence|].
    cbn. destruct (String.eqb_spec (User._id a) uid); [contradiction|].
    now apply IH.
Qed.

Lemma byResetToken_true (uid tok : string) (d : VT.t) :
  AR.byResetToken uid tok d = true <->
  VT.userId d = uid /\ VT.type d = VT.KPassword /\ VT.resetToken d = Some tok.
Proof.
  unfold AR.byResetToken. rewrite andb_true_iff, byUserType_true.
  destruct (VT.resetToken d) as [t'|].
  - rewrite String.eqb_eq. split.
    + intros [[Hu Ht] ->]. auto.
    + intros (Hu & Ht & [= ->]). auto.
  - split; [intros [_ H]; discriminate|intros (_ & _ & H); discriminate].
Qed.

(** Deleting by [_id] a document found in a collection of distinct [_id]s
    removes that document and nothing else. *)
Lemma deleteOne_found (q : VT.t -> bool) (c : VT.collection) (d : VT.t) :
  uniqueIds c ->
  VT.findOne q c = Some d ->
  exists l1 l2 : VT.collection,
    c = l1 ++ d :: l2 /\
    VT.deleteOne (VT.byId (VT._id d)) c = l1 ++ l2 /\
    forall x, In x (l1 ++ l2) -> VT._id x <> VT._id d.
Proof.
  intros Huniq Hfind. apply find_split in Hfind.
  destruct Hfind as (l1 & l2 & -> & _ & _).
  pose proof (uniqueIds_split d l1 l2 Huniq) as Hids.
  exists l1, l2. split; [reflexivity|]. split; [|exact Hids].
  apply deleteOne_split. intros x Hx. apply Hids. apply in_or_app. now left.
Qed.

(** Saving a changed copy of a document found in a collection of distinct
    [_id]s replaces that document and nothing else. *)
Lemma save_found (q : VT.t -> bool) (c : VT.collection) (d d' : VT.t) :
  uniqueIds c ->
  VT.findOne q c = Some d ->
  VT._id d' = VT._id d ->
  exists l1 l2 : VT.collection,
    c = l1 ++ d :: l2 /\ VT.save d' c = l1 ++ d' :: l2.
Proof.
  intros Huniq Hfind Hid. apply find_split in Hfind.
  destruct Hfind as (l1 & l2 & -> & _ & _).
  exists l1, l2. split; [reflexivity|].
  apply save_split; [exact Hid|]. now apply uniqueIds_split.
Qed.

(** A successful verify-reset-otp keeps the document and attaches the reset
    token to it. *)
Lemma verifyResetOtp_success (now : Z) (token uid otp : string) (s : AR.db)
      (tok' uid' : string) :
  uniqueIds (AR.tokens s) ->
  fst (AR.verifyResetOtp now token uid otp s) = AR.Verified tok' uid' ->
  exists d : VT.t,
    VT.findOne (VT.byUserType uid VT.KPassword) (AR.tokens s) = Some d /\
    VT.otp d = otp /\ now <= VT.expiresAt d /\ VT.attempts d < VT.maxAttempts d /\
    tok' = token /\
    let d' := VT.set_resetToken token (now + 5 * 60 * 1000) d in
    let s' := snd (AR.verifyResetOtp now token uid otp s) in
    AR.users s' = AR.users s /\
    AR.tokens s' = VT.save d' (AR.tokens s) /\
    In d' (AR.tokens s') /\
    List.length (AR.tokens s') = List.length (AR.tokens s) /\
    VT.findOne (VT.byUserType uid VT.KPassword) (AR.tokens s') = Some d'.
Proof.
  intros Huniq. unfold AR.verifyResetOtp.
  destruct (negb (JS.truthy uid) || negb (JS.truthy otp)); [discriminate|].
  destruct (negb (AR.otpFormat otp)); [discriminate|].
  destruct (AR.findById uid (AR.users s)) as [user|]; [|discriminate].
  destruct (VT.findOne (VT.byUserType uid VT.KPassword) (AR.tokens s))
    as [d|] eqn:Hfind; [|discriminate].
  destruct (VT.expiresAt d <? now) eqn:Hexp; [discriminate|].
  destruct (VT.maxAttempts d <=? VT.attempts d) eqn:Hatt; [discriminate|].
  destruct (String.eqb_spec (VT.otp d) otp) as [Hotp|Hotp]; [|discriminate].
  cbn [negb fst snd]. intros [= <- _].
  apply Z.ltb_ge in Hexp. apply Z.leb_gt in Hatt.
  exists d. split; [reflexivity|]. split; [exact Hotp|]. split; [exact Hexp|].
  split; [exact Hatt|]. split; [reflexivity|].
  cbv zeta. cbn [AR.users AR.tokens].
  destruct (save_found _ _ d (VT.set_resetToken token (now + 5 * 60 * 1000) d)
              Huniq Hfind eq_refl) as (l1 & l2 & Hc & Hsave).
  split; [reflexivity|]. split; [reflexivity|].
  rewrite Hsave, Hc. split; [|split].
  - apply in_or_app. right. now left.
  - rewrite !length_app. reflexivity.
  - destruct (find_split _ _ _ Hfind) as (m1 & m2 & Hm & Hd & Hm1).
    unfold VT.findOne.
    assert (Hl1 : forall x, In x l1 -> VT.byUserType uid VT.KPassword x = false).
    { rewrite Hc in Huniq. pose proof (uniqueIds_split d l1 l2 Huniq) as Hids.
      rewrite Hc in Hfind. unfold VT.findOne in Hfind. rewrite find_app in Hfind.
      destruct (find (VT.byUserType uid VT.KPassword) l1) as [y|] eqn:Hy.
      - exfalso. injection Hfind as ->. apply find_some in Hy.
        apply (Hids d); [apply in_or_app; left; apply Hy|reflexivity].
      - intros x Hx. exact (find_none _ _ Hy x Hx). }
    assert (Hd' : VT.byUserType uid VT.KPassword
                    (VT.set_resetToken token (now + 5 * 60 * 1000) d) = true)
      by exact Hd.
    rewrite find_app, (find_all_false _ _ Hl1). cbn [find].
    now rewrite Hd'.
Qed.

(** A successful reset-password found a matching document whose reset token
    had not expired, deleted it and stored the new password. *)
Lemma resetPassword_success (now : Z) (uid tok pw : string) (s : AR.db) :
  uniqueIds (AR.tokens s) ->
  fst (AR.resetPassword now uid tok pw s) = AR.PasswordReset ->
  exists (d : VT.t) (u : User.t),
    In d (AR.tokens s) /\ matchesReset uid tok d /\
    (forall e : Z, VT.resetTokenExpiresAt d = Some e -> now <= e) /\
    let s' := snd (AR.resetPassword now uid tok pw s) in
    AR.tokens s' = VT.deleteOne (VT.byId (VT._id d)) (AR.tokens s) /\
    (forall x : VT.t, In x (AR.tokens s') -> VT._id x <> VT._id d) /\
    List.length (AR.tokens s) = S (List.length (AR.tokens s')) /\
    AR.findById uid (AR.users s) = Some u /\
    AR.findById uid (AR.users s') = Some (User.set_password pw u).
Proof.
  intros Huniq. unfold AR.resetPassword.
  destruct (negb (JS.truthy uid) || negb (JS.truthy tok) || negb (JS.truthy pw));
    [discriminate|].
  destruct (Nat.ltb (String.length pw) 6); [discriminate|].
  destruct (VT.findOne (AR.byResetToken uid tok) (AR.tokens s)) as [d|] eqn:Hfind;
    [|discriminate].
  destruct (AR.resetTokenStale now d) eqn:Hstale; [discriminate|].
  destruct (AR.findById uid (AR.users s)) as [u|] eqn:Huser; [|discriminate].
  intros _. cbn [fst snd AR.tokens AR.users].
  exists d, u.
  pose proof (find_some _ _ Hfind) as [Hin Hq].
  apply byResetToken_true in Hq.
  destruct (deleteOne_found _ _ d Huniq Hfind) as (l1 & l2 & Hc & Hdel & Hids).
  split; [exact Hin|]. split; [exact Hq|]. split.
  { intros e He. unfold AR.resetTokenStale in Hstale. rewrite He in Hstale.
    now apply Z.ltb_ge in Hstale. }
  split; [reflexivity|]. rewrite Hdel. split; [exact Hids|]. split.
  { rewrite Hc, !length_app. cbn. lia. }
  split; [reflexivity|].
  apply (findById_saveUser uid u); [exact Huser|].
  unfold AR.findById in Huser. apply find_some in Huser.
  cbn. now apply String.eqb_eq.
Qed.

Lemma resetPassword_mismatch (now : Z) (uid tok pw : string) (s : AR.db) :
  JS.truthy uid = true -> JS.truthy tok = true -> JS.truthy pw = true ->
  (6 <= String.length pw)%nat ->
  (forall d : VT.t, In d (AR.tokens s) -> ~ matchesReset uid tok d) ->
  AR.resetPassword now uid tok pw s = (AR.InvalidOrExpiredResetToken, s).
Proof.
  intros Hu Ht Hp Hlen Hnone. unfold AR.resetPassword.
  rewrite Hu, Ht, Hp. cbn [negb orb].
  destruct (Nat.ltb_spec (String.length pw) 6) as [Hlt|_]; [lia|].
  assert (Hfind : VT.findOne (AR.byResetToken uid tok) (AR.tokens s) = None).
  { apply find_all_false. intros x Hx.
    destruct (AR.byResetToken uid tok x) eqn:E; [|reflexivity].
    apply byResetToken_true in E. exfalso. exact (Hnone x Hx E). }
  now rewrite Hfind.
Qed.

Lemma resetPassword_stale (now : Z) (uid tok pw : string) (s : AR.db)
      (d : VT.t) (e : Z) :
  JS.truthy uid = true -> JS.truthy tok = true -> JS.truthy pw = true ->
  (6 <= String.length pw)%nat ->
  VT.findOne (AR.byResetToken uid tok) (AR.tokens s) = Some d ->
  VT.resetTokenExpiresAt d = Some e -> e < now ->
  AR.resetPassword now uid tok pw s =
    (AR.ResetTokenExpired,
     AR.mkDb (AR.users s) (VT.deleteOne (VT.byId (VT._id d)) (AR.tokens s))).
Proof.
  intros Hu Ht Hp Hlen Hfind He Hlt. unfold AR.resetPassword.
  rewrite Hu, Ht, Hp. cbn [negb orb].
  destruct (Nat.ltb_spec (String.length pw) 6) as [Hlt'|_]; [lia|].
  rewrite Hfind. unfold AR.resetTokenStale. rewrite He.
  apply Z.ltb_lt in Hlt. now rewrite Hlt.
Qed.

(** Claim C4.  In a collection of distinct [_id]s: a successful
    verify-reset-otp does not delete the document it matched; it stores the
    generated reset token on it with resetTokenExpiresAt five minutes after
    the clock reading.  reset-password succeeds only when a document matches
    the user, the type password and the reset token and its
    resetTokenExpiresAt has not passed; on success that document is deleted
    and the user's password is the new one.  With well-formed fields, a reset
    token that no document matches, or one whose time has passed, is rejected
    with a 400 response and the password is not changed. *)
Theorem password_reset_handoff :
  (forall (now : Z) (token uid otp : string) (s : AR.db) (tok' uid' : string),
     uniqueIds (AR.tokens s) ->
     fst (AR.verifyResetOtp now token uid otp s) = AR.Verified tok' uid' ->
     exists d : VT.t,
       VT.findOne (VT.byUserType uid VT.KPassword) (AR.tokens s) = Some d /\
       VT.otp d = otp /\ tok' = token /\
       let s' := snd (AR.verifyResetOtp now token uid otp s) in
       exists d' : VT.t,
         VT.findOne (VT.byUserType uid VT.KPassword) (AR.tokens s') = Some d' /\
         VT._id d' = VT._id d /\
         VT.resetToken d' = Some token /\
         VT.resetTokenExpiresAt d' = Some (now + 5 * 60 * 1000) /\
         d' = VT.set_resetToken token (now + 5 * 60 * 1000) d /\
         List.length (AR.tokens s') = List.length (AR.tokens s) /\
         AR.users s' = AR.users s) /\
  (forall (now : Z) (uid tok pw : string) (s : AR.db),
     uniqueIds (AR.tokens s) ->
     fst (AR.resetPassword now uid tok pw s) = AR.PasswordReset ->
     exists (d : VT.t) (u : User.t),
       In d (AR.tokens s) /\ matchesReset uid tok d /\
       (forall e : Z, VT.resetTokenExpiresAt d = Some e -> now <= e) /\
       let s' := snd (AR.resetPassword now uid tok pw s) in
       AR.tokens s' = VT.deleteOne (VT.byId (VT._id d)) (AR.tokens s) /\
       (forall x : VT.t, In x (AR.tokens s') -> VT._id x <> VT._id d) /\
       List.length (AR.tokens s) = S (List.length (AR.tokens s')) /\
       AR.findById uid (AR.users s) = Some u /\
       AR.findById uid (AR.users s') = Some (User.set_password pw u)) /\
  (forall (now : Z) (uid tok pw : string) (s : AR.db),
     JS.truthy uid = true -> JS.truthy tok = true -> JS.truthy pw = true ->
     (6 <= String.length pw)%nat ->
     let r := fst (AR.resetPassword now uid tok pw s) in
     let s' := snd (AR.resetPassword now uid tok pw s) in
     ((forall d : VT.t, In d (AR.tokens s) -> ~ matchesReset uid tok d) ->
      r = AR.InvalidOrExpiredResetToken /\ s' = s) /\
     (forall (d : VT.t) (e : Z),
        VT.findOne (AR.byResetToken uid tok) (AR.tokens s) = Some d ->
        VT.resetTokenExpiresAt d = Some e -> e < now ->
        r = AR.ResetTokenExpired /\ AR.users s' = AR.users s /\
        AR.tokens s' = VT.deleteOne (VT.byId (VT._id d)) (AR.tokens s)) /\
     (invalidResetToken r -> AR.resetStatus r = 400 /\ AR.users s' = AR.users s)).
Proof.
  split; [|split].
  - intros now token uid otp s tok' uid' Huniq Hok.
    destruct (verifyResetOtp_success now token uid otp s tok' uid' Huniq Hok)
      as (d & Hfind & Hotp & _ & _ & Htok & Hus & _ & _ & Hlen & Hfind').
    exists d. split; [exact Hfind|]. split; [exact Hotp|]. split; [exact Htok|].
    cbv zeta. exists (VT.set_resetToken token (now + 5 * 60 * 1000) d).
    repeat split; assumption.
  - exact resetPassword_success.
  - intros now uid tok pw s Hu Ht Hp Hlen r s'. split; [|split].
    + intros Hnone. subst r s'.
      rewrite (resetPassword_mismatch now uid tok pw s Hu Ht Hp Hlen Hnone).
      split; reflexivity.
    + intros d e Hfind He Hlt. subst r s'.
      rewrite (resetPassword_stale now uid tok pw s d e Hu Ht Hp Hlen Hfind He Hlt).
      repeat split.
    + subst r s'. unfold AR.resetPassword.
      rewrite Hu, Ht, Hp. cbn [negb orb].
      destruct (Nat.ltb (String.length pw) 6);
        [intros [H|H]; discriminate|].
      destruct (VT.findOne (AR.byResetToken uid tok) (AR.tokens s)) as [d|];
        [|intros _; split; reflexivity].
      destruct (AR.resetTokenStale now d); [intros _; split; reflexivity|].
      destruct (AR.findById uid (AR.users s)); intros [H|H]; discriminate.
Qed.

Lemma password_reset_handoff_witness :
  let user := exampleUser 100 100 0 in
  let issued := snd (VT.createOTP 0 "123456" "u1" "a@b.c" VT.KPassword []) in
  let s1 := snd (AR.verifyResetOtp 1000 "tok123" "u1" "123456"
                   (AR.mkDb [user] issued)) in
  let s2 := snd (AR.resetPassword 2000 "u1" "tok123" "hunter22" s1) in
  uniqueIds (AR.tokens s1) /\
  fst (AR.resetPassword 2000 "u1" "tok123" "hunter22" s1) = AR.PasswordReset /\
  AR.tokens s2 = [] /\
  exists u : User.t,
    AR.findById "u1" (AR.users s2) = Some (User.set_password "hunter22" u).
Proof.
  intros user issued s1 s2.
  assert (Huniq : uniqueIds (AR.tokens s1)).
  { unfold uniqueIds. cbn. constructor; [intros []|constructor]. }
  split; [exact Huniq|]. split; [reflexivity|]. split; [reflexivity|].
  destruct (proj1 (proj2 password_reset_handoff) 2000 "u1" "tok123" "hunter22"
              s1 Huniq eq_refl) as (d & u & _ & _ & _ & _ & _ & _ & _ & Hpw).
  exists u. exact Hpw.
Defined.

(** ** The invariants are kept by createOTP *)

Lemma createOTP_collection (now : Z) (code uid mail : string) (ty : VT.kind)
      (c : VT.collection) :
  snd (VT.createOTP now code uid mail ty c) = c \/
  exists count : Z,
    snd (VT.createOTP now code uid mail ty c) =
    VT.deleteMany (VT.byUserType uid ty) c ++
    [VT.mk (VT.freshId c) uid mail code ty 0 5 count now (now + VT.window_ms)
           None None].
Proof.
  unfold VT.createOTP.
  destruct (VT.findOne _ c) as [d0|].
  - destruct (3 <=? VT.resendCount d0); [now left|].
    right. exists (VT.resendCount d0 + 1). reflexivity.
  - right. exists 0. reflexivity.
Qed.

Lemma createOTP_atMostOnePer (now : Z) (code uid mail : string) (ty : VT.kind)
      (c : VT.collection) :
  atMostOnePer c -> atMostOnePer (snd (VT.createOTP now code uid mail ty c)).
Proof.
  intros Hone.
  destruct (createOTP_collection now code uid mail ty c) as [->|[count ->]];
    [exact Hone|].
  assert (Hclash : forall x doc,
            In x (VT.deleteMany (VT.byUserType uid ty) c) ->
            VT.userId doc = uid -> VT.type doc = ty ->
            VT.userId x = VT.userId doc -> VT.type x = VT.type doc -> False).
  { intros x doc Hx Hu Ht Hxu Hxt. apply deleteMany_In in Hx.
    destruct Hx as [_ Hq].
    assert (Htrue : VT.byUserType uid ty x = true)
      by (apply byUserType_true; split; congruence).
    congruence. }
  intros d1 d2 H1 H2 Hu Ht.
  apply in_app_or in H1. apply in_app_or in H2.
  destruct H1 as [H1|[<-|[]]], H2 as [H2|[<-|[]]].
  - apply deleteMany_In in H1. apply deleteMany_In in H2.
    apply Hone; tauto.
  - exfalso. eapply (Hclash d1); eauto.
  - exfalso. eapply (Hclash d2); eauto.
  - reflexivity.
Qed.

Lemma createOTP_uniqueIds (now : Z) (code uid mail : string) (ty : VT.kind)
      (c : VT.collection) :
  uniqueIds c -> uniqueIds (snd (VT.createOTP now code uid mail ty c)).
Proof.
  intros Huniq.
  destruct (createOTP_collection now code uid mail ty c) as [->|[count ->]];
    [exact Huniq|].
  unfold uniqueIds in *. rewrite map_app. cbn [map VT._id].
  assert (Hsub : forall q (l : VT.collection),
            NoDup (map VT._id l) -> NoDup (map VT._id (VT.deleteMany q l))).
  { intros q l. induction l as [|a l IH]; cbn; intros Hnd; [constructor|].
    inversion Hnd as [|? ? Ha Hl]; subst.
    destruct (negb (q a)); [|now apply IH].
    cbn. constructor; [|now apply IH].
    intros Hin. apply Ha. apply in_map_iff in Hin.
    destruct Hin as (x & Hx & Hxin). apply deleteMany_In in Hxin.
    rewrite <- Hx. apply in_map. tauto. }
  apply NoDup_app.
  - apply Hsub, Huniq.
  - constructor; [intros []|constructor].
  - intros i Hi [<-|[]]. apply in_map_iff in Hi.
    destruct Hi as (x & Hx & Hxin). apply deleteMany_In in Hxin.
    pose proof (freshId_above c x (proj1 Hxin)) as Hlt. lia.
Qed.

(** * Further properties of the code *)

(** ** Buddy decay and interaction *)

Lemma decayOf_mono (now1 now2 : Z) (u : User.t) :
  now1 <= now2 -> User.decayOf now1 u <= User.decayOf now2 u.
Proof.
  intros H. rewrite !decayOf_div. apply Z.div_le_mono; lia.
Qed.

Lemma decayBuddyStats_nonpos (now : Z) (u : User.t) :
  User.decayOf now u <= 0 -> snd (User.decayBuddyStats now u) = u.
Proof.
  intros H. apply Z.ltb_ge in H. unfold User.decayBuddyStats. now rewrite H.
Qed.

(** X1.  With happiness at least 20 and fullness at least 10, decayBuddyStats
    never raises a stat and never takes it below its floor, and a later clock
    reading gives stats no higher than an earlier one. *)
Theorem decayBuddyStats_floors_and_monotone :
  forall (now1 now2 : Z) (u : User.t),
    20 <= User.buddyHappiness u ->
    10 <= User.buddyFullness u ->
    now1 <= now2 ->
    let u1 := snd (User.decayBuddyStats now1 u) in
    let u2 := snd (User.decayBuddyStats now2 u) in
    20 <= User.buddyHappiness u2 <= User.buddyHappiness u1 /\
    User.buddyHappiness u1 <= User.buddyHappiness u /\
    10 <= User.buddyFullness u2 <= User.buddyFullness u1 /\
    User.buddyFullness u1 <= User.buddyFullness u.
Proof.
  intros now1 now2 u Hh Hf Hle u1 u2.
  pose proof (decayOf_mono now1 now2 u Hle) as Hmono.
  assert (Hcase : forall now,
            (User.decayOf now u <= 0 /\ snd (User.decayBuddyStats now u) = u) \/
            (0 < User.decayOf now u /\
             snd (User.decayBuddyStats now u) =
             User.set_buddyFullness
               (Z.max 10 (User.buddyFullness u - User.decayOf now u))
               (User.set_buddyHappiness
                  (Z.max 20 (User.buddyHappiness u - User.decayOf now u)) u))).
  { intros now. destruct (Z_lt_le_dec 0 (User.decayOf now u)) as [Hp|Hn].
    - right. split; [exact Hp|now apply decayBuddyStats_pos].
    - left. split; [exact Hn|now apply decayBuddyStats_nonpos]. }
  subst u1 u2.
  destruct (Hcase now1) as [[D1 ->]|[D1 ->]], (Hcase now2) as [[D2 ->]|[D2 ->]];
    cbn [User.buddyHappiness User.buddyFullness
         User.set_buddyFullness User.set_buddyHappiness]; lia.
Qed.

Lemma decayBuddyStats_floors_and_monotone_witness :
  let u := exampleUser 60 40 0 in
  20 <= User.buddyHappiness u /\ 10 <= User.buddyFullness u /\
  3600000 <= 7200000 /\
  User.buddyHappiness (snd (User.decayBuddyStats 7200000 u))
  <= User.buddyHappiness (snd (User.decayBuddyStats 3600000 u)).
Proof.
  intros u.
  assert (Hh : 20 <= User.buddyHappiness u) by (cbn; lia).
  assert (Hf : 10 <= User.buddyFullness u) by (cbn; lia).
  assert (Hle : 3600000 <= 7200000) by lia.
  split; [exact Hh|]. split; [exact Hf|]. split; [exact Hle|].
  exact (proj2 (proj1 (decayBuddyStats_floors_and_monotone
                         3600000 7200000 u Hh Hf Hle))).
Defined.

(** X2.  A stat below its floor is raised by decay: playing with a buddy
    whose fullness is under 15 leaves fullness under 10, and a decay at least
    half an hour after that interaction sets fullness to 10, above what was
    stored. *)
Theorem decayBuddyStats_raises_low_fullness :
  forall (t0 t : Z) (u : User.t),
    User.buddyFullness u < 15 ->
    t0 + 1800000 <= t ->
    let u1 := snd (BuddyRoutes.interact "play" t0 u) in
    let u2 := snd (User.decayBuddyStats t u1) in
    BuddyRoutes.status (fst (BuddyRoutes.interact "play" t0 u)) = 200 /\
    User.buddyFullness u1 < 10 /\
    User.buddyFullness u2 = 10 /\
    User.fullness (fst (User.decayBuddyStats t u1)) = 10.
Proof.
  intros t0 t u Hf Ht u1 u2.
  assert (Hu1 : u1 = User.set_lastBuddyInteraction t0
                  (User.set_buddyFullness (Z.max 0 (User.buddyFullness u - 5))
                     (User.set_buddyHappiness
                        (Z.min 100 (User.buddyHappiness u + 10)) u)))
    by reflexivity.
  assert (Hd : 0 < User.decayOf t u1).
  { rewrite decayOf_div, Hu1. cbn [User.lastBuddyInteraction User.set_lastBuddyInteraction].
    assert (1 <= (t - t0) / 1800000) by (apply Z.div_le_lower_bound; lia).
    lia. }
  assert (Hlow : User.buddyFullness u1 < 10) by (rewrite Hu1; cbn; lia).
  assert (Hu2 : User.buddyFullness u2 = 10).
  { subst u2. rewrite (decayBuddyStats_pos t u1 Hd).
    cbn [User.buddyHappiness User.buddyFullness
         User.set_buddyFullness User.set_buddyHappiness]. lia. }
  split; [reflexivity|]. split; [exact Hlow|]. split; [exact Hu2|].
  rewrite (proj1 (proj2 (decayBuddyStats_result t u1))). exact Hu2.
Qed.

Lemma decayBuddyStats_raises_low_fullness_witness :
  let u := exampleUser 50 3 0 in
  User.buddyFullness u < 15 /\ 1000 + 1800000 <= 1801000 /\
  User.buddyFullness
    (snd (User.decayBuddyStats 1801000 (snd (BuddyRoutes.interact "play" 1000 u)))) = 10.
Proof.
  intros u.
  assert (Hf : User.buddyFullness u < 15) by (cbn; lia).
  assert (Ht : 1000 + 1800000 <= 1801000) by lia.
  split; [exact Hf|]. split; [exact Ht|].
  exact (proj1 (proj2 (proj2 (decayBuddyStats_raises_low_fullness
                                1000 1801000 u Hf Ht)))).
Defined.

Lemma interact_success_timestamp (action : string) (now : Z) (u : User.t) :
  BuddyRoutes.status (fst (BuddyRoutes.interact action now u)) = 200 ->
  User.lastBuddyInteraction (snd (BuddyRoutes.interact action now u)) = now.
Proof.
  unfold BuddyRoutes.interact, BuddyRoutes.finish.
  destruct (String.eqb action "pet"); [reflexivity|].
  destruct (String.eqb action "play"); [reflexivity|].
  destruct (String.eqb action "treat"); [|cbn; discriminate].
  destruct (User.totalKibble u <? 10); [cbn; discriminate|reflexivity].
Qed.

(** X3.  A successful interaction moves the baseline of decay: for half an
    hour after it, and whenever the clock reads earlier than the stored
    interaction time, decayBuddyStats returns the stored stats and leaves the
    document as it is. *)
Theorem decayBuddyStats_quiet_after_interaction :
  forall (action : string) (t0 t : Z) (u : User.t),
    BuddyRoutes.status (fst (BuddyRoutes.interact action t0 u)) = 200 ->
    t < t0 + 1800000 ->
    let u1 := snd (BuddyRoutes.interact action t0 u) in
    User.lastBuddyInteraction u1 = t0 /\
    snd (User.decayBuddyStats t u1) = u1 /\
    User.happiness (fst (User.decayBuddyStats t u1)) = User.buddyHappiness u1 /\
    User.fullness (fst (User.decayBuddyStats t u1)) = User.buddyFullness u1.
Proof.
  intros action t0 t u Hok Ht u1.
  assert (Hlast : User.lastBuddyInteraction u1 = t0).
  { now apply interact_success_timestamp. }
  assert (Hd : User.decayOf t u1 <= 0).
  { rewrite decayOf_div, Hlast.
    assert ((t - t0) / 1800000 < 1) by (apply Z.div_lt_upper_bound; lia).
    lia. }
  pose proof (decayBuddyStats_nonpos t u1 Hd) as Hsame.
  destruct (decayBuddyStats_result t u1) as (Hh & Hf & _).
  rewrite Hh, Hf, Hsame. auto.
Qed.

Lemma decayBuddyStats_quiet_after_interaction_witness :
  let u := exampleUser 50 50 0 in
  BuddyRoutes.status (fst (BuddyRoutes.interact "pet" 5000 u)) = 200 /\
  6000 < 5000 + 1800000 /\
  snd (User.decayBuddyStats 6000 (snd (BuddyRoutes.interact "pet" 5000 u)))
  = snd (BuddyRoutes.interact "pet" 5000 u).
Proof.
  intros u.
  assert (Ht : 6000 < 5000 + 1800000) by lia.
  split; [reflexivity|]. split; [exact Ht|].
  exact (proj1 (proj2 (decayBuddyStats_quiet_after_interaction
                         "pet" 5000 6000 u eq_refl Ht))).
Defined.

(** X4.  Every interaction keeps happiness and fullness within 0..100 and
    the kibble balance non-negative when they were; the balance never grows,
    and it drops by exactly 10 on a successful treat and by nothing
    otherwise. *)
Theorem interact_keeps_ranges :
  forall (action : string) (now : Z) (u : User.t),
    statsInRange u ->
    let r := fst (BuddyRoutes.interact action now u) in
    let u' := snd (BuddyRoutes.interact action now u) in
    statsInRange u' /\
    User.totalKibble u' =
      (if String.eqb action "treat" && (BuddyRoutes.status r =? 200)
       then User.totalKibble u - 10 else User.totalKibble u) /\
    User.unlockedBreeds u' = User.unlockedBreeds u /\
    User.currentStreak u' = User.currentStreak u.
Proof.
  intros action now u (Hh & Hf & Hk). unfold statsInRange.
  unfold BuddyRoutes.interact, BuddyRoutes.finish.
  destruct (String.eqb_spec action "pet") as [->|Hpet].
  { cbn. repeat split; lia. }
  destruct (String.eqb_spec action "play") as [->|Hplay].
  { cbn. repeat split; lia. }
  destruct (String.eqb_spec action "treat") as [->|Htreat].
  - destruct (User.totalKibble u <? 10) eqn:E.
    + cbn. repeat split; lia.
    + apply Z.ltb_ge in E. cbn. repeat split; lia.
  - cbn. repeat split; lia.
Qed.

Lemma interact_keeps_ranges_witness :
  let u := User.mk "u1" "secret" 25 0 0 None ["golden_retriever"]
                   "golden_retriever" 98 90 0 in
  statsInRange u /\
  statsInRange (snd (BuddyRoutes.interact "treat" 1000 u)).
Proof.
  intros u.
  assert (H : statsInRange u) by (unfold statsInRange; cbn; lia).
  split; [exact H|].
  exact (proj1 (interact_keeps_ranges "treat" 1000 u H)).
Defined.

(** ** Streaks, further *)

Section StreakMore.

Variable getTime : string -> option Z.
Variable clockDate : string.

(** The document updateStreak returns, field by field. *)
Lemma updateStreak_fields (sessionDate : option string) (u : User.t) :
  let today := JS.or_else sessionDate clockDate in
  User.updateStreak getTime clockDate sessionDate u =
  User.mk (User._id u) (User.password u) (User.totalKibble u)
          (User.nextStreak getTime u today)
          (Z.max (User.longestStreak u) (User.nextStreak getTime u today))
          (Some today) (User.unlockedBreeds u) (User.activeBreed u)
          (User.buddyHappiness u) (User.buddyFullness u)
          (User.lastBuddyInteraction u).
Proof.
  intros today. unfold User.updateStreak. fold today.
  destruct (User.longestStreak _ <? User.currentStreak _) eqn:E; cbn in E |- *.
  - apply Z.ltb_lt in E.
    unfold User.set_lastSessionDate, User.set_longestStreak,
           User.set_currentStreak. cbn. f_equal. lia.
  - apply Z.ltb_ge in E.
    unfold User.set_lastSessionDate, User.set_currentStreak. cbn. f_equal. lia.
Qed.

Lemma diffDays_same (d : string) (t : Z) :
  getTime d = Some t -> User.diffDays getTime d d = Some 0.
Proof.
  intros H. unfold User.diffDays. rewrite H.
  now rewrite Z.sub_diag.
Qed.

Lemma nextStreak_unparsed (u : User.t) (today : string) :
  getTime today = None -> User.nextStreak getTime u today = 1.
Proof.
  intros H. unfold User.nextStreak, User.diffDays. rewrite H.
  destruct (JS.truthy_opt (User.lastSessionDate u)); [|reflexivity].
  destruct (User.lastSessionDate u); reflexivity.
Qed.

Lemma updateStreak_idempotent_aux (sessionDate : option string) (u : User.t) :
  JS.truthy (JS.or_else sessionDate clockDate) = true ->
  User.updateStreak getTime clockDate sessionDate
    (User.updateStreak getTime clockDate sessionDate u) =
  User.updateStreak getTime clockDate sessionDate u.
Proof.
  intros Htruthy.
  rewrite (updateStreak_fields sessionDate
             (User.updateStreak getTime clockDate sessionDate u)).
  rewrite (updateStreak_fields sessionDate u).
  cbv zeta. set (today := JS.or_else sessionDate clockDate) in *.
  set (n := User.nextStreak getTime u today).
  cbn [User._id User.password User.totalKibble User.longestStreak
       User.unlockedBreeds User.activeBreed User.buddyHappiness
       User.buddyFullness User.lastBuddyInteraction].
  match goal with
  | |- User.mk _ _ _ ?a _ _ _ _ _ _ _ = _ => assert (Hn : a = n)
  end.
  { unfold User.nextStreak at 1.
    cbn [User.lastSessionDate User.currentStreak JS.truthy_opt].
    rewrite Htruthy. cbn [negb].
    destruct (getTime today) as [t|] eqn:Ht.
    - now rewrite (diffDays_same today t Ht).
    - unfold User.diffDays. rewrite Ht. subst n.
      now rewrite (nextStreak_unparsed u today Ht). }
  rewrite Hn. f_equal. lia.
Qed.

End StreakMore.

(** X5.  updateStreak is idempotent for a date: a second call with the same
    session date (or, without one, the same clock date) returns the document
    of the first call, so several sessions on one day count once. *)
Theorem updateStreak_same_day_idempotent :
  forall (getTime : string -> option Z) (clockDate : string)
         (sessionDate : option string) (u : User.t),
    JS.truthy (JS.or_else sessionDate clockDate) = true ->
    User.updateStreak getTime clockDate sessionDate
      (User.updateStreak getTime clockDate sessionDate u) =
    User.updateStreak getTime clockDate sessionDate u.
Proof.
  intros getTime clockDate sessionDate u H.
  now apply updateStreak_idempotent_aux.
Qed.

Lemma updateStreak_same_day_idempotent_witness :
  let u := User.mk "u1" "secret" 0 4 9 (Some "2024-01-01")
                   ["golden_retriever"] "golden_retriever" 100 100 0 in
  JS.truthy (JS.or_else (Some "2024-01-02") "2024-06-01") = true /\
  User.currentStreak
    (User.updateStreak ISODate.parse "2024-06-01" (Some "2024-01-02")
       (User.updateStreak ISODate.parse "2024-06-01" (Some "2024-01-02") u)) = 5.
Proof.
  intros u. split; [reflexivity|].
  rewrite (updateStreak_same_day_idempotent ISODate.parse "2024-06-01"
             (Some "2024-01-02") u eq_refl).
  reflexivity.
Defined.

(** X6.  The streak check of GET /stats does not change what the next
    session records: updateStreak after the check gives the document that
    updateStreak alone gives, for the same date.  The check itself writes no
    field but currentStreak, and sets it to 0 exactly when lastSessionDate is
    present and more than one whole day before the date. *)
Theorem checkStreak_then_updateStreak :
  forall (getTime : string -> option Z) (clockDate : string)
         (sessionDate : option string) (u : User.t),
    let today := JS.or_else sessionDate clockDate in
    let checked := StatsRoutes.checkStreak getTime today u in
    User.updateStreak getTime clockDate sessionDate checked =
    User.updateStreak getTime clockDate sessionDate u /\
    (checked = u \/
     checked = User.set_currentStreak 0 u /\
     exists (last : string) (n : Z),
       User.lastSessionDate u = Some last /\ JS.truthy last = true /\
       User.diffDays getTime last today = Some n /\ 1 < n).
Proof.
  intros getTime clockDate sessionDate u today checked.
  subst checked. unfold StatsRoutes.checkStreak.
  destruct (User.lastSessionDate u) as [last|] eqn:Hlast; [|split; [reflexivity|now left]].
  destruct (JS.truthy last) eqn:Htruthy; [|split; [reflexivity|now left]].
  destruct (User.diffDays getTime last today) as [n|] eqn:Hdiff;
    [|split; [reflexivity|now left]].
  destruct (1 <? n) eqn:Hn; [|split; [reflexivity|now left]].
  apply Z.ltb_lt in Hn. split.
  - rewrite !updateStreak_fields. fold today.
    assert (Hnext : forall v, User.lastSessionDate v = Some last ->
                              User.nextStreak getTime v today = 1).
    { intros v Hv. rewrite (nextStreak_present getTime v last today Hv Htruthy).
      rewrite Hdiff. destruct n as [|p|p]; try lia. destruct p; try lia; reflexivity. }
    rewrite (Hnext u Hlast), (Hnext (User.set_currentStreak 0 u) Hlast).
    reflexivity.
  - right. split; [reflexivity|]. exists last, n. auto.
Qed.

(** X7.  Sessions on consecutive days add up: starting from a document
    whose lastSessionDate is present, a run of sessions each one day after
    the previous date raises currentStreak by the number of sessions, and
    longestStreak is the larger of its old value and the new currentStreak. *)
Theorem consecutive_days_add_up :
  forall (getTime : string -> option Z) (clockDate : string)
         (dates : list string) (last : string) (u : User.t),
    User.lastSessionDate u = Some last ->
    JS.truthy last = true ->
    consecutiveDays getTime last dates ->
    let u' := applySessions getTime clockDate (map Some dates) u in
    User.currentStreak u' = User.currentStreak u + Z.of_nat (List.length dates) /\
    (dates <> [] ->
     User.longestStreak u' = Z.max (User.longestStreak u) (User.currentStreak u')).
Proof.
  intros getTime clockDate dates.
  induction dates as [|d rest IH]; intros last u Hlast Htruthy Hcons.
  - cbn. split; [lia|congruence].
  - destruct Hcons as (Hd & Hdiff & Hrest).
    cbn [map applySessions List.length].
    set (u1 := User.updateStreak getTime clockDate (Some d) u).
    assert (Htoday : JS.or_else (Some d) clockDate = d) by (cbn; now rewrite Hd).
    assert (Hcur1 : User.currentStreak u1 = User.currentStreak u + 1).
    { subst u1. rewrite updateStreak_currentStreak, Htoday.
      rewrite (nextStreak_present getTime u last d Hlast Htruthy), Hdiff.
      reflexivity. }
    assert (Hlong1 : User.longestStreak u1 =
                     Z.max (User.longestStreak u) (User.currentStreak u1)).
    { rewrite Hcur1. subst u1. rewrite updateStreak_longestStreak, Htoday.
      rewrite (nextStreak_present getTime u last d Hlast Htruthy), Hdiff.
      reflexivity. }
    assert (Hlast1 : User.lastSessionDate u1 = Some d).
    { subst u1. rewrite updateStreak_lastSessionDate. now rewrite Htoday. }
    destruct (IH d u1 Hlast1 Hd Hrest) as [IHc IHl]. cbv zeta in IHc, IHl.
    split.
    + rewrite IHc, Hcur1. lia.
    + intros _. destruct rest as [|d2 rest'].
      * cbn [map applySessions]. cbn [map applySessions List.length] in IHc.
        exact Hlong1.
      * rewrite IHl by discriminate. rewrite Hlong1, IHc, Hcur1.
        cbn [List.length]. lia.
Qed.

Lemma consecutive_days_add_up_witness :
  let u := User.mk "u1" "secret" 0 2 2 (Some "2024-02-27")
                   ["golden_retriever"] "golden_retriever" 100 100 0 in
  let dates := ["2024-02-28"; "2024-02-29"; "2024-03-01"] in
  consecutiveDays ISODate.parse "2024-02-27" dates /\
  User.currentStreak
    (applySessions ISODate.parse "2024-06-01" (map Some dates) u) = 2 + 3.
Proof.
  intros u dates.
  assert (H : consecutiveDays ISODate.parse "2024-02-27" dates).
  { cbn [consecutiveDays dates]. repeat split; reflexivity. }
  split; [exact H|].
  exact (proj1 (consecutive_days_add_up ISODate.parse "2024-06-01" dates
                  "2024-02-27" u eq_refl eq_refl H)).
Defined.

(** X8.  Over any sequence of updateStreak calls longestStreak is the
    running maximum: its final value is the largest of its initial value and
    the currentStreak values after each call, so it never decreases. *)
Theorem longestStreak_running_max :
  forall (getTime : string -> option Z) (clockDate : string)
         (dates : list (option string)) (u : User.t),
    User.longestStreak (applySessions getTime clockDate dates u) =
    fold_left Z.max
      (map User.currentStreak (User.streakTrace getTime clockDate dates u))
      (User.longestStreak u) /\
    User.longestStreak u <=
    User.longestStreak (applySessions getTime clockDate dates u).
Proof.
  intros getTime clockDate dates.
  induction dates as [|d rest IH]; intros u.
  - cbn. split; [reflexivity|lia].
  - cbn [applySessions User.streakTrace map fold_left].
    destruct (IH (User.updateStreak getTime clockDate d u)) as [IHeq IHle].
    rewrite updateStreak_longestStreak, updateStreak_currentStreak in *.
    split; [exact IHeq|lia].
Qed.

(** ** Breed unlocks, further *)

(** Whatever the table, the loop extends both arrays by the same list; the
    added ids were not unlocked, are affordable entries of the table, are
    pairwise distinct, and afterwards every affordable entry is unlocked. *)
Lemma unlockLoop_general (kibble : Z) :
  forall (entries : list (string * Z)) (unlocked newly : list string),
  exists added : list string,
    User.unlockLoop kibble entries unlocked newly =
      (unlocked ++ added, newly ++ added) /\
    NoDup added /\
    (forall b, In b added ->
       ~ In b unlocked /\ exists r, In (b, r) entries /\ r <= kibble) /\
    (forall b r, In (b, r) entries -> r <= kibble -> In b (unlocked ++ added)).
Proof.
  induction entries as [|[b r] rest IH]; intros unlocked newly.
  - exists []. cbn. rewrite !app_nil_r.
    repeat split; [constructor|contradiction|contradiction|contradiction].
  - cbn [User.unlockLoop].
    destruct ((r <=? kibble) && negb (JS.includes unlocked b)) eqn:E.
    + apply andb_prop in E. destruct E as [Hr Hinc].
      apply Z.leb_le in Hr. apply negb_true_iff in Hinc.
      assert (Hnot : ~ In b unlocked).
      { intros Hin. apply includes_In in Hin. congruence. }
      destruct (IH (unlocked ++ [b]) (newly ++ [b]))
        as (added & Heq & Hnd & Hadded & Hall).
      exists (b :: added). rewrite Heq, <- !app_assoc. cbn [app].
      split; [reflexivity|]. split; [|split].
      * constructor; [|exact Hnd].
        intros Hin. destruct (Hadded b Hin) as [Hfresh _].
        apply Hfresh. apply in_or_app. right. now left.
      * intros x [<-|Hx].
        -- split; [exact Hnot|]. exists r. split; [now left|exact Hr].
        -- destruct (Hadded x Hx) as [Hfresh (r' & Hin' & Hr')].
           split.
           ++ intros Hin. apply Hfresh. apply in_or_app. now left.
           ++ exists r'. split; [now right|exact Hr'].
      * intros x rx [[= <- <-]|Hin] Hle.
        -- apply in_or_app. right. now left.
        -- specialize (Hall x rx Hin Hle).
           rewrite <- app_assoc in Hall. exact Hall.
    + destruct (IH unlocked newly) as (added & Heq & Hnd & Hadded & Hall).
      exists added. split; [exact Heq|]. split; [exact Hnd|]. split.
      * intros x Hx. destruct (Hadded x Hx) as [Hfresh (r' & Hin' & Hr')].
        split; [exact Hfresh|]. exists r'. split; [now right|exact Hr'].
      * intros x rx [[= <- <-]|Hin] Hle.
        -- apply in_or_app. left.
           apply andb_false_iff in E. destruct E as [E|E].
           ++ apply Z.leb_gt in E. lia.
           ++ apply negb_false_iff in E. now apply includes_In.
        -- now apply (Hall x rx).
Qed.

(** When every affordable entry is already unlocked the loop changes
    nothing. *)
Lemma unlockLoop_nothing (kibble : Z) :
  forall (entries : list (string * Z)) (unlocked newly : list string),
    (forall b r, In (b, r) entries -> r <= kibble -> In b unlocked) ->
    User.unlockLoop kibble entries unlocked newly = (unlocked, newly).
Proof.
  induction entries as [|[b r] rest IH]; intros unlocked newly Hall;
    [reflexivity|].
  cbn [User.unlockLoop].
  destruct (r <=? kibble) eqn:Hr.
  - apply Z.leb_le in Hr.
    assert (Hin : JS.includes unlocked b = true).
    { apply includes_In. apply (Hall b r); [now left|exact Hr]. }
    rewrite Hin. cbn. apply IH. intros x rx Hx. apply Hall. now right.
  - cbn. apply IH. intros x rx Hx. apply Hall. now right.
Qed.

(** X9.  For any requirement table, after checkBreedUnlocks every breed of
    the table whose requirement the kibble balance meets is unlocked; the
    breeds unlocked before keep their places at the front of the array, the
    reported breeds were locked before, and the array has no duplicate when
    it had none. *)
Theorem checkBreedUnlocks_complete :
  forall (table : list (string * Z)) (u : User.t),
    let newlyUnlocked := fst (User.checkBreedUnlocksWith table u) in
    let u' := snd (User.checkBreedUnlocksWith table u) in
    User.unlockedBreeds u' = User.unlockedBreeds u ++ newlyUnlocked /\
    (forall b r, In (b, r) table -> r <= User.totalKibble u ->
                 In b (User.unlockedBreeds u')) /\
    (forall b, In b newlyUnlocked -> ~ In b (User.unlockedBreeds u)) /\
    NoDup newlyUnlocked /\
    (NoDup (User.unlockedBreeds u) -> NoDup (User.unlockedBreeds u')).
Proof.
  intros table u newlyUnlocked u'.
  destruct (unlockLoop_general (User.totalKibble u) table (User.unlockedBreeds u) [])
    as (added & Heq & Hnd & Hadded & Hall).
  subst newlyUnlocked u'. unfold User.checkBreedUnlocksWith.
  rewrite Heq. cbn [fst snd app User.unlockedBreeds User.set_unlockedBreeds].
  split; [reflexivity|]. split; [exact Hall|]. split; [|split].
  - intros b Hb. exact (proj1 (Hadded b Hb)).
  - exact Hnd.
  - intros Hu. apply NoDup_app; [exact Hu|exact Hnd|].
    intros b Hin Hb. exact (proj1 (Hadded b Hb) Hin).
Qed.

(** X10.  checkBreedUnlocks is idempotent: run again on the document it
    returned, with the kibble balance unchanged, it reports nothing and
    returns the same document. *)
Theorem checkBreedUnlocks_idempotent :
  forall (table : list (string * Z)) (u : User.t),
    let u' := snd (User.checkBreedUnlocksWith table u) in
    User.checkBreedUnlocksWith table u' = ([], u') /\
    User.checkBreedUnlocks (snd (User.checkBreedUnlocks u)) =
      ([], snd (User.checkBreedUnlocks u)).
Proof.
  assert (H : forall table u,
            User.checkBreedUnlocksWith table
              (snd (User.checkBreedUnlocksWith table u)) =
            ([], snd (User.checkBreedUnlocksWith table u))).
  { intros table u.
    destruct (unlockLoop_general (User.totalKibble u) table
                (User.unlockedBreeds u) []) as (added & Heq & _ & _ & Hall).
    unfold User.checkBreedUnlocksWith at 1.
    assert (Hk : User.totalKibble (snd (User.checkBreedUnlocksWith table u)) =
                 User.totalKibble u) by reflexivity.
    assert (Hu : User.unlockedBreeds (snd (User.checkBreedUnlocksWith table u)) =
                 User.unlockedBreeds u ++ added).
    { unfold User.checkBreedUnlocksWith. rewrite Heq. reflexivity. }
    rewrite Hk, Hu, (unlockLoop_nothing _ _ _ _ Hall). cbn [fst snd].
    f_equal. rewrite <- Hu.
    destruct (snd (User.checkBreedUnlocksWith table u)); reflexivity. }
  intros table u u'. split; [apply H|apply (H User.BREED_UNLOCK_REQUIREMENTS)].
Qed.

(** X11.  More kibble never unlocks less: every breed that is unlocked
    after checkBreedUnlocks with some kibble balance is also unlocked after
    checkBreedUnlocks with a larger balance, from the same document. *)
Theorem checkBreedUnlocks_monotone :
  forall (k1 k2 : Z) (u : User.t) (b : string),
    k1 <= k2 ->
    In b (User.unlockedBreeds
            (snd (User.checkBreedUnlocks (User.set_totalKibble k1 u)))) ->
    In b (User.unlockedBreeds
            (snd (User.checkBreedUnlocks (User.set_totalKibble k2 u)))).
Proof.
  intros k1 k2 u b Hle Hin.
  destruct (unlockLoop_general k2 User.BREED_UNLOCK_REQUIREMENTS
              (User.unlockedBreeds u) []) as (added2 & Heq2 & _ & _ & Hall2).
  destruct (unlockLoop_general k1 User.BREED_UNLOCK_REQUIREMENTS
              (User.unlockedBreeds u) []) as (added & Heq & _ & Hadded & _).
  unfold User.checkBreedUnlocks, User.checkBreedUnlocksWith in *.
  cbn [User.totalKibble User.set_totalKibble User.unlockedBreeds] in *.
  rewrite Heq in Hin. rewrite Heq2.
  cbn [fst snd User.unlockedBreeds User.set_unlockedBreeds] in *.
  apply in_app_or in Hin. destruct Hin as [Hold|Hnew].
  - apply in_or_app. now left.
  - destruct (Hadded b Hnew) as [_ (r & Hr & Hrk)].
    apply (Hall2 b r Hr). lia.
Qed.

Lemma checkBreedUnlocks_monotone_witness :
  let u := exampleUser 100 100 0 in
  100 <= 600 /\
  In "husky" (User.unlockedBreeds
                (snd (User.checkBreedUnlocks (User.set_totalKibble 600 u)))).
Proof.
  intros u.
  assert (Hle : 100 <= 600) by lia.
  split; [exact Hle|].
  apply (checkBreedUnlocks_monotone 100 600 u "husky" Hle).
  cbn. auto.
Defined.

(** ** The token model, further *)

Lemma Qceiling_div_1000 (x : Z) :
  Qceiling (inject_Z x / 1000)%Q = - ((- x) / 1000).
Proof.
  unfold Qceiling. f_equal. rewrite (Zdiv_Qdiv (- x) 1000).
  apply Qfloor_comp.
  unfold Qeq, Qdiv, Qmult, Qinv, Qopp, inject_Z; simpl. ring.
Qed.

(** Rounding up to seconds and then to minutes is rounding up to minutes. *)
Lemma ceil_seconds_then_minutes (x : Z) :
  - ((- - ((- x) / 1000)) / 60) = - ((- x) / 60000).
Proof.
  rewrite Z.opp_involutive. f_equal.
  rewrite Z.div_div by lia. reflexivity.
Qed.

Lemma createOTP_success_shape (now : Z) (code uid mail : string) (ty : VT.kind)
      (c : VT.collection) (k : string) :
  fst (VT.createOTP now code uid mail ty c) = inr k ->
  exists count : Z,
    snd (VT.createOTP now code uid mail ty c) =
    VT.deleteMany (VT.byUserType uid ty) c ++
    [VT.mk (VT.freshId c) uid mail code ty 0 5 count now (now + VT.window_ms)
           None None].
Proof.
  unfold VT.createOTP.
  destruct (VT.findOne _ c) as [d0|].
  - destruct (3 <=? VT.resendCount d0); [discriminate|].
    intros _. exists (VT.resendCount d0 + 1). reflexivity.
  - intros _. exists 0. reflexivity.
Qed.

Lemma deleteMany_idem (q : VT.t -> bool) (c : VT.collection) :
  VT.deleteMany q (VT.deleteMany q c) = VT.deleteMany q c.
Proof.
  unfold VT.deleteMany. induction c as [|a c IH]; cbn; [reflexivity|].
  destruct (negb (q a)) eqn:E; cbn; [rewrite E, IH|]; auto.
Qed.

Lemma deleteMany_app (q : VT.t -> bool) (l1 l2 : VT.collection) :
  VT.deleteMany q (l1 ++ l2) = VT.deleteMany q l1 ++ VT.deleteMany q l2.
Proof. unfold VT.deleteMany. apply filter_app. Qed.

Lemma filter_deleteMany_nil (q : VT.t -> bool) (c : VT.collection) :
  filter q (VT.deleteMany q c) = [].
Proof.
  unfold VT.deleteMany. induction c as [|a c IH]; cbn; [reflexivity|].
  destruct (q a) eqn:E; cbn; [exact IH|]. now rewrite E.
Qed.

(** X12.  canResend and createOTP agree at one clock reading, whatever the
    collection: canResend refuses exactly when createOTP throws, its
    waitSeconds rounded up to minutes is the wait time createOTP reports, and
    the refusing record has resendCount at least 3.  When canResend allows
    with count n, createOTP succeeds and stores resendCount n + 1, or 0 when
    n is 0 and no record was inside the window. *)
Theorem canResend_agrees_with_createOTP :
  forall (now : Z) (code uid mail : string) (ty : VT.kind) (c : VT.collection),
    match VT.canResend now uid ty c with
    | VT.MustWait s n =>
        VT.createOTP now code uid mail ty c =
          (inl (VT.TooManyRequests (- ((- s) / 60))), c) /\
        3 <= n /\
        exists d : VT.t,
          In d c /\ VT.userId d = uid /\ VT.type d = ty /\
          VT.resendCount d = n /\
          s = - ((now - (VT.lastResendAt d + 10 * 60 * 1000)) / 1000)
    | VT.CanResend n =>
        fst (VT.createOTP now code uid mail ty c) = inr code /\
        (resendCountOf uid ty (snd (VT.createOTP now code uid mail ty c))
           = Some (n + 1) \/
         n = 0 /\
         resendCountOf uid ty (snd (VT.createOTP now code uid mail ty c))
           = Some 0)
    end.
Proof.
  intros now code uid mail ty c.
  change (10 * 60 * 1000) with VT.window_ms.
  unfold VT.canResend, VT.createOTP.
  destruct (VT.findOne (VT.recentFor (now - VT.window_ms) uid ty) c)
    as [d|] eqn:Hfind.
  - destruct (3 <=? VT.resendCount d) eqn:Hcount.
    + apply Z.leb_le in Hcount.
      apply find_some in Hfind. destruct Hfind as [Hin Hq].
      apply recentFor_true in Hq. destruct Hq as (Hu & Ht & _).
      rewrite Qceiling_div_1000. split; [|split; [exact Hcount|]].
      * rewrite waitTime_div, ceil_seconds_then_minutes.
        repeat f_equal. lia.
      * exists d. repeat split; try assumption. f_equal. f_equal. lia.
    + destruct (issue_issuedAt now code uid mail ty (VT.resendCount d + 1) c)
        as (d' & Hsole & (_ & _ & _ & Hc & _)).
      unfold VT.issue in *. cbn [fst snd] in *.
      split; [reflexivity|]. left.
      rewrite (soleRecord_resendCountOf _ _ _ _ Hsole). now rewrite Hc.
  - destruct (issue_issuedAt now code uid mail ty 0 c)
      as (d' & Hsole & (_ & _ & _ & Hc & _)).
    unfold VT.issue in *. cbn [fst snd] in *.
    split; [reflexivity|]. right. split; [reflexivity|].
    rewrite (soleRecord_resendCountOf _ _ _ _ Hsole). now rewrite Hc.
Qed.

(** X13.  Round trip: a code createOTP has just issued is accepted by
    verifyOTP at any clock reading up to its expiry, which returns the user
    id and deletes the document, leaving the collection without any document
    of that user and type; the same code is then refused as not found. *)
Theorem createOTP_then_verifyOTP :
  forall (c : VT.collection) (uid mail : string) (ty : VT.kind) (t0 t : Z)
         (code : string),
    fst (VT.createOTP t0 code uid mail ty c) = inr code ->
    t <= t0 + 10 * 60 * 1000 ->
    let c1 := snd (VT.createOTP t0 code uid mail ty c) in
    let c2 := snd (VT.verifyOTP t uid code ty c1) in
    fst (VT.verifyOTP t uid code ty c1) = VT.Valid uid /\
    c2 = VT.deleteMany (VT.byUserType uid ty) c /\
    VT.findOne (VT.byUserType uid ty) c2 = None /\
    forall t' : Z, VT.verifyOTP t' uid code ty c2 = (VT.NoCodeFound, c2).
Proof.
  intros c uid mail ty t0 t code Hissued Ht c1 c2.
  change (10 * 60 * 1000) with VT.window_ms in *.
  destruct (createOTP_success_shape _ _ _ _ _ _ _ Hissued) as (count & Hshape).
  fold c1 in Hshape.
  set (doc := VT.mk (VT.freshId c) uid mail code ty 0 5 count t0
                    (t0 + VT.window_ms) None None) in *.
  pose proof (proj2 (issue_soleRecord t0 code uid mail ty count c)) as Hsole.
  unfold VT.issue in Hsole. cbn [snd] in Hsole. fold doc in Hsole.
  rewrite <- Hshape in Hsole.
  assert (Hv : VT.verifyOTP t uid code ty c1 =
               (VT.Valid uid, VT.deleteOne (VT.byId (VT._id doc)) c1)).
  { unfold VT.verifyOTP. rewrite (soleRecord_findOne _ _ _ _ Hsole).
    assert (E1 : (VT.expiresAt doc <? t) = false)
      by (apply Z.ltb_ge; exact Ht).
    rewrite E1. cbn [VT.maxAttempts VT.attempts doc Z.leb Z.compare].
    cbn [VT.otp doc]. rewrite String.eqb_refl. reflexivity. }
  assert (Hc2 : c2 = VT.deleteMany (VT.byUserType uid ty) c).
  { subst c2. rewrite Hv. cbn [snd]. rewrite Hshape.
    rewrite deleteOne_split; [now rewrite app_nil_r|].
    intros x Hx. apply deleteMany_In in Hx.
    pose proof (freshId_above c x (proj1 Hx)). cbn. lia. }
  assert (Hnone : VT.findOne (VT.byUserType uid ty) c2 = None).
  { rewrite Hc2. apply find_all_false. intros x Hx.
    apply deleteMany_In in Hx. tauto. }
  rewrite Hv. cbn [fst].
  split; [reflexivity|]. split; [exact Hc2|]. split; [exact Hnone|].
  intros t'. now apply verifyOTP_none.
Qed.

Lemma createOTP_then_verifyOTP_witness :
  let c1 := snd (VT.createOTP 0 "123456" "u1" "a@b.c" VT.KEmail []) in
  fst (VT.createOTP 0 "123456" "u1" "a@b.c" VT.KEmail []) = inr "123456" /\
  600000 <= 0 + 10 * 60 * 1000 /\
  fst (VT.verifyOTP 600000 "u1" "123456" VT.KEmail c1) = VT.Valid "u1".
Proof.
  intros c1.
  assert (Ht : 600000 <= 0 + 10 * 60 * 1000) by lia.
  split; [reflexivity|]. split; [exact Ht|].
  exact (proj1 (createOTP_then_verifyOTP [] "u1" "a@b.c" VT.KEmail 0 600000
                  "123456" eq_refl Ht)).
Defined.

(** X14.  Once ten minutes have passed since createOTP issued a code,
    verifyOTP refuses every code, the issued one included, as expired, and
    deletes the document. *)
Theorem verifyOTP_after_expiry :
  forall (c : VT.collection) (uid mail : string) (ty : VT.kind) (t0 t : Z)
         (code k : string),
    fst (VT.createOTP t0 code uid mail ty c) = inr code ->
    t0 + 10 * 60 * 1000 < t ->
    let c1 := snd (VT.createOTP t0 code uid mail ty c) in
    VT.verifyOTP t uid k ty c1 =
      (VT.CodeExpired, VT.deleteMany (VT.byUserType uid ty) c).
Proof.
  intros c uid mail ty t0 t code k Hissued Ht c1.
  change (10 * 60 * 1000) with VT.window_ms in *.
  destruct (createOTP_success_shape _ _ _ _ _ _ _ Hissued) as (count & Hshape).
  fold c1 in Hshape.
  set (doc := VT.mk (VT.freshId c) uid mail code ty 0 5 count t0
                    (t0 + VT.window_ms) None None) in *.
  pose proof (proj2 (issue_soleRecord t0 code uid mail ty count c)) as Hsole.
  unfold VT.issue in Hsole. cbn [snd] in Hsole. fold doc in Hsole.
  rewrite <- Hshape in Hsole.
  unfold VT.verifyOTP. rewrite (soleRecord_findOne _ _ _ _ Hsole).
  assert (E1 : (VT.expiresAt doc <? t) = true) by (apply Z.ltb_lt; exact Ht).
  rewrite E1. f_equal. rewrite Hshape.
  rewrite deleteOne_split; [now rewrite app_nil_r|].
  intros x Hx. apply deleteMany_In in Hx.
  pose proof (freshId_above c x (proj1 Hx)). cbn. lia.
Qed.

Lemma verifyOTP_after_expiry_witness :
  let c1 := snd (VT.createOTP 0 "123456" "u1" "a@b.c" VT.KEmail []) in
  fst (VT.createOTP 0 "123456" "u1" "a@b.c" VT.KEmail []) = inr "123456" /\
  0 + 10 * 60 * 1000 < 600001 /\
  VT.verifyOTP 600001 "u1" "123456" VT.KEmail c1 = (VT.CodeExpired, []).
Proof.
  intros c1.
  assert (Ht : 0 + 10 * 60 * 1000 < 600001) by lia.
  split; [reflexivity|]. split; [exact Ht|].
  exact (verifyOTP_after_expiry [] "u1" "a@b.c" VT.KEmail 0 600001
           "123456" "123456" eq_refl Ht).
Defined.

Lemma deleteMany_other (q q' : VT.t -> bool) (c : VT.collection) :
  (forall x, q x = true -> q' x = false) ->
  filter q (VT.deleteMany q' c) = filter q c.
Proof.
  intros Hdisj. unfold VT.deleteMany.
  induction c as [|a c IH]; cbn; [reflexivity|].
  destruct (q' a) eqn:E'; cbn.
  - destruct (q a) eqn:E; [|exact IH].
    rewrite (Hdisj a E) in E'. discriminate.
  - destruct (q a); now rewrite IH.
Qed.

Lemma byUserType_disjoint (uid uid' : string) (ty ty' : VT.kind) (x : VT.t) :
  (uid', ty') <> (uid, ty) ->
  VT.byUserType uid' ty' x = true -> VT.byUserType uid ty x = false.
Proof.
  intros Hne H'. destruct (VT.byUserType uid ty x) eqn:E; [|reflexivity].
  apply byUserType_true in H'. apply byUserType_true in E.
  exfalso. apply Hne. destruct H' as [<- <-], E as [<- <-]. reflexivity.
Qed.

(** X15.  After a successful createOTP the collection holds exactly one
    document of that user and type, the one just issued, whatever it held
    before; the documents of every other user or type are the same as
    before, in the same order. *)
Theorem createOTP_leaves_exactly_one :
  forall (now : Z) (code uid mail : string) (ty : VT.kind) (c : VT.collection),
    fst (VT.createOTP now code uid mail ty c) = inr code ->
    let c' := snd (VT.createOTP now code uid mail ty c) in
    (exists d : VT.t,
       filter (VT.byUserType uid ty) c' = [d] /\ issuedAt now code (VT.resendCount d) d /\
       VT.userId d = uid /\ VT.type d = ty /\ VT.email d = mail /\
       VT.resetTokenExpiresAt d = None) /\
    VT.deleteMany (VT.byUserType uid ty) c' = VT.deleteMany (VT.byUserType uid ty) c.
Proof.
  intros now code uid mail ty c Hok c'.
  destruct (createOTP_success_shape _ _ _ _ _ _ _ Hok) as (count & Hshape).
  subst c'. rewrite Hshape.
  set (doc := VT.mk (VT.freshId c) uid mail code ty 0 5 count now
                    (now + VT.window_ms) None None).
  assert (Hdoc : VT.byUserType uid ty doc = true)
    by (apply byUserType_true; split; reflexivity).
  split.
  - exists doc. rewrite filter_app, filter_deleteMany_nil. cbn [filter app].
    rewrite Hdoc. repeat split.
  - rewrite deleteMany_app, deleteMany_idem.
    unfold VT.deleteMany at 2. cbn [filter]. rewrite Hdoc. cbn.
    now rewrite app_nil_r.
Qed.

Lemma createOTP_leaves_exactly_one_witness :
  let old := VT.mk 7 "u1" "a@b.c" "999999" VT.KEmail 2 5 1 0 600000 None None in
  let c := [old; old] in
  fst (VT.createOTP 1000 "123456" "u1" "a@b.c" VT.KEmail c) = inr "123456" /\
  exists d : VT.t,
    filter (VT.byUserType "u1" VT.KEmail)
           (snd (VT.createOTP 1000 "123456" "u1" "a@b.c" VT.KEmail c)) = [d].
Proof.
  intros old c. split; [reflexivity|].
  destruct (proj1 (createOTP_leaves_exactly_one 1000 "123456" "u1" "a@b.c"
                     VT.KEmail c eq_refl)) as (d & Hd & _).
  exists d. exact Hd.
Defined.

(** X16.  createOTP, whether it succeeds or throws, and verifyOTP, over a
    collection of distinct ids, leave the documents of every other user and
    of the other type of the same user exactly as they were. *)
Theorem other_records_untouched :
  forall (now : Z) (code uid mail : string) (ty : VT.kind) (c : VT.collection)
         (uid' : string) (ty' : VT.kind),
    (uid', ty') <> (uid, ty) ->
    uniqueIds c ->
    filter (VT.byUserType uid' ty') (snd (VT.createOTP now code uid mail ty c))
      = filter (VT.byUserType uid' ty') c /\
    filter (VT.byUserType uid' ty') (snd (VT.verifyOTP now uid code ty c))
      = filter (VT.byUserType uid' ty') c.
Proof.
  intros now code uid mail ty c uid' ty' Hne Huniq. split.
  - destruct (createOTP_collection now code uid mail ty c) as [->|[count ->]];
      [reflexivity|].
    rewrite filter_app. cbn [filter].
    assert (Hdoc : VT.byUserType uid' ty'
                     (VT.mk (VT.freshId c) uid mail code ty 0 5 count now
                            (now + VT.window_ms) None None) = false).
    { destruct (VT.byUserType uid' ty' _) eqn:E; [|reflexivity].
      apply (byUserType_disjoint uid uid' ty ty' _ Hne) in E.
      assert (E' : VT.byUserType uid ty
                     (VT.mk (VT.freshId c) uid mail code ty 0 5 count now
                            (now + VT.window_ms) None None) = true)
        by (apply byUserType_true; split; reflexivity).
      congruence. }
    rewrite Hdoc, app_nil_r. apply deleteMany_other.
    intros x. apply byUserType_disjoint. exact Hne.
  - unfold VT.verifyOTP.
    destruct (VT.findOne (VT.byUserType uid ty) c) as [d|] eqn:Hfind;
      [|reflexivity].
    assert (Hd : VT.byUserType uid ty d = true)
      by (apply (find_some _ _ Hfind)).
    assert (Hd' : VT.byUserType uid' ty' d = false).
    { destruct (VT.byUserType uid' ty' d) eqn:E; [|reflexivity].
      apply (byUserType_disjoint uid uid' ty ty' d Hne) in E. congruence. }
    assert (Hdel : filter (VT.byUserType uid' ty')
                     (VT.deleteOne (VT.byId (VT._id d)) c) =
                   filter (VT.byUserType uid' ty') c).
    { destruct (deleteOne_found _ _ d Huniq Hfind) as (l1 & l2 & Hc & Hdel & _).
      rewrite Hdel, Hc, !filter_app. cbn [filter]. now rewrite Hd'. }
    destruct (VT.expiresAt d <? now); [exact Hdel|].
    destruct (VT.maxAttempts d <=? VT.attempts d); [exact Hdel|].
    destruct (negb (String.eqb (VT.otp d) code)); [|exact Hdel].
    cbn [snd].
    destruct (save_found _ _ d (VT.set_attempts (VT.attempts d + 1) d)
                Huniq Hfind eq_refl) as (l1 & l2 & Hc & Hsave).
    rewrite Hsave, Hc, !filter_app. cbn [filter].
    assert (Hs : VT.byUserType uid' ty' (VT.set_attempts (VT.attempts d + 1) d)
                 = false) by exact Hd'.
    now rewrite Hs, Hd'.
Qed.

Lemma other_records_untouched_witness :
  let mine := VT.mk 1 "u1" "a@b.c" "123456" VT.KEmail 0 5 0 0 600000 None None in
  let theirs := VT.mk 2 "u2" "c@d.e" "654321" VT.KEmail 0 5 0 0 600000 None None in
  ("u2", VT.KEmail) <> ("u1", VT.KEmail) /\
  uniqueIds [mine; theirs] /\
  filter (VT.byUserType "u2" VT.KEmail)
         (snd (VT.verifyOTP 1000 "u1" "000000" VT.KEmail [mine; theirs])) = [theirs].
Proof.
  intros mine theirs.
  assert (Hne : ("u2", VT.KEmail) <> ("u1", VT.KEmail)) by discriminate.
  assert (Huniq : uniqueIds [mine; theirs]).
  { unfold uniqueIds. cbn. repeat constructor; cbn; intuition discriminate. }
  split; [exact Hne|]. split; [exact Huniq|].
  exact (proj2 (other_records_untouched 1000 "000000" "u1" "a@b.c" VT.KEmail
                  [mine; theirs] "u2" VT.KEmail Hne Huniq)).
Defined.

Lemma uniqueIds_remove (d : VT.t) (l1 l2 : VT.collection) :
  uniqueIds (l1 ++ d :: l2) -> uniqueIds (l1 ++ l2).
Proof.
  unfold uniqueIds. rewrite !map_app. cbn [map]. apply NoDup_remove_1.
Qed.

Lemma uniqueIds_replace (d d' : VT.t) (l1 l2 : VT.collection) :
  VT._id d' = VT._id d ->
  uniqueIds (l1 ++ d :: l2) -> uniqueIds (l1 ++ d' :: l2).
Proof.
  unfold uniqueIds. rewrite !map_app. cbn [map]. now intros ->.
Qed.

(** X17.  The two invariants of the collection, distinct ids and at most one
    document per user and type, are kept by createOTP and by verifyOTP. *)
Theorem token_invariants_preserved :
  forall (now : Z) (code uid mail : string) (ty : VT.kind) (c : VT.collection),
    uniqueIds c ->
    atMostOnePer c ->
    (uniqueIds (snd (VT.createOTP now code uid mail ty c)) /\
     atMostOnePer (snd (VT.createOTP now code uid mail ty c))) /\
    (uniqueIds (snd (VT.verifyOTP now uid code ty c)) /\
     atMostOnePer (snd (VT.verifyOTP now uid code ty c))).
Proof.
  intros now code uid mail ty c Huniq Hone. split.
  - split; [now apply createOTP_uniqueIds|now apply createOTP_atMostOnePer].
  - unfold VT.verifyOTP.
    destruct (VT.findOne (VT.byUserType uid ty) c) as [d|] eqn:Hfind;
      [|split; assumption].
    assert (Hdel : uniqueIds (VT.deleteOne (VT.byId (VT._id d)) c) /\
                   atMostOnePer (VT.deleteOne (VT.byId (VT._id d)) c)).
    { destruct (deleteOne_found _ _ d Huniq Hfind) as (l1 & l2 & Hc & Hdel & _).
      rewrite Hdel. split.
      - rewrite Hc in Huniq. now apply uniqueIds_remove in Huniq.
      - intros d1 d2 H1 H2. apply Hone; rewrite Hc.
        + apply in_app_or in H1. apply in_or_app. destruct H1; [now left|right; now right].
        + apply in_app_or in H2. apply in_or_app. destruct H2; [now left|right; now right]. }
    destruct (VT.expiresAt d <? now); [exact Hdel|].
    destruct (VT.maxAttempts d <=? VT.attempts d); [exact Hdel|].
    destruct (negb (String.eqb (VT.otp d) code)); [|exact Hdel].
    cbn [snd]. set (d' := VT.set_attempts (VT.attempts d + 1) d).
    destruct (save_found _ _ d d' Huniq Hfind eq_refl) as (l1 & l2 & Hc & Hsave).
    rewrite Hsave. split.
    + rewrite Hc in Huniq. now apply (uniqueIds_replace d d').
    + rewrite Hc in Huniq. pose proof (uniqueIds_split d l1 l2 Huniq) as Hids.
      assert (Hold : forall x, In x (l1 ++ l2) -> In x c).
      { intros x Hx. rewrite Hc. apply in_app_or in Hx. apply in_or_app.
        destruct Hx; [now left|right; now right]. }
      assert (Hd : In d c) by (rewrite Hc; apply in_elt).
      intros d1 d2 H1 H2 Hu Ht.
      apply in_elt_inv in H1. apply in_elt_inv in H2.
      destruct H1 as [E1|H1], H2 as [E2|H2].
      * congruence.
      * exfalso. apply (Hids d2 H2). f_equal. symmetry.
        subst d1.
        apply Hone; [exact Hd|now apply Hold|exact Hu|exact Ht].
      * exfalso. apply (Hids d1 H1). f_equal.
        subst d2.
        apply Hone; [now apply Hold|exact Hd|exact Hu|exact Ht].
      * apply Hone; auto.
Qed.

Lemma token_invariants_preserved_witness :
  let mine := VT.mk 1 "u1" "a@b.c" "123456" VT.KEmail 0 5 0 0 600000 None None in
  let theirs := VT.mk 2 "u2" "c@d.e" "654321" VT.KEmail 0 5 0 0 600000 None None in
  uniqueIds [mine; theirs] /\ atMostOnePer [mine; theirs] /\
  atMostOnePer (snd (VT.verifyOTP 1000 "u1" "000000" VT.KEmail [mine; theirs])).
Proof.
  intros mine theirs.
  assert (Huniq : uniqueIds [mine; theirs]).
  { unfold uniqueIds. cbn. repeat constructor; cbn; intuition discriminate. }
  assert (Hone : atMostOnePer [mine; theirs]).
  { intros d1 d2 [<-|[<-|[]]] [<-|[<-|[]]] Hu Ht;
      try reflexivity; discriminate. }
  split; [exact Huniq|]. split; [exact Hone|].
  exact (proj2 (proj2 (token_invariants_preserved 1000 "000000" "u1" "a@b.c"
                         VT.KEmail [mine; theirs] Huniq Hone))).
Defined.

(** X18.  The rate limit lifts with the window: when every document of the
    user and type was last issued more than ten minutes before the clock
    reading, whatever its resendCount, canResend allows with count 0 and
    createOTP succeeds and starts again from resendCount 0. *)
Theorem rate_limit_lifts_after_window :
  forall (now : Z) (code uid mail : string) (ty : VT.kind) (c : VT.collection),
    (forall d : VT.t,
       In d c -> VT.userId d = uid -> VT.type d = ty ->
       VT.lastResendAt d + 10 * 60 * 1000 < now) ->
    VT.canResend now uid ty c = VT.CanResend 0 /\
    fst (VT.createOTP now code uid mail ty c) = inr code /\
    resendCountOf uid ty (snd (VT.createOTP now code uid mail ty c)) = Some 0.
Proof.
  intros now code uid mail ty c Hold.
  change (10 * 60 * 1000) with VT.window_ms in *.
  assert (Hnone : VT.findOne (VT.recentFor (now - VT.window_ms) uid ty) c = None).
  { apply find_all_false. intros x Hx.
    destruct (VT.recentFor (now - VT.window_ms) uid ty x) eqn:E; [|reflexivity].
    apply recentFor_true in E. destruct E as (Hu & Ht & Hw).
    specialize (Hold x Hx Hu Ht). lia. }
  unfold VT.canResend, VT.createOTP. rewrite Hnone.
  destruct (issue_issuedAt now code uid mail ty 0 c)
    as (d' & Hsole & (_ & _ & _ & Hc & _)).
  unfold VT.issue in *. cbn [fst snd] in *.
  split; [reflexivity|]. split; [reflexivity|].
  rewrite (soleRecord_resendCountOf _ _ _ _ Hsole). now rewrite Hc.
Qed.

Lemma rate_limit_lifts_after_window_witness :
  let d := VT.mk 1 "u1" "a@b.c" "123456" VT.KEmail 0 5 3 0 600000 None None in
  (forall x : VT.t,
     In x [d] -> VT.userId x = "u1" -> VT.type x = VT.KEmail ->
     VT.lastResendAt x + 10 * 60 * 1000 < 600001) /\
  fst (VT.createOTP 600000 "654321" "u1" "a@b.c" VT.KEmail [d])
    = inl (VT.TooManyRequests 0) /\
  fst (VT.createOTP 600001 "654321" "u1" "a@b.c" VT.KEmail [d]) = inr "654321".
Proof.
  intros d.
  assert (H : forall x : VT.t,
            In x [d] -> VT.userId x = "u1" -> VT.type x = VT.KEmail ->
            VT.lastResendAt x + 10 * 60 * 1000 < 600001).
  { intros x [<-|[]] _ _. cbn. lia. }
  split; [exact H|]. split; [reflexivity|].
  exact (proj1 (proj2 (rate_limit_lifts_after_window 600001 "654321" "u1"
                         "a@b.c" VT.KEmail [d] H))).
Defined.

(** X19.  When no document carries a lastResendAt later than the clock
    reading, a refusal asks for a wait within the window: canResend reports
    between 0 and 600 seconds and createOTP between 0 and 10 minutes; both
    are 0 exactly ten minutes after the last issuance, where the request is
    still refused. *)
Theorem wait_time_within_window :
  forall (now : Z) (code uid mail : string) (ty : VT.kind) (c : VT.collection),
    (forall d : VT.t, In d c -> VT.lastResendAt d <= now) ->
    (forall s n : Z, VT.canResend now uid ty c = VT.MustWait s n -> 0 <= s <= 600) /\
    (forall w : Z,
       fst (VT.createOTP now code uid mail ty c) = inl (VT.TooManyRequests w) ->
       0 <= w <= 10).
Proof.
  intros now code uid mail ty c Hpast.
  unfold VT.canResend, VT.createOTP.
  destruct (VT.findOne (VT.recentFor (now - VT.window_ms) uid ty) c)
    as [d|] eqn:Hfind.
  - apply find_some in Hfind. destruct Hfind as [Hin Hq].
    apply recentFor_true in Hq. destruct Hq as (_ & _ & Hw).
    specialize (Hpast d Hin). unfold VT.window_ms in *.
    destruct (3 <=? VT.resendCount d).
    + split.
      * intros s n [= <- _]. rewrite Qceiling_div_1000.
        match goal with
        | |- context [?a / 1000] =>
            assert (-600 <= a / 1000 <= 0)
              by (split; [apply Z.div_le_lower_bound
                         |apply Z.div_le_upper_bound]; lia)
        end.
        lia.
      * cbn [fst]. intros w [= <-]. rewrite waitTime_div. unfold VT.window_ms.
        match goal with
        | |- context [?a / 60000] =>
            assert (-10 <= a / 60000 <= 0)
              by (split; [apply Z.div_le_lower_bound
                         |apply Z.div_le_upper_bound]; lia)
        end.
        lia.
    + unfold VT.issue. cbn [fst]. split; [intros s n H|intros w H]; discriminate.
  - unfold VT.issue. cbn [fst]. split; [intros s n H|intros w H]; discriminate.
Qed.

Lemma wait_time_within_window_witness :
  let d := VT.mk 1 "u1" "a@b.c" "123456" VT.KEmail 0 5 3 0 600000 None None in
  (forall x : VT.t, In x [d] -> VT.lastResendAt x <= 600000) /\
  VT.canResend 600000 "u1" VT.KEmail [d] = VT.MustWait 0 3 /\
  0 <= 0 <= 600.
Proof.
  intros d.
  assert (H : forall x : VT.t, In x [d] -> VT.lastResendAt x <= 600000).
  { intros x [<-|[]]. cbn. lia. }
  split; [exact H|]. split; [reflexivity|].
  exact (proj1 (wait_time_within_window 600000 "654321" "u1" "a@b.c"
                  VT.KEmail [d] H) 0 3 eq_refl).
Defined.

(** X20.  The attempts counter never passes maxAttempts: when every document
    has attempts at most maxAttempts, so has every document after verifyOTP,
    and after createOTP, whose new document starts at 0 of 5. *)
Theorem attempts_never_exceed_max :
  forall (now : Z) (code uid mail : string) (ty : VT.kind) (c : VT.collection),
    Forall (fun d => VT.attempts d <= VT.maxAttempts d) c ->
    Forall (fun d => VT.attempts d <= VT.maxAttempts d)
           (snd (VT.verifyOTP now uid code ty c)) /\
    Forall (fun d => VT.attempts d <= VT.maxAttempts d)
           (snd (VT.createOTP now code uid mail ty c)).
Proof.
  intros now code uid mail ty c Hall.
  assert (Hdel : forall q l,
            Forall (fun d => VT.attempts d <= VT.maxAttempts d) l ->
            Forall (fun d => VT.attempts d <= VT.maxAttempts d) (VT.deleteOne q l)).
  { intros q l. induction 1 as [|a l Ha Hl IH]; cbn; [constructor|].
    destruct (q a); [exact Hl|now constructor]. }
  split.
  - unfold VT.verifyOTP.
    destruct (VT.findOne (VT.byUserType uid ty) c) as [d|] eqn:Hfind;
      [|exact Hall].
    destruct (VT.expiresAt d <? now); [now apply Hdel|].
    destruct (VT.maxAttempts d <=? VT.attempts d) eqn:Hmax; [now apply Hdel|].
    destruct (negb (String.eqb (VT.otp d) code)); [|now apply Hdel].
    cbn [snd]. apply Z.leb_gt in Hmax. unfold VT.save.
    apply Forall_forall. intros x Hx. apply in_map_iff in Hx.
    destruct Hx as (y & Hy & Hin).
    destruct (Nat.eqb (VT._id y) _).
    + subst x. cbn. lia.
    + subst x. rewrite Forall_forall in Hall. now apply Hall.
  - destruct (createOTP_collection now code uid mail ty c) as [->|[count ->]];
      [exact Hall|].
    apply Forall_app. split.
    + apply Forall_forall. intros x Hx. apply deleteMany_In in Hx.
      rewrite Forall_forall in Hall. now apply Hall.
    + constructor; [cbn; lia|constructor].
Qed.

Lemma attempts_never_exceed_max_witness :
  let d := VT.mk 1 "u1" "a@b.c" "123456" VT.KEmail 4 5 0 0 600000 None None in
  Forall (fun x => VT.attempts x <= VT.maxAttempts x) [d] /\
  Forall (fun x => VT.attempts x <= VT.maxAttempts x)
         (snd (VT.verifyOTP 1000 "u1" "000000" VT.KEmail [d])).
Proof.
  intros d.
  assert (H : Forall (fun x => VT.attempts x <= VT.maxAttempts x) [d]).
  { constructor; [cbn; lia|constructor]. }
  split; [exact H|].
  exact (proj1 (attempts_never_exceed_max 1000 "000000" "u1" "a@b.c"
                  VT.KEmail [d] H)).
Defined.

(** ** The password-reset handoff, further *)

Lemma otpFormat_truthy (otp : string) : AR.otpFormat otp = true -> JS.truthy otp = true.
Proof.
  unfold AR.otpFormat. destruct otp; [discriminate|reflexivity].
Qed.

Lemma long_truthy (pw : string) : (6 <= String.length pw)%nat -> JS.truthy pw = true.
Proof. destruct pw; cbn; [lia|reflexivity]. Qed.

Lemma soleRecord_byResetToken (uid tok : string) (d : VT.t) (c : VT.collection) :
  soleRecord uid VT.KPassword d c ->
  VT.findOne (AR.byResetToken uid tok) c =
  if AR.byResetToken uid tok d then Some d else None.
Proof.
  intros (others & -> & Hd & Hothers). unfold VT.findOne.
  rewrite find_app, find_all_false.
  - cbn. destruct (AR.byResetToken uid tok d); reflexivity.
  - intros x Hx. unfold AR.byResetToken.
    now rewrite (proj1 (Hothers x Hx)).
Qed.

Lemma soleRecord_deleteOne_eq (uid : string) (ty : VT.kind) (d : VT.t)
      (others : VT.collection) :
  soleRecord uid ty d (others ++ [d]) ->
  VT.deleteOne (VT.byId (VT._id d)) (others ++ [d]) = others.
Proof.
  intros (others' & Heq & _ & Hothers).
  apply app_inj_tail in Heq. destruct Heq as [<- _].
  rewrite deleteOne_split; [now rewrite app_nil_r|].
  intros x Hx. now apply Hothers.
Qed.

(** verify-reset-otp on the only document of the user, with the right code
    in time. *)
Lemma verifyResetOtp_sole (now : Z) (token uid otp : string)
      (users : list User.t) (user : User.t) (d : VT.t) (c : VT.collection) :
  soleRecord uid VT.KPassword d c ->
  JS.truthy uid = true -> AR.otpFormat otp = true ->
  AR.findById uid users = Some user ->
  now <= VT.expiresAt d -> VT.attempts d < VT.maxAttempts d -> VT.otp d = otp ->
  let d' := VT.set_resetToken token (now + 5 * 60 * 1000) d in
  AR.verifyResetOtp now token uid otp (AR.mkDb users c) =
    (AR.Verified token (User._id user), AR.mkDb users (VT.save d' c)) /\
  soleRecord uid VT.KPassword d' (VT.save d' c).
Proof.
  intros Hsole Hu Hfmt Huser Hexp Hatt Hotp d'. split.
  - unfold AR.verifyResetOtp. cbn [AR.users AR.tokens].
    rewrite Hu, (otpFormat_truthy otp Hfmt), Hfmt, Huser. cbn [negb orb].
    rewrite (soleRecord_findOne _ _ _ _ Hsole).
    apply Z.ltb_ge in Hexp. rewrite Hexp.
    apply Z.leb_gt in Hatt. rewrite Hatt.
    rewrite Hotp, String.eqb_refl. reflexivity.
  - apply (soleRecord_save uid VT.KPassword d d' c Hsole); [reflexivity|].
    destruct Hsole as (_ & _ & Hd & _). exact Hd.
Qed.

(** X21.  The whole handoff goes through: after createOTP has issued a
    six-digit code of type password for an existing user, verify-reset-otp
    with that code within ten minutes answers with the reset token, and
    reset-password with that token within five more minutes and a password of
    at least six characters succeeds, stores the password and leaves no
    document of type password for the user. *)
Theorem password_reset_end_to_end :
  forall (users : list User.t) (c : VT.collection) (uid mail code token pw : string)
         (u : User.t) (t0 t1 t2 : Z),
    fst (VT.createOTP t0 code uid mail VT.KPassword c) = inr code ->
    AR.otpFormat code = true ->
    JS.truthy uid = true -> JS.truthy token = true ->
    (6 <= String.length pw)%nat ->
    AR.findById uid users = Some u ->
    t1 <= t0 + 10 * 60 * 1000 ->
    t2 <= t1 + 5 * 60 * 1000 ->
    let s0 := AR.mkDb users (snd (VT.createOTP t0 code uid mail VT.KPassword c)) in
    let s1 := snd (AR.verifyResetOtp t1 token uid code s0) in
    let s2 := snd (AR.resetPassword t2 uid token pw s1) in
    fst (AR.verifyResetOtp t1 token uid code s0) = AR.Verified token (User._id u) /\
    fst (AR.resetPassword t2 uid token pw s1) = AR.PasswordReset /\
    AR.tokens s2 = VT.deleteMany (VT.byUserType uid VT.KPassword) c /\
    AR.findById uid (AR.users s2) = Some (User.set_password pw u).
Proof.
  intros users c uid mail code token pw u t0 t1 t2
         Hissued Hfmt Hu Htok Hpw Huser Ht1 Ht2 s0 s1 s2.
  change (10 * 60 * 1000) with VT.window_ms in *.
  destruct (createOTP_success_shape _ _ _ _ _ _ _ Hissued) as (count & Hshape).
  set (doc := VT.mk (VT.freshId c) uid mail code VT.KPassword 0 5 count t0
                    (t0 + VT.window_ms) None None) in *.
  set (others := VT.deleteMany (VT.byUserType uid VT.KPassword) c) in *.
  pose proof (proj2 (issue_soleRecord t0 code uid mail VT.KPassword count c)) as Hsole.
  unfold VT.issue in Hsole. cbn [snd] in Hsole. fold doc others in Hsole.
  set (d' := VT.set_resetToken token (t1 + 5 * 60 * 1000) doc).
  destruct (verifyResetOtp_sole t1 token uid code users u doc (others ++ [doc])
              Hsole Hu Hfmt Huser Ht1 ltac:(cbn; lia) eq_refl) as [Hv Hsole'].
  fold d' in Hv, Hsole'.
  assert (Hsave : VT.save d' (others ++ [doc]) = others ++ [d']).
  { apply save_split; [reflexivity|]. rewrite app_nil_r.
    destruct Hsole as (o & Heq & _ & Ho). apply app_inj_tail in Heq.
    destruct Heq as [<- _]. intros x Hx. now apply Ho. }
  rewrite Hsave in Hv, Hsole'.
  assert (Hs1 : s1 = AR.mkDb users (others ++ [d'])).
  { subst s1 s0. rewrite Hshape, Hv. reflexivity. }
  assert (Hq : AR.byResetToken uid token d' = true).
  { apply byResetToken_true. repeat split. }
  assert (Hr : AR.resetPassword t2 uid token pw s1 =
               (AR.PasswordReset,
                AR.mkDb (AR.saveUser (User.set_password pw u) users) others)).
  { rewrite Hs1. unfold AR.resetPassword. cbn [AR.users AR.tokens].
    rewrite Hu, Htok, (long_truthy pw Hpw). cbn [negb orb].
    destruct (Nat.ltb_spec (String.length pw) 6) as [Hlt|_]; [lia|].
    rewrite (soleRecord_byResetToken uid token d' _ Hsole'), Hq.
    assert (Hstale : AR.resetTokenStale t2 d' = false).
    { unfold AR.resetTokenStale. cbn. apply Z.ltb_ge. lia. }
    rewrite Hstale, Huser.
    now rewrite (soleRecord_deleteOne_eq uid VT.KPassword d' others Hsole'). }
  split.
  - subst s0. rewrite Hshape, Hv. reflexivity.
  - subst s2. rewrite Hr. cbn [fst snd AR.tokens AR.users].
    split; [reflexivity|]. split; [reflexivity|].
    apply (findById_saveUser uid u); [exact Huser|].
    unfold AR.findById in Huser. apply find_some in Huser.
    cbn. now apply String.eqb_eq.
Qed.

Lemma password_reset_end_to_end_witness :
  let user := exampleUser 100 100 0 in
  let s0 := AR.mkDb [user]
                    (snd (VT.createOTP 0 "123456" "u1" "a@b.c" VT.KPassword [])) in
  let s1 := snd (AR.verifyResetOtp 600000 "tok123" "u1" "123456" s0) in
  fst (VT.createOTP 0 "123456" "u1" "a@b.c" VT.KPassword []) = inr "123456" /\
  600000 <= 0 + 10 * 60 * 1000 /\ 900000 <= 600000 + 5 * 60 * 1000 /\
  fst (AR.resetPassword 900000 "u1" "tok123" "hunter22" s1) = AR.PasswordReset.
Proof.
  intros user s0 s1.
  assert (H1 : 600000 <= 0 + 10 * 60 * 1000) by lia.
  assert (H2 : 900000 <= 600000 + 5 * 60 * 1000) by lia.
  assert (Hlen : (6 <= String.length "hunter22")%nat) by (cbn; lia).
  split; [reflexivity|]. split; [exact H1|]. split; [exact H2|].
  exact (proj1 (proj2 (password_reset_end_to_end [user] [] "u1" "a@b.c"
                         "123456" "tok123" "hunter22" user 0 600000 900000
                         eq_refl eq_refl eq_refl eq_refl Hlen eq_refl H1 H2))).
Defined.

Lemma resetPassword_success_found (now : Z) (uid tok pw : string) (s : AR.db) :
  fst (AR.resetPassword now uid tok pw s) = AR.PasswordReset ->
  exists d : VT.t,
    VT.findOne (AR.byResetToken uid tok) (AR.tokens s) = Some d.
Proof.
  unfold AR.resetPassword.
  destruct (negb (JS.truthy uid) || negb (JS.truthy tok) || negb (JS.truthy pw));
    [discriminate|].
  destruct (Nat.ltb (String.length pw) 6); [discriminate|].
  destruct (VT.findOne (AR.byResetToken uid tok) (AR.tokens s)) as [d|];
    [|discriminate].
  intros _. now exists d.
Qed.

(** X22.  A reset token is good for one password change: over a collection
    with distinct ids and at most one document per user and type, after a
    successful reset-password no document of type password is left for the
    user, and no later reset-password for that user succeeds on the database
    it left, whatever token, password and clock reading it brings. *)
Theorem reset_token_single_use :
  forall (now : Z) (uid tok pw : string) (s : AR.db),
    uniqueIds (AR.tokens s) ->
    atMostOnePer (AR.tokens s) ->
    fst (AR.resetPassword now uid tok pw s) = AR.PasswordReset ->
    let s' := snd (AR.resetPassword now uid tok pw s) in
    VT.findOne (VT.byUserType uid VT.KPassword) (AR.tokens s') = None /\
    forall (now' : Z) (tok' pw' : string),
      fst (AR.resetPassword now' uid tok' pw' s') <> AR.PasswordReset.
Proof.
  intros now uid tok pw s Huniq Hone Hok s'.
  destruct (resetPassword_success now uid tok pw s Huniq Hok)
    as (d & u & Hin & (Hdu & Hdt & _) & _ & Htokens & Hids & _).
  fold s' in Htokens, Hids.
  assert (Hnone : VT.findOne (VT.byUserType uid VT.KPassword) (AR.tokens s') = None).
  { apply find_all_false. intros x Hx.
    destruct (VT.byUserType uid VT.KPassword x) eqn:E; [|reflexivity].
    exfalso. apply byUserType_true in E. destruct E as [Exu Ext].
    apply (Hids x Hx). f_equal.
    apply Hone; [|exact Hin|congruence|congruence].
    rewrite Htokens in Hx.
    clear - Hx. induction (AR.tokens s) as [|a l IH]; [contradiction|].
    cbn in Hx. destruct (VT.byId (VT._id d) a); [now right|].
    destruct Hx as [<-|Hx]; [now left|right; now apply IH]. }
  split; [exact Hnone|].
  intros now' tok' pw' Hagain.
  destruct (resetPassword_success_found _ _ _ _ _ Hagain) as (x & Hfind).
  apply find_some in Hfind. destruct Hfind as [Hx Hq].
  pose proof (find_none _ _ Hnone x Hx) as Hfalse.
  unfold AR.byResetToken in Hq. rewrite Hfalse in Hq. discriminate.
Qed.

Lemma reset_token_single_use_witness :
  let user := exampleUser 100 100 0 in
  let issued := snd (VT.createOTP 0 "123456" "u1" "a@b.c" VT.KPassword []) in
  let s1 := snd (AR.verifyResetOtp 1000 "tok123" "u1" "123456"
                   (AR.mkDb [user] issued)) in
  let s2 := snd (AR.resetPassword 2000 "u1" "tok123" "hunter22" s1) in
  uniqueIds (AR.tokens s1) /\ atMostOnePer (AR.tokens s1) /\
  fst (AR.resetPassword 2000 "u1" "tok123" "hunter22" s1) = AR.PasswordReset /\
  fst (AR.resetPassword 3000 "u1" "tok123" "hunter23" s2) <> AR.PasswordReset.
Proof.
  intros user issued s1 s2.
  assert (Huniq : uniqueIds (AR.tokens s1)).
  { unfold uniqueIds. cbn. constructor; [intros []|constructor]. }
  assert (Hone : atMostOnePer (AR.tokens s1)).
  { intros d1 d2 H1 H2 _ _. cbn in H1, H2.
    destruct H1 as [<-|[]], H2 as [<-|[]]. reflexivity. }
  split; [exact Huniq|]. split; [exact Hone|]. split; [reflexivity|].
  exact (proj2 (reset_token_single_use 2000 "u1" "tok123" "hunter22" s1
                  Huniq Hone eq_refl) 3000 "tok123" "hunter23").
Defined.

(** X23.  Asking for a new code voids a pending reset token: after a
    successful createOTP of type password for a user, reset-password for that
    user fails whatever reset token it brings, since the only document left
    for the user carries none. *)
Theorem new_code_voids_reset_token :
  forall (users : list User.t) (c : VT.collection) (now t : Z)
         (code uid mail tok pw : string),
    fst (VT.createOTP now code uid mail VT.KPassword c) = inr code ->
    let s := AR.mkDb users (snd (VT.createOTP now code uid mail VT.KPassword c)) in
    fst (AR.resetPassword t uid tok pw s) <> AR.PasswordReset /\
    (JS.truthy uid = true -> JS.truthy tok = true ->
     (6 <= String.length pw)%nat ->
     AR.resetPassword t uid tok pw s = (AR.InvalidOrExpiredResetToken, s)).
Proof.
  intros users c now t code uid mail tok pw Hok s.
  destruct (createOTP_success_shape _ _ _ _ _ _ _ Hok) as (count & Hshape).
  pose proof (proj2 (issue_soleRecord now code uid mail VT.KPassword count c)) as Hsole.
  unfold VT.issue in Hsole. cbn [snd] in Hsole. rewrite <- Hshape in Hsole.
  assert (Hnone : VT.findOne (AR.byResetToken uid tok) (AR.tokens s) = None).
  { subst s. cbn [AR.tokens].
    rewrite (soleRecord_byResetToken uid tok _ _ Hsole).
    unfold AR.byResetToken. cbn. now rewrite andb_false_r. }
  split.
  - intros Hagain.
    destruct (resetPassword_success_found _ _ _ _ _ Hagain) as (x & Hfind).
    congruence.
  - intros Hu Ht Hpw. unfold AR.resetPassword.
    rewrite Hu, Ht, (long_truthy pw Hpw). cbn [negb orb].
    destruct (Nat.ltb_spec (String.length pw) 6) as [Hlt|_]; [lia|].
    now rewrite Hnone.
Qed.

Lemma new_code_voids_reset_token_witness :
  let user := exampleUser 100 100 0 in
  let issued := snd (VT.createOTP 0 "123456" "u1" "a@b.c" VT.KPassword []) in
  let s1 := snd (AR.verifyResetOtp 1000 "tok123" "u1" "123456"
                   (AR.mkDb [user] issued)) in
  fst (AR.resetPassword 3000 "u1" "tok123" "hunter22" s1) = AR.PasswordReset /\
  fst (VT.createOTP 2000 "654321" "u1" "a@b.c" VT.KPassword (AR.tokens s1))
    = inr "654321" /\
  fst (AR.resetPassword 3000 "u1" "tok123" "hunter22"
         (AR.mkDb [user]
            (snd (VT.createOTP 2000 "654321" "u1" "a@b.c" VT.KPassword
                    (AR.tokens s1)))))
    <> AR.PasswordReset.
Proof.
  intros user issued s1.
  split; [reflexivity|]. split; [reflexivity|].
  exact (proj1 (new_code_voids_reset_token [user] (AR.tokens s1) 2000 3000
                  "654321" "u1" "a@b.c" "tok123" "hunter22" eq_refl)).
Defined.

(** X24.  The verify-reset-otp handler decides as verifyOTP does for type
    password: for a present user id, a six-digit code and an existing user,
    it answers not-found, expired, too-many-attempts and invalid-code (with
    the same remaining attempts) exactly when verifyOTP would, leaving the
    same collection; where verifyOTP would accept and delete the document,
    the handler accepts and keeps it, with the reset token stored. *)
Theorem verifyResetOtp_follows_verifyOTP :
  forall (now : Z) (token uid otp : string) (s : AR.db) (user : User.t),
    JS.truthy uid = true ->
    AR.otpFormat otp = true ->
    AR.findById uid (AR.users s) = Some user ->
    let handler := AR.verifyResetOtp now token uid otp s in
    match VT.verifyOTP now uid otp VT.KPassword (AR.tokens s) with
    | (VT.NoCodeFound, c') =>
        fst handler = AR.NoCodeFound /\ AR.tokens (snd handler) = c'
    | (VT.CodeExpired, c') =>
        fst handler = AR.CodeExpired /\ AR.tokens (snd handler) = c'
    | (VT.TooManyAttempts, c') =>
        fst handler = AR.TooManyAttempts /\ AR.tokens (snd handler) = c'
    | (VT.InvalidCode n, c') =>
        fst handler = AR.InvalidCode n /\ AR.tokens (snd handler) = c'
    | (VT.Valid _, c') =>
        fst handler = AR.Verified token (User._id user) /\
        exists d : VT.t,
          VT.findOne (VT.byUserType uid VT.KPassword) (AR.tokens s) = Some d /\
          c' = VT.deleteOne (VT.byId (VT._id d)) (AR.tokens s) /\
          AR.tokens (snd handler) =
            VT.save (VT.set_resetToken token (now + 5 * 60 * 1000) d) (AR.tokens s)
    end /\
    AR.users (snd handler) = AR.users s.
Proof.
  intros now token uid otp s user Hu Hfmt Huser handler.
  subst handler. unfold AR.verifyResetOtp, VT.verifyOTP.
  rewrite Hu, (otpFormat_truthy otp Hfmt), Hfmt, Huser. cbn [negb orb].
  destruct (VT.findOne (VT.byUserType uid VT.KPassword) (AR.tokens s)) as [d|];
    [|split; [split|]; reflexivity].
  destruct (VT.expiresAt d <? now); [split; [split|]; reflexivity|].
  destruct (VT.maxAttempts d <=? VT.attempts d); [split; [split|]; reflexivity|].
  destruct (negb (String.eqb (VT.otp d) otp)); [split; [split|]; reflexivity|].
  split; [|reflexivity]. split; [reflexivity|].
  exists d. repeat split.
Qed.

Lemma verifyResetOtp_follows_verifyOTP_witness :
  let user := exampleUser 100 100 0 in
  let issued := snd (VT.createOTP 0 "123456" "u1" "a@b.c" VT.KPassword []) in
  let s := AR.mkDb [user] issued in
  JS.truthy "u1" = true /\ AR.otpFormat "000000" = true /\
  AR.findById "u1" (AR.users s) = Some user /\
  fst (AR.verifyResetOtp 1000 "tok123" "u1" "000000" s) = AR.InvalidCode 4.
Proof.
  intros user issued s.
  split; [reflexivity|]. split; [reflexivity|]. split; [reflexivity|].
  exact (proj1 (proj1 (verifyResetOtp_follows_verifyOTP 1000 "tok123" "u1"
                         "000000" s user eq_refl eq_refl eq_refl))).
Defined.

(** X25.  Verification does not use the code up: after a successful
    verify-reset-otp the same code is accepted again until it expires, the
    attempts counter unchanged; the second verification replaces the reset
    token, and reset-password with the first token is then refused. *)
Theorem reverify_replaces_reset_token :
  forall (users : list User.t) (c : VT.collection)
         (uid mail code tok1 tok2 pw : string) (u : User.t) (t0 t1 t2 t3 : Z),
    fst (VT.createOTP t0 code uid mail VT.KPassword c) = inr code ->
    AR.otpFormat code = true ->
    JS.truthy uid = true ->
    AR.findById uid users = Some u ->
    t1 <= t0 + 10 * 60 * 1000 ->
    t2 <= t0 + 10 * 60 * 1000 ->
    tok1 <> tok2 ->
    let s0 := AR.mkDb users (snd (VT.createOTP t0 code uid mail VT.KPassword c)) in
    let s1 := snd (AR.verifyResetOtp t1 tok1 uid code s0) in
    let s2 := snd (AR.verifyResetOtp t2 tok2 uid code s1) in
    fst (AR.verifyResetOtp t1 tok1 uid code s0) = AR.Verified tok1 (User._id u) /\
    fst (AR.verifyResetOtp t2 tok2 uid code s1) = AR.Verified tok2 (User._id u) /\
    (exists d : VT.t,
       VT.findOne (VT.byUserType uid VT.KPassword) (AR.tokens s2) = Some d /\
       VT.resetToken d = Some tok2 /\ VT.attempts d = 0 /\
       VT.resetTokenExpiresAt d = Some (t2 + 5 * 60 * 1000)) /\
    fst (AR.resetPassword t3 uid tok1 pw s2) <> AR.PasswordReset.
Proof.
  intros users c uid mail code tok1 tok2 pw u t0 t1 t2 t3
         Hissued Hfmt Hu Huser Ht1 Ht2 Hne s0 s1 s2.
  change (10 * 60 * 1000) with VT.window_ms in *.
  destruct (createOTP_success_shape _ _ _ _ _ _ _ Hissued) as (count & Hshape).
  set (doc := VT.mk (VT.freshId c) uid mail code VT.KPassword 0 5 count t0
                    (t0 + VT.window_ms) None None) in *.
  pose proof (proj2 (issue_soleRecord t0 code uid mail VT.KPassword count c)) as Hsole.
  unfold VT.issue in Hsole. cbn [snd] in Hsole. fold doc in Hsole.
  rewrite <- Hshape in Hsole.
  set (c0 := snd (VT.createOTP t0 code uid mail VT.KPassword c)) in *.
  set (d1 := VT.set_resetToken tok1 (t1 + 5 * 60 * 1000) doc).
  destruct (verifyResetOtp_sole t1 tok1 uid code users u doc c0
              Hsole Hu Hfmt Huser Ht1 ltac:(cbn; lia) eq_refl) as [Hv1 Hsole1].
  fold d1 in Hv1, Hsole1.
  assert (Hs1 : s1 = AR.mkDb users (VT.save d1 c0)).
  { subst s1 s0. now rewrite Hv1. }
  set (d2 := VT.set_resetToken tok2 (t2 + 5 * 60 * 1000) d1).
  destruct (verifyResetOtp_sole t2 tok2 uid code users u d1 (VT.save d1 c0)
              Hsole1 Hu Hfmt Huser Ht2 ltac:(cbn; lia) eq_refl) as [Hv2 Hsole2].
  fold d2 in Hv2, Hsole2.
  assert (Hs2 : s2 = AR.mkDb users (VT.save d2 (VT.save d1 c0))).
  { subst s2. rewrite Hs1. now rewrite Hv2. }
  split; [subst s0; now rewrite Hv1|].
  split; [rewrite Hs1; now rewrite Hv2|].
  split.
  - exists d2. rewrite Hs2. cbn [AR.tokens].
    split; [now apply soleRecord_findOne|]. repeat split.
  - intros Hagain.
    destruct (resetPassword_success_found _ _ _ _ _ Hagain) as (x & Hfind).
    rewrite Hs2 in Hfind. cbn [AR.tokens] in Hfind.
    rewrite (soleRecord_byResetToken uid tok1 d2 _ Hsole2) in Hfind.
    assert (Hq : AR.byResetToken uid tok1 d2 = false).
    { destruct (AR.byResetToken uid tok1 d2) eqn:E; [|reflexivity].
      apply byResetToken_true in E. destruct E as (_ & _ & E).
      cbn in E. congruence. }
    rewrite Hq in Hfind. discriminate.
Qed.

Lemma reverify_replaces_reset_token_witness :
  let user := exampleUser 100 100 0 in
  let s0 := AR.mkDb [user]
                    (snd (VT.createOTP 0 "123456" "u1" "a@b.c" VT.KPassword [])) in
  let s1 := snd (AR.verifyResetOtp 1000 "tokA" "u1" "123456" s0) in
  let s2 := snd (AR.verifyResetOtp 2000 "tokB" "u1" "123456" s1) in
  fst (VT.createOTP 0 "123456" "u1" "a@b.c" VT.KPassword []) = inr "123456" /\
  "tokA" <> "tokB" /\
  fst (AR.verifyResetOtp 2000 "tokB" "u1" "123456" s1) = AR.Verified "tokB" "u1" /\
  fst (AR.resetPassword 3000 "u1" "tokA" "hunter22" s2) <> AR.PasswordReset.
Proof.
  intros user s0 s1 s2.
  assert (Hne : "tokA" <> "tokB") by discriminate.
  assert (H1 : 1000 <= 0 + 10 * 60 * 1000) by lia.
  assert (H2 : 2000 <= 0 + 10 * 60 * 1000) by lia.
  destruct (reverify_replaces_reset_token [user] [] "u1" "a@b.c" "123456"
              "tokA" "tokB" "hunter22" user 0 1000 2000 3000
              eq_refl eq_refl eq_refl eq_refl H1 H2 Hne)
    as (_ & Hv2 & _ & Hno).
  split; [reflexivity|]. split; [exact Hne|]. split; [exact Hv2|exact Hno].
Defined.

(** ** generateOTP *)

Lemma isDigit_decimal (k : Z) :
  AR.isDigit (ascii_of_nat (48 + Z.to_nat (k mod 10))) = true.
Proof.
  pose proof (Z.mod_pos_bound k 10 ltac:(lia)) as Hk.
  unfold AR.isDigit. rewrite nat_ascii_embedding by lia.
  apply andb_true_intro. split; apply Nat.leb_le; lia.
Qed.

Lemma generateOTP_range (random : Q) :
  (0 <= random)%Q -> (random < 1)%Q ->
  100000 <= Qfloor (100000 + random * 900000)%Q <= 999999.
Proof.
  intros H0 H1.
  assert (Hlo : (inject_Z 100000 <= 100000 + random * 900000)%Q).
  { rewrite <- (Qplus_0_r (inject_Z 100000)) at 1.
    apply Qplus_le_r. apply Qmult_le_0_compat; [exact H0|discriminate]. }
  assert (Hhi : (100000 + random * 900000 < inject_Z 1000000)%Q).
  { setoid_replace (inject_Z 1000000) with (100000 + 1 * 900000)%Q
      by reflexivity.
    apply Qplus_lt_r. apply Qmult_lt_r; [reflexivity|exact H1]. }
  split.
  - rewrite <- (Qfloor_Z 100000). now apply Qfloor_resp_le.
  - assert (Hlt : Qfloor (100000 + random * 900000)%Q < 1000000).
    { rewrite Zlt_Qlt. eapply Qle_lt_trans; [apply Qfloor_le|exact Hhi]. }
    lia.
Qed.

Lemma div10_bounds (a lo hi : Z) :
  10 * lo <= a -> a < 10 * hi -> lo <= a / 10 < hi.
Proof.
  intros Hlo Hhi. split;
    [apply Z.div_le_lower_bound|apply Z.div_lt_upper_bound]; lia.
Qed.

Lemma toString_six_digits (n : Z) :
  100000 <= n <= 999999 ->
  AR.otpFormat (toString n) = true /\ String.length (toString n) = 6%nat.
Proof.
  intros Hn. unfold toString.
  assert (Hlog : 16 <= Z.log2 n) by (apply Z.log2_le_pow2; lia).
  destruct (Z.to_nat (Z.log2 n)) as [|[|[|[|[|fuel]]]]] eqn:E; try lia.
  pose proof (div10_bounds n 10000 100000 ltac:(lia) ltac:(lia)) as B1.
  pose proof (div10_bounds (n / 10) 1000 10000 ltac:(lia) ltac:(lia)) as B2.
  pose proof (div10_bounds (n / 10 / 10) 100 1000 ltac:(lia) ltac:(lia)) as B3.
  pose proof (div10_bounds (n / 10 / 10 / 10) 10 100 ltac:(lia) ltac:(lia)) as B4.
  pose proof (div10_bounds (n / 10 / 10 / 10 / 10) 1 10 ltac:(lia) ltac:(lia)) as B5.
  cbn [decimalDigits].
  repeat match goal with
         | |- context [?a <? 10] =>
             destruct (Z.ltb_spec a 10); try (exfalso; lia)
         end.
  unfold AR.otpFormat.
  cbn [list_ascii_of_string List.length Nat.eqb forallb String.length andb].
  rewrite !isDigit_decimal. split; reflexivity.
Qed.

(** X26.  Every code generateOTP produces, for a random number in [0, 1),
    is the decimal writing of an integer from 100000 to 999999: six
    characters, all digits, so it passes the format test the verify handlers
    apply before looking at the collection. *)
Theorem generateOTP_passes_format :
  forall random : Q,
    (0 <= random)%Q -> (random < 1)%Q ->
    AR.otpFormat (generateOTP random) = true /\
    String.length (generateOTP random) = 6%nat /\
    JS.truthy (generateOTP random) = true.
Proof.
  intros random H0 H1. unfold generateOTP.
  destruct (toString_six_digits _ (generateOTP_range random H0 H1)) as [Hf Hl].
  split; [exact Hf|]. split; [exact Hl|]. now apply otpFormat_truthy.
Qed.

Lemma generateOTP_passes_format_witness :
  (0 <= 1 # 3)%Q /\ (1 # 3 < 1)%Q /\
  generateOTP (1 # 3) = "400000" /\
  AR.otpFormat (generateOTP (1 # 3)) = true.
Proof.
  assert (H0 : (0 <= 1 # 3)%Q) by discriminate.
  assert (H1 : (1 # 3 < 1)%Q) by reflexivity.
  split; [exact H0|]. split; [exact H1|]. split; [reflexivity|].
  exact (proj1 (generateOTP_passes_format (1 # 3) H0 H1)).
Defined.
